(** * Monitoring dashboard (web/static/js/monitoring.js)

    A shallow embedding of the [MonitoringDashboard] object of
    [web/static/js/monitoring.js]: its five fields, the part of the page
    (DOM) it reads and writes, and the browser services it calls (timers,
    [fetch], Chart.js).  Every method is a function on that state; the
    asynchronous continuation of a [fetch] is a function of its own that
    takes the outcome of the request. *)

From Stdlib Require Import ZArith Ascii String List Permutation Sorted Lia.
From Stdlib Require Import QArith Qround Lqa.
From Stdlib Require OrderedTypeEx.
From Stdlib Require Import DecimalString.
From Stdlib Require DecimalZ DecimalPos.
From stdpp Require Import gmap strings list sorting.

Local Open Scope Z_scope.

(** ** JavaScript strings and objects *)

Module Js.

(** [String.prototype.includes]: [sub] occurs somewhere in [s]. *)
Fixpoint includes (s sub : string) : bool :=
  String.prefix sub s ||
  match s with
  | EmptyString => false
  | String _ s' => includes s' sub
  end.

(** [s.replace(pat, '')] for a string pattern: the first occurrence of
    [pat] is removed, the rest is kept. *)
Fixpoint removeFirst (pat s : string) : string :=
  if String.prefix pat s
  then String.substring (String.length pat) (String.length s - String.length pat) s
  else match s with
       | EmptyString => EmptyString
       | String c s' => String c (removeFirst pat s')
       end.

(** [s.replace(/c/g, d)] for single characters. *)
Fixpoint replaceAllChar (c d : ascii) (s : string) : string :=
  match s with
  | EmptyString => EmptyString
  | String a s' => String (if Ascii.eqb a c then d else a) (replaceAllChar c d s')
  end.

(** [s.replace(/suffix$/, '')]: a trailing [suffix] is removed. *)
Fixpoint removeSuffix (suffix s : string) : string :=
  if String.eqb s suffix then EmptyString
  else match s with
       | EmptyString => EmptyString
       | String c s' => String c (removeSuffix suffix s')
       end.

Definition lowerChar (a : ascii) : ascii :=
  let n := nat_of_ascii a in
  if (65 <=? n)%nat && (n <=? 90)%nat then ascii_of_nat (n + 32) else a.

(** [String.prototype.toLowerCase] on the ASCII range. *)
Fixpoint toLowerCase (s : string) : string :=
  match s with
  | EmptyString => EmptyString
  | String a s' => String (lowerChar a) (toLowerCase s')
  end.

(** A plain object as the list of its own enumerable properties, in the
    order [Object.entries] yields them.  Keys are unique. *)
Definition object (V : Type) := list (string * V).

(** [o[k]]. *)
Fixpoint get {V} (k : string) (o : object V) : option V :=
  match o with
  | [] => None
  | (k', v) :: o' => if String.eqb k' k then Some v else get k o'
  end.

(** [o[k] = v]: an existing property keeps its place, a new one goes last. *)
Fixpoint set {V} (k : string) (v : V) (o : object V) : object V :=
  match o with
  | [] => [(k, v)]
  | (k', v') :: o' =>
      if String.eqb k' k then (k', v) :: o' else (k', v') :: set k v o'
  end.

Definition keys {V} (o : object V) : list string := map fst o.

(** [[...new Set(l)]]: the distinct elements, each at its first place. *)
Fixpoint unique (l : list string) : list string :=
  match l with
  | [] => []
  | x :: l' => x :: List.filter (fun y => negb (String.eqb y x)) (unique l')
  end.

(** [Array.prototype.includes] on strings. *)
Definition contains (l : list string) (x : string) : bool :=
  existsb (String.eqb x) l.

(** [Array.prototype.indexOf] on strings, counted from [i]. *)
Fixpoint indexFrom (i : nat) (x : string) (l : list string) : option nat :=
  match l with
  | [] => None
  | y :: l' => if String.eqb y x then Some i else indexFrom (S i) x l'
  end.

(** [s.split(c).pop()]: what follows the last [c] in [s]. *)
Fixpoint lastSegment (c : ascii) (s : string) : string :=
  match s with
  | EmptyString => EmptyString
  | String a s' =>
      if includes s' (String c EmptyString) then lastSegment c s'
      else if Ascii.eqb a c then s' else s
  end.

(** [Array.prototype.sort(cmp)].  The standard asks for a stable sort and
    leaves the algorithm to the engine; with a consistent comparator
    every such algorithm yields the same array, which is computed here
    by insertion from the right: an element goes behind the elements
    that compare strictly smaller and in front of all others. *)
Fixpoint insert {A} (cmp : A -> A -> Z) (x : A) (l : list A) : list A :=
  match l with
  | [] => [x]
  | y :: l' => if 0 <? cmp x y then y :: insert cmp x l' else x :: l
  end.

Definition sort {A} (cmp : A -> A -> Z) (l : list A) : list A :=
  fold_right (insert cmp) [] l.

Definition wf {V} (o : object V) : Prop := NoDup (keys o).

(** The outcome of [fetch(..).then(r => r.json())]: the promise is
    rejected (no connection, or a body that is not JSON) or resolved
    with the decoded body. *)
Inductive reply (A : Type) : Type :=
| Rejected
| Resolved (data : A).
Arguments Rejected {A}.
Arguments Resolved {A} data.

End Js.

(** A JSON number.  The dashboard only moves samples around and divides
    network rates by 1024. *)
Definition number := QArith_base.Q.

(** A metric series: [[timestamp, value], ...], oldest first. *)
Definition series := list (Z * number).

Definition MetricsData := Js.object series.

(** ** The host: locale, Chart.js, timers, network *)

(** What the engine takes from the browser's locale: [toLocaleTimeString]
    and [toLocaleString] on a [Date] (given here by its instant), and
    [String.prototype.localeCompare]. *)
Class Locale := {
  toLocaleTimeString : Z -> string;
  toLocaleString : Z -> string;
  localeCompare : string -> string -> Z
}.


(** A Chart.js chart, reduced to what the dashboard sets: the canvas it
    paints, its kind, the labels, the data sets, the upper bound of the
    value axis, the title, and how often [update()] was called on it. *)
Record Dataset := mkDataset {
  ds_label : string;
  ds_data : list number
}.

Record Chart := mkChart {
  chart_canvas : string;
  chart_type : string;
  chart_labels : list string;
  chart_datasets : list Dataset;
  chart_ymax : option Z;
  chart_title : option string;
  chart_updates : nat
}.

(** A request handed to [fetch]. *)
Record Request := mkRequest {
  req_method : string;
  req_url : string;
  req_body : Js.object string
}.

Definition GET (url : string) : Request := mkRequest "GET" url [].

(** The browser side.  [heap] holds every Chart object ever constructed; a
    reference to a chart is its index there, so two references are the
    same object exactly when they are equal.  [intervals] holds the live
    [setInterval] timers with their period in milliseconds; the callback
    of each is the dashboard's refresh. *)
Record Browser := mkBrowser {
  heap : list Chart;
  intervals : gmap positive Z;
  nextInterval : positive;
  now : Z;
  requests : list Request
}.

(** ** The MonitoringDashboard object *)

Record Dashboard := mkDashboard {
  charts : gmap string nat;
  monitoringActive : bool;
  refreshTimer : option positive;
  lastRefresh : option Z;
  currentTab : string
}.

(** ** The page *)

Record TabButton := mkTabButton { button_tab : string; button_active : bool }.
Record TabPane := mkTabPane { pane_id : string; pane_active : bool }.

Record Toast := mkToast { toast_message : string; toast_type : string }.

(** Header and tab strip: the tab buttons and panes, the toggle button
    (its text and whether it carries [btn-danger] rather than
    [btn-primary]), the "last updated" line, and the toasts shown so far. *)
Record Frame := mkFrame {
  tabButtons : list TabButton;
  tabPanes : list TabPane;
  toggleText : string;
  toggleDanger : bool;
  lastUpdated : string;
  toasts : list Toast
}.

(** How [updateMetricTable] formats the latest value of a metric. *)
Inductive MetricValue :=
| Percent (v : number)      (* v.toFixed(2) + '%' *)
| Bytes (v : number)        (* formatBytes(v) *)
| BytesPerSec (v : number)  (* formatBytes(v) + '/s' *)
| PerSec (v : number)       (* v.toFixed(2) + '/s' *)
| Plain (v : number).       (* v.toString() *)

Record MetricRow := mkMetricRow {
  row_name : string;        (* span.metric-name *)
  row_value : MetricValue   (* span.metric-value *)
}.

Record PerformanceStat := mkPerformanceStat {
  stat_latest : number;
  stat_average : number;
  stat_min : number;
  stat_max : number;
  stat_count : Z
}.

Definition PerformanceData := Js.object (Js.object PerformanceStat).

Record PerformanceRow := mkPerformanceRow {
  perf_name : string;
  perf_category : string;
  perf_stat : PerformanceStat
}.

(** A [select] element: the values of its options and the selected index. *)
Record Select := mkSelect { options : list string; selectedIndex : nat }.

Definition select_value (s : Select) : string :=
  default "" (options s !! selectedIndex s).

Record PerformanceTab := mkPerformanceTab {
  performanceCategory : Select;
  performanceMetric : Select;
  performanceRows : list PerformanceRow
}.

Record Alert := mkAlert {
  alert_name : string;
  alert_description : string;
  alert_severity : string;
  alert_category : string;
  alert_status : string;
  alert_triggered_at : option Z;
  alert_acknowledged_at : option Z;
  alert_acknowledged_by : option string;
  alert_silenced : bool;
  alert_details : Js.object string
}.

(** One [div.alert-item] of the active-alert list: the alert it shows, the
    formatted times, and the [data-action] of each of its buttons. *)
Record AlertItem := mkAlertItem {
  item_class : string;
  item_alert : Alert;
  item_triggered : string;
  item_duration : string;
  item_acknowledged : option string;
  item_actions : list string
}.

(** The content of [#active-alerts-container]. *)
Inductive ActiveAlerts :=
| NoAlertsMessage
| AlertItems (items : list AlertItem).

Record AlertHistoryEntry := mkAlertHistoryEntry {
  history_timestamp : Z;
  history_alert : string;
  history_action : string;
  history_details : option (Js.object string)
}.

(** The alerts tab: the four status counters, the active-alert list, the
    history (as received), and the two text inputs and two selects of the
    create form. *)
Record AlertsTab := mkAlertsTab {
  statusCounts : Js.object Z;
  activeAlerts : ActiveAlerts;
  alertHistory : list AlertHistoryEntry;
  alertName : string;
  alertDescription : string;
  alertSeverity : string;
  alertCategory : string
}.

Record LogEntry := mkLogEntry {
  log_timestamp : string;
  log_level : string;
  log_component : string;
  log_message : string
}.

(** One [div.log-entry]: its [className], the text of its four spans, and
    [style.display]. *)
Record LogElement := mkLogElement {
  entry_className : string;
  entry_timestamp : string;
  entry_level : string;
  entry_component : string;
  entry_message : string;
  entry_display : string
}.

Record LogsTab := mkLogsTab {
  logLevel : Select;
  logComponent : Select;
  logSearch : string;
  logEntries : list LogElement
}.

(** ** The whole state *)

Record World := mkWorld {
  dash : Dashboard;
  browser : Browser;
  frame : Frame;
  metricTables : gmap string (list MetricRow);
  performanceTab : PerformanceTab;
  alertsTab : AlertsTab;
  logsTab : LogsTab
}.

Definition with_dash (f : Dashboard -> Dashboard) (w : World) : World :=
  mkWorld (f (dash w)) (browser w) (frame w) (metricTables w)
          (performanceTab w) (alertsTab w) (logsTab w).

Definition with_browser (f : Browser -> Browser) (w : World) : World :=
  mkWorld (dash w) (f (browser w)) (frame w) (metricTables w)
          (performanceTab w) (alertsTab w) (logsTab w).

Definition with_frame (f : Frame -> Frame) (w : World) : World :=
  mkWorld (dash w) (browser w) (f (frame w)) (metricTables w)
          (performanceTab w) (alertsTab w) (logsTab w).

Definition with_metricTables
    (f : gmap string (list MetricRow) -> gmap string (list MetricRow))
    (w : World) : World :=
  mkWorld (dash w) (browser w) (frame w) (f (metricTables w))
          (performanceTab w) (alertsTab w) (logsTab w).

Definition with_performanceTab (f : PerformanceTab -> PerformanceTab)
    (w : World) : World :=
  mkWorld (dash w) (browser w) (frame w) (metricTables w)
          (f (performanceTab w)) (alertsTab w) (logsTab w).

Definition with_alertsTab (f : AlertsTab -> AlertsTab) (w : World) : World :=
  mkWorld (dash w) (browser w) (frame w) (metricTables w)
          (performanceTab w) (f (alertsTab w)) (logsTab w).

Definition with_logsTab (f : LogsTab -> LogsTab) (w : World) : World :=
  mkWorld (dash w) (browser w) (frame w) (metricTables w)
          (performanceTab w) (alertsTab w) (f (logsTab w)).

(** Field updates of the dashboard object. *)
Definition set_charts (v : gmap string nat) (d : Dashboard) : Dashboard :=
  mkDashboard v (monitoringActive d) (refreshTimer d) (lastRefresh d) (currentTab d).
Definition set_monitoringActive (v : bool) (d : Dashboard) : Dashboard :=
  mkDashboard (charts d) v (refreshTimer d) (lastRefresh d) (currentTab d).
Definition set_refreshTimer (v : option positive) (d : Dashboard) : Dashboard :=
  mkDashboard (charts d) (monitoringActive d) v (lastRefresh d) (currentTab d).
Definition set_lastRefresh (v : option Z) (d : Dashboard) : Dashboard :=
  mkDashboard (charts d) (monitoringActive d) (refreshTimer d) v (currentTab d).
Definition set_currentTab (v : string) (d : Dashboard) : Dashboard :=
  mkDashboard (charts d) (monitoringActive d) (refreshTimer d) (lastRefresh d) v.

(** Browser services. *)
Definition set_heap (v : list Chart) (b : Browser) : Browser :=
  mkBrowser v (intervals b) (nextInterval b) (now b) (requests b).

(** [fetch(..)]: the request goes out. *)
Definition fetch (r : Request) (w : World) : World :=
  with_browser (fun b =>
    mkBrowser (heap b) (intervals b) (nextInterval b) (now b) (requests b ++ [r])) w.

(** [setInterval(.., delay)]: a new live timer, whose id is returned. *)
Definition setInterval (delay : Z) (w : World) : positive * World :=
  let id := nextInterval (browser w) in
  (id, with_browser (fun b =>
         mkBrowser (heap b) (<[id := delay]> (intervals b)) (Pos.succ id)
                   (now b) (requests b)) w).

(** [clearInterval(id)]. *)
Definition clearInterval (id : positive) (w : World) : World :=
  with_browser (fun b =>
    mkBrowser (heap b) (delete id (intervals b)) (nextInterval b) (now b)
              (requests b)) w.

(** [new Chart(ctx, config)]: the object is allocated and its reference
    returned. *)
Definition newChart (c : Chart) (w : World) : nat * World :=
  let ref := length (heap (browser w)) in
  (ref, with_browser (fun b => set_heap (heap b ++ [c]) b) w).

(** An assignment through a chart reference, [ref.field = ..].  The
    references the dashboard holds come from [newChart], so they point
    into the heap. *)
Definition mutateChart (ref : nat) (f : Chart -> Chart) (w : World) : World :=
  with_browser (fun b => set_heap (alter f ref (heap b)) b) w.

Definition set_chart_labels (v : list string) (c : Chart) : Chart :=
  mkChart (chart_canvas c) (chart_type c) v (chart_datasets c)
          (chart_ymax c) (chart_title c) (chart_updates c).

Definition set_chart_datasets (v : list Dataset) (c : Chart) : Chart :=
  mkChart (chart_canvas c) (chart_type c) (chart_labels c) v
          (chart_ymax c) (chart_title c) (chart_updates c).

Definition set_chart_title (v : option string) (c : Chart) : Chart :=
  mkChart (chart_canvas c) (chart_type c) (chart_labels c) (chart_datasets c)
          (chart_ymax c) v (chart_updates c).

(** [chart.data.datasets[i].data = data].  Every chart is constructed with
    the data sets that are assigned to later, so [datasets[i]] exists. *)
Definition set_dataset_data (i : nat) (data : list number) (c : Chart) : Chart :=
  set_chart_datasets
    (alter (fun ds => mkDataset (ds_label ds) data) i (chart_datasets c)) c.

(** [chart.data.datasets[i].label = label]. *)
Definition set_dataset_label (i : nat) (label : string) (c : Chart) : Chart :=
  set_chart_datasets
    (alter (fun ds => mkDataset label (ds_data ds)) i (chart_datasets c)) c.

(** [chart.update()]: a redraw is requested. *)
Definition chart_update (c : Chart) : Chart :=
  mkChart (chart_canvas c) (chart_type c) (chart_labels c) (chart_datasets c)
          (chart_ymax c) (chart_title c) (S (chart_updates c)).

(** [this.charts[slot] = ref]. *)
Definition set_chart_slot (slot : string) (ref : nat) (w : World) : World :=
  with_dash (fun d => set_charts (<[slot := ref]> (charts d)) d) w.

Definition string_of_Z (z : Z) : string := NilZero.string_of_int (Z.to_int z).

(** The double-quote character, as a string. *)
Definition quote : string := String (ascii_of_nat 34) EmptyString.

(** The body of a control or alert-lifecycle response: [{status, message?}]. *)
Record StatusReply := mkStatusReply {
  status : string;
  message : option string
}.

(** [`${data.message}`]. *)
Definition messageText (data : StatusReply) : string :=
  default "undefined" (message data).

(** The four system buckets of [updateSystemCharts]. *)
Record Buckets := mkBuckets {
  cpuMetrics : MetricsData;
  memoryMetrics : MetricsData;
  diskMetrics : MetricsData;
  networkMetrics : MetricsData
}.

Section Engine.

Context `{Locale}.

(** *** Time formatter *)

Definition formatTime (date : Z) : string := toLocaleTimeString date.

Definition formatDateTime (date : Z) : string := toLocaleString date.

Definition plural (n : Z) : string := if n =? 1 then "" else "s".

Definition formatDuration (seconds : Z) : string :=
  if seconds <? 60 then string_of_Z seconds +:+ " seconds"
  else if seconds <? 3600 then
    let minutes := seconds / 60 in
    string_of_Z minutes +:+ " minute" +:+ plural minutes
  else if seconds <? 86400 then
    let hours := seconds / 3600 in
    let minutes := (seconds mod 3600) / 60 in
    string_of_Z hours +:+ " hour" +:+ plural hours +:+ " " +:+
    string_of_Z minutes +:+ " minute" +:+ plural minutes
  else
    let days := seconds / 86400 in
    let hours := (seconds mod 86400) / 3600 in
    string_of_Z days +:+ " day" +:+ plural days +:+ " " +:+
    string_of_Z hours +:+ " hour" +:+ plural hours.

(** *** Notifications *)

(** [showToast(message, type)]: the toast is appended to the toast
    container.  (Its fade-in and removal run on one-shot [setTimeout]s,
    which are no part of this state.) *)
Definition showToast (message type : string) (w : World) : World :=
  with_frame (fun f =>
    mkFrame (tabButtons f) (tabPanes f) (toggleText f) (toggleDanger f)
            (lastUpdated f) (toasts f ++ [mkToast message type])) w.

(** *** System tab *)

Definition updateCpuChart (cpuMetrics : MetricsData) (w : World) : World :=
  let cpuPercentData := default [] (Js.get "system.cpu_percent" cpuMetrics) in
  let labels := map (fun item => formatTime (fst item)) cpuPercentData in
  let data := map snd cpuPercentData in
  match charts (dash w) !! "cpu" with
  | None =>
      let '(ref, w) :=
        newChart (mkChart "cpu-chart" "line" labels
                    [mkDataset "CPU Usage" data] (Some 100) None 0) w in
      set_chart_slot "cpu" ref w
  | Some ref =>
      let w := mutateChart ref (set_chart_labels labels) w in
      let w := mutateChart ref (set_dataset_data 0 data) w in
      mutateChart ref chart_update w
  end.

Definition updateMemoryChart (memoryMetrics : MetricsData) (w : World) : World :=
  let memoryPercentData :=
    default [] (Js.get "system.memory_percent" memoryMetrics) in
  let labels := map (fun item => formatTime (fst item)) memoryPercentData in
  let data := map snd memoryPercentData in
  match charts (dash w) !! "memory" with
  | None =>
      let '(ref, w) :=
        newChart (mkChart "memory-chart" "line" labels
                    [mkDataset "Memory Usage" data] (Some 100) None 0) w in
      set_chart_slot "memory" ref w
  | Some ref =>
      let w := mutateChart ref (set_chart_labels labels) w in
      let w := mutateChart ref (set_dataset_data 0 data) w in
      mutateChart ref chart_update w
  end.

(** The loop at the head of [updateDiskChart]: a metric whose name has
    ["percent"] is taken while [diskPercentData] is still empty. *)
Definition diskPercentStep (diskPercentData : series)
    (entry : string * series) : series :=
  let '(name, values) := entry in
  if Js.includes name "percent" && (length diskPercentData =? 0)%nat
  then values else diskPercentData.

Definition diskPercentData (diskMetrics : MetricsData) : series :=
  fold_left diskPercentStep diskMetrics [].

Definition updateDiskChart (diskMetrics : MetricsData) (w : World) : World :=
  let diskPercentData := diskPercentData diskMetrics in
  let labels := map (fun item => formatTime (fst item)) diskPercentData in
  let data := map snd diskPercentData in
  match charts (dash w) !! "disk" with
  | None =>
      let '(ref, w) :=
        newChart (mkChart "disk-chart" "line" labels
                    [mkDataset "Disk Usage" data] (Some 100) None 0) w in
      set_chart_slot "disk" ref w
  | Some ref =>
      let w := mutateChart ref (set_chart_labels labels) w in
      let w := mutateChart ref (set_dataset_data 0 data) w in
      mutateChart ref chart_update w
  end.

Definition kilo (v : number) : number :=
  QArith_base.Qdiv v (QArith_base.Qmake 1024 1).

Definition updateNetworkChart (networkMetrics : MetricsData) (w : World) : World :=
  let networkRecvData :=
    default [] (Js.get "system.network_total_bytes_recv_per_sec" networkMetrics) in
  let networkSentData :=
    default [] (Js.get "system.network_total_bytes_sent_per_sec" networkMetrics) in
  let labels := map (fun item => formatTime (fst item)) networkRecvData in
  let recvData := map (fun item => kilo (snd item)) networkRecvData in
  let sentData := map (fun item => kilo (snd item)) networkSentData in
  match charts (dash w) !! "network" with
  | None =>
      let '(ref, w) :=
        newChart (mkChart "network-chart" "line" labels
                    [mkDataset "Received" recvData; mkDataset "Sent" sentData]
                    None None 0) w in
      set_chart_slot "network" ref w
  | Some ref =>
      let w := mutateChart ref (set_chart_labels labels) w in
      let w := mutateChart ref (set_dataset_data 0 recvData) w in
      let w := mutateChart ref (set_dataset_data 1 sentData) w in
      mutateChart ref chart_update w
  end.

(** The value cell of a metric row, by the name of the metric. *)
Definition formatMetricValue (name : string) (latestValue : number) : MetricValue :=
  if Js.includes name "percent" then Percent latestValue
  else if Js.includes name "bytes" then Bytes latestValue
  else if Js.includes name "per_sec" then
    if Js.includes name "bytes" then BytesPerSec latestValue
    else PerSec latestValue
  else Plain latestValue.

Definition displayName (name : string) : string :=
  Js.replaceAllChar "_" " " (Js.removeFirst "system." name).

(** The row [updateMetricTable] appends for one metric; none for a
    metric without samples. *)
Definition metricRow (entry : string * series) : option MetricRow :=
  let '(name, values) := entry in
  match last values with
  | None => None
  | Some latest => Some (mkMetricRow (displayName name)
                                     (formatMetricValue name (snd latest)))
  end.

Definition updateMetricTable (tableId : string) (metrics : MetricsData)
    (w : World) : World :=
  match metricTables w !! tableId with
  | None => w
  | Some _ => with_metricTables (<[tableId := omap metricRow metrics]>) w
  end.

(** One round of the grouping loop of [updateSystemCharts]. *)
Definition groupMetric (b : Buckets) (entry : string * series) : Buckets :=
  let '(name, values) := entry in
  if Js.includes name "cpu" then
    mkBuckets (Js.set name values (cpuMetrics b)) (memoryMetrics b)
              (diskMetrics b) (networkMetrics b)
  else if Js.includes name "memory" then
    mkBuckets (cpuMetrics b) (Js.set name values (memoryMetrics b))
              (diskMetrics b) (networkMetrics b)
  else if Js.includes name "disk" then
    mkBuckets (cpuMetrics b) (memoryMetrics b)
              (Js.set name values (diskMetrics b)) (networkMetrics b)
  else if Js.includes name "network" then
    mkBuckets (cpuMetrics b) (memoryMetrics b)
              (diskMetrics b) (Js.set name values (networkMetrics b))
  else b.

Definition groupMetrics (metricsData : MetricsData) : Buckets :=
  fold_left groupMetric metricsData (mkBuckets [] [] [] []).

Definition updateSystemCharts (metricsData : MetricsData) (w : World) : World :=
  let b := groupMetrics metricsData in
  let w := updateCpuChart (cpuMetrics b) w in
  let w := updateMemoryChart (memoryMetrics b) w in
  let w := updateDiskChart (diskMetrics b) w in
  let w := updateNetworkChart (networkMetrics b) w in
  let w := updateMetricTable "cpu-metrics" (cpuMetrics b) w in
  let w := updateMetricTable "memory-metrics" (memoryMetrics b) w in
  let w := updateMetricTable "disk-metrics" (diskMetrics b) w in
  updateMetricTable "network-metrics" (networkMetrics b) w.

(** [loadSystemMetrics]: the request; its continuation is
    [systemMetricsLoaded]. *)
Definition loadSystemMetrics (w : World) : World :=
  fetch (GET "/api/monitoring/metrics?category=system") w.

(** [updateSystemInfo] asks for [/api/monitoring]; what it writes to
    [#system-info] on arrival is no part of this state. *)
Definition updateSystemInfo (w : World) : World :=
  fetch (GET "/api/monitoring") w.

Definition systemMetricsLoaded (r : Js.reply MetricsData) (w : World) : World :=
  match r with
  | Js.Resolved data => updateSystemInfo (updateSystemCharts data w)
  | Js.Rejected => w
  end.

(** *** Performance tab *)

Definition stripDuration (name : string) : string :=
  Js.removeSuffix "_duration" name.

(** The rows pushed by the two nested [forEach] loops of
    [updatePerformanceTable]. *)
Definition flattenPerformance (metricsData : PerformanceData)
    : list PerformanceRow :=
  flat_map (fun '(category, metrics) =>
    map (fun '(name, stats) =>
           mkPerformanceRow (stripDuration name) category stats) metrics)
    metricsData.

(** The comparator handed to [sortedMetrics.sort]. *)
Definition comparePerformance (a b : PerformanceRow) : Z :=
  if String.eqb (perf_category a) (perf_category b)
  then localeCompare (perf_name a) (perf_name b)
  else localeCompare (perf_category a) (perf_category b).

(** Setting [select.value]: the first option with that value gets
    selected. *)
Definition select_set_value (v : string) (s : Select) : Select :=
  match Js.indexFrom 0 v (options s) with
  | Some i => mkSelect (options s) i
  | None => s
  end.

(** All options but the first are dropped and [values] are appended;
    the selection falls back to the first option. *)
Definition select_refill (values : list string) (s : Select) : Select :=
  mkSelect (take 1 (options s) ++ values) 0.

Definition nonEmpty (s : string) : bool := negb (String.eqb s "").

Definition updatePerformanceCategoryOptions (metricsData : PerformanceData)
    (w : World) : World :=
  with_performanceTab (fun t =>
    let categorySelect := performanceCategory t in
    let currentValue := select_value categorySelect in
    let categories := Js.keys metricsData in
    let categorySelect := select_refill categories categorySelect in
    let categorySelect :=
      if nonEmpty currentValue && Js.contains categories currentValue
      then select_set_value currentValue categorySelect
      else categorySelect in
    mkPerformanceTab categorySelect (performanceMetric t) (performanceRows t)) w.

Definition updatePerformanceTable (metricsData : PerformanceData)
    (w : World) : World :=
  let sortedMetrics := Js.sort comparePerformance (flattenPerformance metricsData) in
  let w := with_performanceTab (fun t =>
             mkPerformanceTab (performanceCategory t) (performanceMetric t)
                              sortedMetrics) w in
  updatePerformanceCategoryOptions metricsData w.

Definition populatePerformanceMetricOptions (metricsData : PerformanceData)
    (w : World) : World :=
  with_performanceTab (fun t =>
    let metricSelect := performanceMetric t in
    let currentValue := select_value metricSelect in
    let category := select_value (performanceCategory t) in
    let metrics :=
      if nonEmpty category then
        match Js.get category metricsData with
        | Some categoryMetrics => Js.keys categoryMetrics
        | None => []
        end
      else flat_map (fun '(_, categoryMetrics) => Js.keys categoryMetrics)
                    metricsData in
    let metricSelect := select_refill metrics metricSelect in
    let metricSelect :=
      if nonEmpty currentValue && Js.contains metrics currentValue
      then select_set_value currentValue metricSelect
      else if (0 <? length metrics)%nat
      then mkSelect (options metricSelect) 1
      else metricSelect in
    mkPerformanceTab (performanceCategory t) metricSelect (performanceRows t)) w.

(** [updatePerformanceChart]: the history of the selected metric is
    requested; its continuation is [metricHistoryLoaded]. *)
Definition updatePerformanceChart (w : World) : World :=
  let metricSelect := performanceMetric (performanceTab w) in
  if (selectedIndex metricSelect <=? 0)%nat then w
  else
    let metricName := select_value metricSelect in
    let category := select_value (performanceCategory (performanceTab w)) in
    let fullMetricName :=
      if nonEmpty category then category +:+ "." +:+ metricName
      else metricName in
    fetch (GET ("/api/monitoring/metrics/" +:+ fullMetricName +:+ "?limit=100")) w.

Definition renderPerformanceChart (metricName : string) (metricValues : series)
    (w : World) : World :=
  let labels := map (fun item => formatTime (fst item)) metricValues in
  let data := map snd metricValues in
  let displayName := Js.lastSegment "." (stripDuration metricName) in
  match charts (dash w) !! "performance" with
  | None =>
      let '(ref, w) :=
        newChart (mkChart "performance-chart" "line" labels
                    [mkDataset displayName data] None
                    (Some ("Performance Metric: " +:+ displayName)) 0) w in
      set_chart_slot "performance" ref w
  | Some ref =>
      let w := mutateChart ref
                 (set_chart_title (Some ("Performance Metric: " +:+ displayName))) w in
      let w := mutateChart ref (set_chart_labels labels) w in
      let w := mutateChart ref (set_dataset_label 0 displayName) w in
      let w := mutateChart ref (set_dataset_data 0 data) w in
      mutateChart ref chart_update w
  end.

Definition metricHistoryLoaded (r : Js.reply (string * series)) (w : World)
    : World :=
  match r with
  | Js.Resolved (name, values) => renderPerformanceChart name values w
  | Js.Rejected => w
  end.

Definition loadPerformanceMetrics (w : World) : World :=
  let category := select_value (performanceCategory (performanceTab w)) in
  fetch (GET ("/api/monitoring/performance" +:+
              (if nonEmpty category then "?category=" +:+ category else ""))) w.

Definition performanceLoaded (r : Js.reply PerformanceData) (w : World) : World :=
  match r with
  | Js.Resolved data =>
      updatePerformanceChart
        (populatePerformanceMetricOptions data (updatePerformanceTable data w))
  | Js.Rejected => w
  end.

(** *** Alerts tab *)

(** [loadAlerts]: two requests; their continuations are [alertsLoaded]
    and [alertHistoryLoaded]. *)
Definition loadAlerts (w : World) : World :=
  let w := fetch (GET "/api/monitoring/alerts") w in
  fetch (GET "/api/monitoring/alerts/history") w.

Definition set_statusCounts (v : Js.object Z) (t : AlertsTab) : AlertsTab :=
  mkAlertsTab v (activeAlerts t) (alertHistory t) (alertName t)
              (alertDescription t) (alertSeverity t) (alertCategory t).

Definition set_activeAlerts (v : ActiveAlerts) (t : AlertsTab) : AlertsTab :=
  mkAlertsTab (statusCounts t) v (alertHistory t) (alertName t)
              (alertDescription t) (alertSeverity t) (alertCategory t).

Definition set_alertHistory (v : list AlertHistoryEntry) (t : AlertsTab)
    : AlertsTab :=
  mkAlertsTab (statusCounts t) (activeAlerts t) v (alertName t)
              (alertDescription t) (alertSeverity t) (alertCategory t).

Definition countSeverity (severityCounts : Js.object Z) (alert : Alert)
    : Js.object Z :=
  match Js.get (alert_severity alert) severityCounts with
  | Some n => Js.set (alert_severity alert) (n + 1) severityCounts
  | None => severityCounts
  end.

Definition updateAlertStatus (alerts : list Alert) (w : World) : World :=
  let severityCounts :=
    fold_left countSeverity alerts
      [("critical", 0); ("error", 0); ("warning", 0); ("info", 0)] in
  with_alertsTab (set_statusCounts severityCounts) w.

Definition severityOrder : Js.object Z :=
  [("critical", 0); ("error", 1); ("warning", 2); ("info", 3)].

(** The comparator of [renderActiveAlerts].  A severity outside
    [severityOrder] makes the difference [NaN], which [sort] reads as 0. *)
Definition compareSeverity (a b : Alert) : Z :=
  match Js.get (alert_severity a) severityOrder,
        Js.get (alert_severity b) severityOrder with
  | Some ra, Some rb => ra - rb
  | _, _ => 0
  end.

Definition renderAlert (now : Z) (alert : Alert) : AlertItem :=
  let triggeredTimeStr :=
    match alert_triggered_at alert with
    | Some t => formatDateTime t
    | None => "Unknown"
    end in
  let acknowledgedTimeStr := formatDateTime <$> alert_acknowledged_at alert in
  let durationStr :=
    match alert_triggered_at alert with
    | Some t => formatDuration ((now - t) / 1000)
    | None => EmptyString
    end in
  mkAlertItem
    ("alert-item alert-" +:+ alert_severity alert)
    alert triggeredTimeStr durationStr
    ((fun t => t +:+ " by " +:+
               match alert_acknowledged_by alert with
               | Some user => if nonEmpty user then user else "System"
               | None => "System"
               end)
       <$> acknowledgedTimeStr)
    ((if String.eqb (alert_status alert) "active" then ["acknowledge"] else [])
       ++ ["resolve"; "silence"]).

Definition renderActiveAlerts (alerts : list Alert) (w : World) : World :=
  match alerts with
  | [] => with_alertsTab (set_activeAlerts NoAlertsMessage) w
  | _ =>
      let sortedAlerts := Js.sort compareSeverity alerts in
      with_alertsTab
        (set_activeAlerts
           (AlertItems (map (renderAlert (now (browser w))) sortedAlerts))) w
  end.

Definition renderAlertHistory (history : list AlertHistoryEntry) (w : World)
    : World :=
  with_alertsTab (set_alertHistory history) w.

Definition alertsLoaded (r : Js.reply (list Alert)) (w : World) : World :=
  match r with
  | Js.Resolved alerts => renderActiveAlerts alerts (updateAlertStatus alerts w)
  | Js.Rejected => w
  end.

Definition alertHistoryLoaded (r : Js.reply (list AlertHistoryEntry))
    (w : World) : World :=
  match r with
  | Js.Resolved history => renderAlertHistory history w
  | Js.Rejected => w
  end.

(** [createAlert]: the form is read and checked; only a complete form is
    posted.  The continuation of the request is [alertCreated]. *)
Definition createAlert (w : World) : World :=
  let name := alertName (alertsTab w) in
  let description := alertDescription (alertsTab w) in
  let severity := alertSeverity (alertsTab w) in
  let category := alertCategory (alertsTab w) in
  if negb (nonEmpty name) || negb (nonEmpty description) then
    showToast "Alert name and description are required" "error" w
  else
    fetch (mkRequest "POST" "/api/monitoring/alerts"
             [("name", name); ("description", description);
              ("severity", severity); ("category", category)]) w.

Definition resetAlertForm (t : AlertsTab) : AlertsTab :=
  mkAlertsTab (statusCounts t) (activeAlerts t) (alertHistory t)
              EmptyString EmptyString (alertSeverity t) (alertCategory t).

Definition alertCreated (name : string) (r : Js.reply StatusReply) (w : World)
    : World :=
  match r with
  | Js.Resolved data =>
      if String.eqb (status data) "success" then
        let w := showToast ("Alert " +:+ quote +:+ name +:+ quote +:+ " created")
                           "success" w in
        let w := with_alertsTab resetAlertForm w in
        loadAlerts w
      else
        showToast ("Failed to create alert: " +:+ messageText data) "error" w
  | Js.Rejected => showToast "Error creating alert" "error" w
  end.

(** [acknowledgeAlert], [resolveAlert], [silenceAlert]: one request each;
    the continuations follow. *)
Definition acknowledgeAlert (alertName : string) (w : World) : World :=
  fetch (mkRequest "PUT" ("/api/monitoring/alerts/" +:+ alertName +:+ "/acknowledge")
           [("user", "admin")]) w.

Definition resolveAlert (alertName : string) (w : World) : World :=
  fetch (mkRequest "PUT" ("/api/monitoring/alerts/" +:+ alertName +:+ "/resolve") []) w.

Definition silenceAlert (alertName : string) (silence : bool) (w : World) : World :=
  fetch (mkRequest "PUT" ("/api/monitoring/alerts/" +:+ alertName +:+ "/silence")
           [("silence", if silence then "true" else "false")]) w.

Definition alertAcknowledged (alertName : string) (r : Js.reply StatusReply)
    (w : World) : World :=
  match r with
  | Js.Resolved data =>
      if String.eqb (status data) "success" then
        loadAlerts
          (showToast ("Alert " +:+ quote +:+ alertName +:+ quote +:+ " acknowledged")
                     "success" w)
      else
        showToast ("Failed to acknowledge alert: " +:+ messageText data) "error" w
  | Js.Rejected => showToast "Error acknowledging alert" "error" w
  end.

Definition alertResolved (alertName : string) (r : Js.reply StatusReply)
    (w : World) : World :=
  match r with
  | Js.Resolved data =>
      if String.eqb (status data) "success" then
        loadAlerts
          (showToast ("Alert " +:+ quote +:+ alertName +:+ quote +:+ " resolved")
                     "success" w)
      else
        showToast ("Failed to resolve alert: " +:+ messageText data) "error" w
  | Js.Rejected => showToast "Error resolving alert" "error" w
  end.

Definition alertSilenced (alertName : string) (silence : bool)
    (r : Js.reply StatusReply) (w : World) : World :=
  match r with
  | Js.Resolved data =>
      if String.eqb (status data) "success" then
        loadAlerts
          (showToast ("Alert " +:+ quote +:+ alertName +:+ quote +:+ " " +:+
                      (if silence then "silenced" else "unsilenced"))
                     "success" w)
      else
        showToast ("Failed to " +:+ (if silence then "silence" else "unsilence") +:+
                   " alert: " +:+ messageText data) "error" w
  | Js.Rejected =>
      showToast ("Error " +:+ (if silence then "silencing" else "unsilencing") +:+
                 " alert") "error" w
  end.

(** *** Monitoring switch *)

Definition set_toggle (text : string) (danger : bool) (f : Frame) : Frame :=
  mkFrame (tabButtons f) (tabPanes f) text danger (lastUpdated f) (toasts f).

(** [toggleMonitoring]: stop is requested while monitoring is active,
    start otherwise.  The continuation is [monitoringToggled], which
    knows which of the two was asked for. *)
Definition toggleMonitoring (w : World) : World :=
  if monitoringActive (dash w)
  then fetch (mkRequest "POST" "/api/monitoring/control/stop" []) w
  else fetch (mkRequest "POST" "/api/monitoring/control/start" []) w.

Definition monitoringToggled (stop : bool) (r : Js.reply StatusReply)
    (w : World) : World :=
  if stop then
    match r with
    | Js.Resolved data =>
        if String.eqb (status data) "success" then
          let w := with_dash (set_monitoringActive false) w in
          let w := with_frame (set_toggle "Start Monitoring" false) w in
          showToast "Monitoring stopped" "success" w
        else showToast "Failed to stop monitoring" "error" w
    | Js.Rejected => showToast "Error stopping monitoring" "error" w
    end
  else
    match r with
    | Js.Resolved data =>
        if String.eqb (status data) "success" then
          let w := with_dash (set_monitoringActive true) w in
          let w := with_frame (set_toggle "Stop Monitoring" true) w in
          showToast "Monitoring started" "success" w
        else showToast "Failed to start monitoring" "error" w
    | Js.Rejected => showToast "Error starting monitoring" "error" w
    end.

(** [checkMonitoringStatus]: the request; [monitoringStatusLoaded] is its
    continuation. *)
Definition checkMonitoringStatus (w : World) : World :=
  fetch (GET "/api/monitoring") w.

Definition monitoringStatusLoaded (r : Js.reply StatusReply) (w : World)
    : World :=
  match r with
  | Js.Resolved data =>
      if String.eqb (status data) "active" then
        let w := with_dash (set_monitoringActive true) w in
        with_frame (fun f => set_toggle "Stop Monitoring" true f) w
      else with_dash (set_monitoringActive false) w
  | Js.Rejected => w
  end.

(** *** Logs tab *)

Definition simulatedLogs : list LogEntry := [
  mkLogEntry "2025-05-14T12:00:00" "INFO" "system" "System started";
  mkLogEntry "2025-05-14T12:00:01" "INFO" "agent" "Agent initialization complete";
  mkLogEntry "2025-05-14T12:00:10" "INFO" "api" "API server listening on port 8001";
  mkLogEntry "2025-05-14T12:01:05" "DEBUG" "agent" "Processing task #1234";
  mkLogEntry "2025-05-14T12:01:23" "WARNING" "agent"
             "Task processing taking longer than expected";
  mkLogEntry "2025-05-14T12:02:15" "ERROR" "api"
             "Failed to connect to external service: Connection timeout";
  mkLogEntry "2025-05-14T12:03:42" "INFO" "scheduler"
             "Scheduled task executed successfully";
  mkLogEntry "2025-05-14T12:04:30" "DEBUG" "memory" "Memory cache optimized";
  mkLogEntry "2025-05-14T12:05:12" "INFO" "agent" "Task #1234 completed successfully";
  mkLogEntry "2025-05-14T12:07:03" "CRITICAL" "system" "Out of disk space on /var/log";
  mkLogEntry "2025-05-14T12:07:45" "WARNING" "scheduler"
             "Task #4567 delayed due to resource constraints";
  mkLogEntry "2025-05-14T12:08:20" "INFO" "api" "Received request for /api/tasks";
  mkLogEntry "2025-05-14T12:09:11" "DEBUG" "agent" "Loaded model from cache";
  mkLogEntry "2025-05-14T12:10:30" "ERROR" "scheduler"
             "Failed to execute scheduled task: Task not found";
  mkLogEntry "2025-05-14T12:11:55" "INFO" "system" "Disk space cleanup completed"
].

Definition initLogLevelChart (w : World) : World :=
  let '(ref, w) :=
    newChart (mkChart "log-levels-chart" "pie"
                ["DEBUG"; "INFO"; "WARNING"; "ERROR"; "CRITICAL"]
                [mkDataset EmptyString (map QArith_base.inject_Z [0; 0; 0; 0; 0])]
                None (Some "Log Levels") 0) w in
  set_chart_slot "logLevels" ref w.

(** The [div.log-entry] made for one log record. *)
Definition logElement (log : LogEntry) : LogElement :=
  mkLogElement ("log-entry log-" +:+ log_level log)
               (log_timestamp log)
               ("[" +:+ log_level log +:+ "]")
               (log_component log +:+ ":")
               (log_message log)
               EmptyString.

Definition levelCount (level : string) (logs : list LogEntry) : Z :=
  Z.of_nat (length (List.filter (fun log => String.eqb (log_level log) level) logs)).

(** The body of [simulateLogs] for a buffer [logs]: the entries are
    rendered, the pie chart gets the count of each of the five levels,
    and the component filter gets one option per distinct component.
    (The [#log-stats] block repeats the counts and is no part of this
    state.) *)
Definition showLogs (logs : list LogEntry) (w : World) : World :=
  let w := with_logsTab (fun t =>
             mkLogsTab (logLevel t) (logComponent t) (logSearch t)
                       (map logElement logs)) w in
  let w :=
    match charts (dash w) !! "logLevels" with
    | Some ref =>
        let w := mutateChart ref
                   (set_dataset_data 0
                      (map (fun level => QArith_base.inject_Z (levelCount level logs))
                           ["DEBUG"; "INFO"; "WARNING"; "ERROR"; "CRITICAL"])) w in
        mutateChart ref chart_update w
    | None => w
    end in
  with_logsTab (fun t =>
    mkLogsTab (logLevel t)
              (select_refill (Js.unique (map log_component logs)) (logComponent t))
              (logSearch t) (logEntries t)) w.

Definition simulateLogs (w : World) : World := showLogs simulatedLogs w.

Definition loadLogs (w : World) : World :=
  let w := match charts (dash w) !! "logLevels" with
           | None => initLogLevelChart w
           | Some _ => w
           end in
  simulateLogs w.

Definition newline : string := String (ascii_of_nat 10) EmptyString.

Definition spaces (n : nat) : string :=
  String.string_of_list_ascii (replicate n " "%char).

(** [entry.textContent]: the text of the four spans with the white space
    the markup template puts around them. *)
Definition textContent (entry : LogElement) : string :=
  newline +:+ spaces 20 +:+ entry_timestamp entry +:+
  newline +:+ spaces 20 +:+ entry_level entry +:+
  newline +:+ spaces 20 +:+ entry_component entry +:+
  newline +:+ spaces 20 +:+ entry_message entry +:+
  newline +:+ spaces 16.

(** [entry.classList.contains(token)]. *)
Definition classListContains (entry : LogElement) (token : string) : bool :=
  Js.contains (String.words (entry_className entry)) token.

Definition set_display (v : string) (entry : LogElement) : LogElement :=
  mkLogElement (entry_className entry) (entry_timestamp entry)
               (entry_level entry) (entry_component entry)
               (entry_message entry) v.

(** The body of the loop of [filterLogs] for one entry. *)
Definition filterEntry (level component search : string) (entry : LogElement)
    : LogElement :=
  let visible := true in
  let visible :=
    if nonEmpty level && negb (classListContains entry ("log-" +:+ level))
    then false else visible in
  let visible :=
    if nonEmpty component && negb (Js.includes (entry_component entry) component)
    then false else visible in
  let visible :=
    if nonEmpty search && negb (Js.includes (Js.toLowerCase (textContent entry)) search)
    then false else visible in
  set_display (if visible then EmptyString else "none") entry.

Definition filterLogs (w : World) : World :=
  let level := select_value (logLevel (logsTab w)) in
  let component := select_value (logComponent (logsTab w)) in
  let search := Js.toLowerCase (logSearch (logsTab w)) in
  with_logsTab (fun t =>
    mkLogsTab (logLevel t) (logComponent t) (logSearch t)
              (map (filterEntry level component search) (logEntries t))) w.

Definition clearLogFilters (w : World) : World :=
  with_logsTab (fun t =>
    mkLogsTab (mkSelect (options (logLevel t)) 0)
              (mkSelect (options (logComponent t)) 0)
              EmptyString
              (map (set_display EmptyString) (logEntries t))) w.

(** *** Tabs *)

Definition loadTabData (tabName : string) (w : World) : World :=
  if String.eqb tabName "system" then loadSystemMetrics w
  else if String.eqb tabName "performance" then loadPerformanceMetrics w
  else if String.eqb tabName "alerts" then loadAlerts w
  else if String.eqb tabName "logs" then loadLogs w
  else w.

Definition switchTab (tabName : string) (w : World) : World :=
  let w := with_dash (set_currentTab tabName) w in
  let w := with_frame (fun f =>
             mkFrame
               (map (fun button =>
                       mkTabButton (button_tab button)
                                   (String.eqb (button_tab button) tabName))
                    (tabButtons f))
               (tabPanes f) (toggleText f) (toggleDanger f)
               (lastUpdated f) (toasts f)) w in
  let w := with_frame (fun f =>
             mkFrame
               (tabButtons f)
               (map (fun pane =>
                       mkTabPane (pane_id pane)
                                 (String.eqb (pane_id pane) ("tab-" +:+ tabName)))
                    (tabPanes f))
               (toggleText f) (toggleDanger f)
               (lastUpdated f) (toasts f)) w in
  loadTabData tabName w.

(** *** Refresh and its schedule *)

Definition refreshDashboard (w : World) : World :=
  let date := now (browser w) in
  let w := with_dash (set_lastRefresh (Some date)) w in
  let w := with_frame (fun f =>
             mkFrame (tabButtons f) (tabPanes f) (toggleText f) (toggleDanger f)
                     ("Last updated: " +:+ formatTime date) (toasts f)) w in
  let w := loadTabData (currentTab (dash w)) w in
  checkMonitoringStatus w.

(** [setAutoRefresh(seconds)], with [seconds] the whole number [parseInt]
    reads off the [auto-refresh] select. *)
Definition setAutoRefresh (seconds : Z) (w : World) : World :=
  let w := match refreshTimer (dash w) with
           | Some id =>
               let w := clearInterval id w in
               with_dash (set_refreshTimer None) w
           | None => w
           end in
  if 0 <? seconds then
    let '(id, w) := setInterval (seconds * 1000) w in
    with_dash (set_refreshTimer (Some id)) w
  else w.

(** A live interval timer fires: its callback runs [refreshDashboard].
    A timer that is not live does not fire. *)
Definition intervalFires (id : positive) (w : World) : World :=
  match intervals (browser w) !! id with
  | Some _ => refreshDashboard w
  | None => w
  end.

(** *** Byte sizes *)

Context `{MathHost}.








End Engine.

(** ** The page as served *)

(** The state when the script starts: the dashboard object as its literal
    gives it, nothing requested or scheduled, and the page as
    [web/templates/monitoring.html] lays it out.  [date] is the clock. *)
Definition servedPage (date : Z) : World :=
  mkWorld
    (mkDashboard ∅ false None None "system")
    (mkBrowser [] ∅ 1%positive date [])
    (mkFrame
       [mkTabButton "system" true; mkTabButton "performance" false;
        mkTabButton "alerts" false; mkTabButton "logs" false]
       [mkTabPane "tab-system" true; mkTabPane "tab-performance" false;
        mkTabPane "tab-alerts" false; mkTabPane "tab-logs" false]
       "Start Monitoring" false EmptyString [])
    (list_to_map [("cpu-metrics", []); ("memory-metrics", []);
                  ("disk-metrics", []); ("network-metrics", [])])
    (mkPerformanceTab (mkSelect [EmptyString] 0) (mkSelect [EmptyString] 0) [])
    (mkAlertsTab
       [("critical", 0); ("error", 0); ("warning", 0); ("info", 0)]
       NoAlertsMessage [] EmptyString EmptyString "warning" "custom")
    (mkLogsTab
       (mkSelect [EmptyString; "DEBUG"; "INFO"; "WARNING"; "ERROR"; "CRITICAL"] 2)
       (mkSelect [EmptyString] 0) EmptyString []).

(** A locale to run examples in: instants are shown as their number of
    milliseconds, strings are compared by character code. *)
Definition plainLocale : Locale :=
  {| toLocaleTimeString := string_of_Z;
     toLocaleString := string_of_Z;
     localeCompare := fun a b =>
       match String.compare a b with Lt => -1 | Eq => 0 | Gt => 1 end |}.

(** ** Vocabulary of the statements *)

Inductive Bucket := Cpu | Memory | Disk | Network.

Definition bucketWord (b : Bucket) : string :=
  match b with
  | Cpu => "cpu" | Memory => "memory" | Disk => "disk" | Network => "network"
  end.

Definition bucketTable (b : Bucket) : string :=
  match b with
  | Cpu => "cpu-metrics" | Memory => "memory-metrics"
  | Disk => "disk-metrics" | Network => "network-metrics"
  end.

Definition bucketMetrics (b : Bucket) (bs : Buckets) : MetricsData :=
  match b with
  | Cpu => cpuMetrics bs | Memory => memoryMetrics bs
  | Disk => diskMetrics bs | Network => networkMetrics bs
  end.

Definition Bucket_eqb (a b : Bucket) : bool :=
  match a, b with
  | Cpu, Cpu | Memory, Memory | Disk, Disk | Network, Network => true
  | _, _ => false
  end.

(** In the words of the specification: the first of the four buckets, in
    the order cpu, memory, disk, network, whose word the name contains. *)
Definition firstBucket (name : string) : option Bucket :=
  find (fun b => Js.includes name (bucketWord b)) [Cpu; Memory; Disk; Network].

Definition inBucket (b : Bucket) (entry : string * series) : bool :=
  match firstBucket (fst entry) with
  | Some b' => Bucket_eqb b' b
  | None => false
  end.

Definition matched (entry : string * series) : bool :=
  match firstBucket (fst entry) with Some _ => true | None => false end.

(** The pattern every chart method follows, [if (!this.charts[slot])
    { this.charts[slot] = new Chart(..) } else { ..assignments..;
    update() }], with [fresh] the chart the constructor is given and
    [change] the assignments and the redraw. *)
Definition createOrUpdate (slot : string) (fresh : Chart)
    (change : Chart -> Chart) (w : World) : World :=
  match charts (dash w) !! slot with
  | None => let '(ref, w) := newChart fresh w in set_chart_slot slot ref w
  | Some ref => mutateChart ref change w
  end.

(** The number of data sets of the chart a slot holds. *)
Definition slotDatasets (slot : string) : nat :=
  if String.eqb slot "network" then 2%nat else 1%nat.

Definition levelNames : list string :=
  ["DEBUG"; "INFO"; "WARNING"; "ERROR"; "CRITICAL"].

(** The charts of a page are in order when the heap holds one chart per
    filled slot, no two slots share a chart, and the chart of a slot has
    the data sets the slot is made with (and, for the pie of the log
    levels, its five labels). *)
Definition ChartsOk (w : World) : Prop :=
  length (heap (browser w)) = size (charts (dash w)) /\
  (forall s1 s2 ref,
     charts (dash w) !! s1 = Some ref -> charts (dash w) !! s2 = Some ref ->
     s1 = s2) /\
  (forall slot ref,
     charts (dash w) !! slot = Some ref ->
     exists c, heap (browser w) !! ref = Some c /\
               length (chart_datasets c) = slotDatasets slot /\
               (slot = "logLevels" -> chart_labels c = levelNames)).

(** The first disk metric, in the order of the object, whose name contains
    ["percent"] and that has a sample. *)
Definition firstPercentWithSamples (diskMetrics : MetricsData) : option series :=
  snd <$> List.find (fun entry => Js.includes (fst entry) "percent" &&
                                 negb (length (snd entry) =? 0)%nat) diskMetrics.

(** In the words of the specification: the first disk metric whose name
    contains ["percent"]. *)
Definition firstPercent (diskMetrics : MetricsData) : option series :=
  snd <$> List.find (fun entry => Js.includes (fst entry) "percent") diskMetrics.

(** ** The page session *)

(** What can happen on the page: the user clicks, selects or types, a
    timer fires, or the outcome of a request comes in.  Outcomes may come
    in any order. *)
Inductive Event :=
| SwitchTab (tabName : string)
| RefreshNow
| IntervalFires (id : positive)
| SetAutoRefresh (seconds : Z)
| ToggleMonitoring
| MonitoringToggled (stop : bool) (r : Js.reply StatusReply)
| MonitoringStatusLoaded (r : Js.reply StatusReply)
| SystemMetricsLoaded (r : Js.reply MetricsData)
| SelectPerformanceCategory (index : nat)
| SelectPerformanceMetric (index : nat)
| SelectPerformanceTimeRange
| PerformanceLoaded (r : Js.reply PerformanceData)
| MetricHistoryLoaded (r : Js.reply (string * series))
| AlertsLoaded (r : Js.reply (list Alert))
| AlertHistoryLoaded (r : Js.reply (list AlertHistoryEntry))
| FillAlertForm (name description severity category : string)
| SubmitAlertForm
| AlertCreated (name : string) (r : Js.reply StatusReply)
| AcknowledgeAlert (alertName : string)
| ResolveAlert (alertName : string)
| SilenceAlert (alertName : string) (silence : bool)
| AlertAcknowledged (alertName : string) (r : Js.reply StatusReply)
| AlertResolved (alertName : string) (r : Js.reply StatusReply)
| AlertSilenced (alertName : string) (silence : bool) (r : Js.reply StatusReply)
| SelectLogLevel (index : nat)
| SelectLogComponent (index : nat)
| TypeLogSearch (text : string)
| ClearLogs
| ClockTick (date : Z).

(** The user picks option [index] of a select (an index the select does
    not have is not offered). *)
Definition pick (index : nat) (s : Select) : Select :=
  if (index <? length (options s))%nat then mkSelect (options s) index else s.

(** The listener or continuation each event runs, as [setupEventListeners]
    and the [then]/[catch] chains wire them. *)
Definition handle `{Locale} (e : Event) (w : World) : World :=
  match e with
  | SwitchTab tabName => switchTab tabName w
  | RefreshNow => refreshDashboard w
  | IntervalFires id => intervalFires id w
  | SetAutoRefresh seconds => setAutoRefresh seconds w
  | ToggleMonitoring => toggleMonitoring w
  | MonitoringToggled stop r => monitoringToggled stop r w
  | MonitoringStatusLoaded r => monitoringStatusLoaded r w
  | SystemMetricsLoaded r => systemMetricsLoaded r w
  | SelectPerformanceCategory index =>
      loadPerformanceMetrics
        (with_performanceTab (fun t =>
           mkPerformanceTab (pick index (performanceCategory t))
                            (performanceMetric t) (performanceRows t)) w)
  | SelectPerformanceMetric index =>
      updatePerformanceChart
        (with_performanceTab (fun t =>
           mkPerformanceTab (performanceCategory t)
                            (pick index (performanceMetric t))
                            (performanceRows t)) w)
  | SelectPerformanceTimeRange => loadPerformanceMetrics w
  | PerformanceLoaded r => performanceLoaded r w
  | MetricHistoryLoaded r => metricHistoryLoaded r w
  | AlertsLoaded r => alertsLoaded r w
  | AlertHistoryLoaded r => alertHistoryLoaded r w
  | FillAlertForm name description severity category =>
      with_alertsTab (fun t =>
        mkAlertsTab (statusCounts t) (activeAlerts t) (alertHistory t)
                    name description severity category) w
  | SubmitAlertForm => createAlert w
  | AlertCreated name r => alertCreated name r w
  | AcknowledgeAlert alertName => acknowledgeAlert alertName w
  | ResolveAlert alertName => resolveAlert alertName w
  | SilenceAlert alertName silence => silenceAlert alertName silence w
  | AlertAcknowledged alertName r => alertAcknowledged alertName r w
  | AlertResolved alertName r => alertResolved alertName r w
  | AlertSilenced alertName silence r => alertSilenced alertName silence r w
  | SelectLogLevel index =>
      filterLogs
        (with_logsTab (fun t =>
           mkLogsTab (pick index (logLevel t)) (logComponent t)
                     (logSearch t) (logEntries t)) w)
  | SelectLogComponent index =>
      filterLogs
        (with_logsTab (fun t =>
           mkLogsTab (logLevel t) (pick index (logComponent t))
                     (logSearch t) (logEntries t)) w)
  | TypeLogSearch text =>
      filterLogs
        (with_logsTab (fun t =>
           mkLogsTab (logLevel t) (logComponent t) text (logEntries t)) w)
  | ClearLogs => clearLogFilters w
  | ClockTick date =>
      with_browser (fun b =>
        mkBrowser (heap b) (intervals b) (nextInterval b) date (requests b)) w
  end.

(** A session: the events of a page visit, handled one after the other. *)
Definition session `{Locale} (events : list Event) (w : World) : World :=
  fold_left (fun w e => handle e w) events w.

(** [init]: the listeners are set up, the system tab is shown, the
    dashboard is refreshed, and the refresh is scheduled at the interval
    the [auto-refresh] select has (10 seconds as served). *)
Definition init `{Locale} (w : World) : World :=
  setAutoRefresh 10 (refreshDashboard (switchTab "system" w)).

(** The calls that paint a chart slot. *)
Inductive Render :=
| CpuChart (cpuMetrics : MetricsData)
| MemoryChart (memoryMetrics : MetricsData)
| DiskChart (diskMetrics : MetricsData)
| NetworkChart (networkMetrics : MetricsData)
| PerformanceChart (metricName : string) (metricValues : series)
| LogLevelChart.

Definition render `{Locale} (op : Render) (w : World) : World :=
  match op with
  | CpuChart m => updateCpuChart m w
  | MemoryChart m => updateMemoryChart m w
  | DiskChart m => updateDiskChart m w
  | NetworkChart m => updateNetworkChart m w
  | PerformanceChart name values => renderPerformanceChart name values w
  | LogLevelChart => loadLogs w
  end.

Definition renderSlot (op : Render) : string :=
  match op with
  | CpuChart _ => "cpu"
  | MemoryChart _ => "memory"
  | DiskChart _ => "disk"
  | NetworkChart _ => "network"
  | PerformanceChart _ _ => "performance"
  | LogLevelChart => "logLevels"
  end.

Definition timeLabels `{Locale} (s : series) : list string :=
  map (fun item => formatTime (fst item)) s.

(** The labels a render call asks the chart to show. *)
Definition renderLabels `{Locale} (op : Render) : list string :=
  match op with
  | CpuChart m => timeLabels (default [] (Js.get "system.cpu_percent" m))
  | MemoryChart m => timeLabels (default [] (Js.get "system.memory_percent" m))
  | DiskChart m => timeLabels (diskPercentData m)
  | NetworkChart m =>
      timeLabels (default [] (Js.get "system.network_total_bytes_recv_per_sec" m))
  | PerformanceChart _ values => timeLabels values
  | LogLevelChart => levelNames
  end.

(** The values a render call asks the chart to show, per data set. *)
Definition renderData (op : Render) : list (list number) :=
  match op with
  | CpuChart m => [map snd (default [] (Js.get "system.cpu_percent" m))]
  | MemoryChart m => [map snd (default [] (Js.get "system.memory_percent" m))]
  | DiskChart m => [map snd (diskPercentData m)]
  | NetworkChart m =>
      [map (fun item => kilo (snd item))
           (default [] (Js.get "system.network_total_bytes_recv_per_sec" m));
       map (fun item => kilo (snd item))
           (default [] (Js.get "system.network_total_bytes_sent_per_sec" m))]
  | PerformanceChart _ values => [map snd values]
  | LogLevelChart =>
      [map (fun level => QArith_base.inject_Z (levelCount level simulatedLogs))
           levelNames]
  end.

(** The refresh schedule is in order when the live interval timers are
    exactly the one the dashboard holds in [refreshTimer], if any. *)
Definition TimerOk (w : World) : Prop :=
  dom (intervals (browser w)) =
  match refreshTimer (dash w) with
  | Some id => {[id]}
  | None => ∅
  end.

(** What the schedule consists of. *)
Definition timerState (w : World) : option positive * gmap positive Z :=
  (refreshTimer (dash w), intervals (browser w)).

(** What the chart slots consist of. *)
Definition chartState (w : World) : gmap string nat * list Chart :=
  (charts (dash w), heap (browser w)).

(** [w'] keeps the charts of [w]: the charts stay in order and every
    filled slot still refers to the chart object it referred to. *)
Definition KeepsCharts (w w' : World) : Prop :=
  (ChartsOk w -> ChartsOk w') /\
  (forall slot ref,
     charts (dash w) !! slot = Some ref -> charts (dash w') !! slot = Some ref).

(** The pie chart of the log levels as [initLogLevelChart] constructs it,
    and what [simulateLogs] assigns to it. *)
Definition logLevelPie : Chart :=
  mkChart "log-levels-chart" "pie" levelNames
          [mkDataset EmptyString (map QArith_base.inject_Z [0; 0; 0; 0; 0])]
          None (Some "Log Levels") 0.

Definition logLevelCounts (logs : list LogEntry) : list number :=
  map (fun level => QArith_base.inject_Z (levelCount level logs)) levelNames.

(** The four tabs. *)
Definition tabNames : list string := ["system"; "performance"; "alerts"; "logs"].

(** The tabs whose button, and the panes that, carry the class [active]. *)
Definition activeButtons (w : World) : list string :=
  map button_tab (List.filter button_active (tabButtons (frame w))).

Definition activePanes (w : World) : list string :=
  map pane_id (List.filter pane_active (tabPanes (frame w))).

(** The requests the data load of a tab sends. *)
Definition tabRequests (tabName : string) (w : World) : list Request :=
  if String.eqb tabName "system" then
    [GET "/api/monitoring/metrics?category=system"]
  else if String.eqb tabName "performance" then
    let category := select_value (performanceCategory (performanceTab w)) in
    [GET ("/api/monitoring/performance" +:+
          (if nonEmpty category then "?category=" +:+ category else ""))]
  else if String.eqb tabName "alerts" then
    [GET "/api/monitoring/alerts"; GET "/api/monitoring/alerts/history"]
  else [].

(** ** Alerts: vocabulary *)

Definition severityNames : list string := ["critical"; "error"; "warning"; "info"].

(** The rank of a severity: critical 0, error 1, warning 2, info 3. *)
Definition severityRank (alert : Alert) : Z :=
  default 0 (Js.get (alert_severity alert) severityOrder).

(** The alerts of one severity, in the order of the list. *)
Definition withSeverity (severity : string) (alerts : list Alert) : list Alert :=
  List.filter (fun alert => String.eqb (alert_severity alert) severity) alerts.

(** The alerts the active-alert list shows, top to bottom. *)
Definition renderedAlerts (w : World) : list Alert :=
  match activeAlerts (alertsTab w) with
  | NoAlertsMessage => []
  | AlertItems items => map item_alert items
  end.

(** An alert of a given severity, for examples. *)
Definition someAlert (name severity : string) : Alert :=
  mkAlert name "example" severity "custom" "active" None None None false [].

(** ** Performance table: vocabulary *)

(** What makes [localeCompare] an ordering of strings: only equal strings
    compare equal, swapping the arguments swaps the sign, and the order is
    transitive. *)
Class Collation `{Locale} : Prop := {
  localeCompare_eq : forall a b, localeCompare a b = 0 -> a = b;
  localeCompare_antisym : forall a b,
    Z.sgn (localeCompare b a) = - Z.sgn (localeCompare a b);
  localeCompare_trans : forall a b c,
    localeCompare a b <= 0 -> localeCompare b c <= 0 -> localeCompare a c <= 0
}.

(** Row [a] may stand above row [b]: its category comes first, or the
    categories are the same and its name does not come later. *)
Definition rowLe `{Locale} (a b : PerformanceRow) : Prop :=
  localeCompare (perf_category a) (perf_category b) < 0 \/
  (perf_category a = perf_category b /\
   localeCompare (perf_name a) (perf_name b) <= 0).

(** Statistics of a metric, for examples: all five figures are [n]. *)
Definition someStat (n : Z) : PerformanceStat :=
  mkPerformanceStat (QArith_base.inject_Z n) (QArith_base.inject_Z n)
                    (QArith_base.inject_Z n) (QArith_base.inject_Z n) n.

(** In the words of the specification: the (category, metric, statistics)
    triples of a response, category by category. *)
Definition responseTriples (metricsData : PerformanceData)
    : list (string * string * PerformanceStat) :=
  flat_map (fun '(category, metrics) =>
              map (fun '(name, stats) => (category, name, stats)) metrics)
           metricsData.

(** The table row that shows a triple. *)
Definition tripleRow (triple : string * string * PerformanceStat) : PerformanceRow :=
  let '(category, name, stats) := triple in
  mkPerformanceRow (stripDuration name) category stats.

(** In the words of the specification: triple [a] may stand above triple
    [b] when its category comes first in lexicographic order, or the
    categories are the same and its metric name does not come later. *)
Definition tripleLexLe (a b : string * string * PerformanceStat) : Prop :=
  let '(categoryA, nameA, _) := a in
  let '(categoryB, nameB, _) := b in
  String.compare categoryA categoryB = Lt \/
  (categoryA = categoryB /\ String.compare nameA nameB <> Gt).

(** ** Mutating actions: vocabulary *)

(** The request failed: the promise was rejected, or the body does not
    carry the status ["success"]. *)
Definition failed (r : Js.reply StatusReply) : Prop :=
  match r with
  | Js.Rejected => True
  | Js.Resolved data => status data <> "success"
  end.

(** [w'] is [w] with one more toast, of type ["error"], and nothing else
    changed. *)
Definition onlyErrorToast (w w' : World) : Prop :=
  exists message, w' = showToast message "error" w.

(** ** Log filter: vocabulary *)

(** The values the level filter offers, as served. *)
Definition levelOptions : list string := EmptyString :: levelNames.

(** The entry shows the log record, whatever its [style.display]. *)
Definition showsLog (entry : LogElement) (log : LogEntry) : Prop :=
  set_display EmptyString entry = logElement log.

(** An entry is visible when its [style.display] is empty. *)
Definition visible (entry : LogElement) : Prop :=
  entry_display entry = EmptyString.

(** In the words of the specification: the record passes the three
    filters. *)
Definition logMatches (level component searchText : string) (log : LogEntry)
    : Prop :=
  (level = EmptyString \/ log_level log = level) /\
  (component = EmptyString \/ Js.includes (log_component log) component = true) /\
  (searchText = EmptyString \/
   Js.includes (Js.toLowerCase (textContent (logElement log)))
               (Js.toLowerCase searchText) = true).

(** The logs tab is in order when the level filter has the options it is
    served with, no option of the component filter contains a colon, and
    every entry shows one of the records of the log buffer. *)
Definition LogsOk (w : World) : Prop :=
  options (logLevel (logsTab w)) = levelOptions /\
  Forall (fun c => Js.includes c ":" = false)
         (options (logComponent (logsTab w))) /\
  Forall (fun entry => exists log, In log simulatedLogs /\ showsLog entry log)
         (logEntries (logsTab w)).

(** ** Byte sizes: vocabulary *)








(** ** Vocabulary of the further properties *)

(** The alerts whose severity is none of the four. *)
Definition otherSeverity (alerts : list Alert) : list Alert :=
  List.filter (fun alert => negb (Js.contains severityNames (alert_severity alert)))
              alerts.

(** The metrics the metric select offers: its options after the first,
    which is the placeholder. *)
Definition offeredMetrics (w : World) : list string :=
  drop 1 (options (performanceMetric (performanceTab w))).

(** The chart a slot holds. *)
Definition slotChart (slot : string) (w : World) : option Chart :=
  match charts (dash w) !! slot with
  | Some ref => heap (browser w) !! ref
  | None => None
  end.

(** The events by which the user asks the server to change something. *)
Definition mutating (e : Event) : bool :=
  match e with
  | ToggleMonitoring | SubmitAlertForm
  | AcknowledgeAlert _ | ResolveAlert _ | SilenceAlert _ _ => true
  | _ => false
  end.

(** What the header, the metric tables and the alert list rest on. *)
Definition controlState (w : World)
    : string * bool * option Z * gmap string (list MetricRow) * ActiveAlerts :=
  (currentTab (dash w), monitoringActive (dash w), lastRefresh (dash w),
   metricTables w, activeAlerts (alertsTab w)).

(** The slots of [this.charts] the dashboard fills. *)
Definition slotNames : list string :=
  ["cpu"; "memory"; "disk"; "network"; "performance"; "logLevels"].

(** [w'] has no chart slot beyond those of [w] and the six the
    dashboard fills. *)
Definition AddsKnownSlots (w w' : World) : Prop :=
  forall slot,
    is_Some (charts (dash w') !! slot) ->
    is_Some (charts (dash w) !! slot) \/ In slot slotNames.

(** * Properties *)

(** ** Facts about strings and objects *)

Section JsFacts.

Context {V : Type}.
Implicit Types (o : Js.object V) (k : string) (v : V).

Lemma set_fresh k v o :
  ~ In k (Js.keys o) -> Js.set k v o = o ++ [(k, v)].
Proof.
  induction o as [|[k' v'] o IH]; simpl; intros Hk; [reflexivity|].
  destruct (String.eqb_spec k' k) as [->|Hne].
  - exfalso. apply Hk. now left.
  - f_equal. apply IH. intros Hin. apply Hk. now right.
Qed.

Lemma keys_app o1 o2 : Js.keys (o1 ++ o2) = Js.keys o1 ++ Js.keys o2.
Proof. unfold Js.keys. apply map_app. Qed.

Lemma keys_filter_incl (f : string * V -> bool) o k :
  In k (Js.keys (List.filter f o)) -> In k (Js.keys o).
Proof.
  unfold Js.keys. rewrite !in_map_iff.
  intros [e [He Hin]]. apply filter_In in Hin. exists e. tauto.
Qed.



End JsFacts.

Lemma append_inj (p a b : string) : p +:+ a = p +:+ b -> a = b.
Proof.
  induction p as [|c p IH]; intros Heq; [exact Heq|].
  apply IH. unfold String.append in Heq; fold String.append in Heq.
  now inversion Heq.
Qed.

(** ** System tab: grouping *)

Lemma groupMetric_bucket b bs name values :
  (forall b', ~ In name (Js.keys (bucketMetrics b' bs))) ->
  bucketMetrics b (groupMetric bs (name, values)) =
  bucketMetrics b bs ++ List.filter (inBucket b) [(name, values)].
Proof.
  intros Hfresh.
  assert (Hc := set_fresh name values _ (Hfresh Cpu)).
  assert (Hm := set_fresh name values _ (Hfresh Memory)).
  assert (Hd := set_fresh name values _ (Hfresh Disk)).
  assert (Hn := set_fresh name values _ (Hfresh Network)).
  simpl in Hc, Hm, Hd, Hn.
  unfold groupMetric, inBucket, firstBucket. simpl.
  destruct (Js.includes name "cpu"); [destruct b; simpl; rewrite ?Hc, ?app_nil_r; reflexivity|].
  destruct (Js.includes name "memory"); [destruct b; simpl; rewrite ?Hm, ?app_nil_r; reflexivity|].
  destruct (Js.includes name "disk"); [destruct b; simpl; rewrite ?Hd, ?app_nil_r; reflexivity|].
  destruct (Js.includes name "network"); [destruct b; simpl; rewrite ?Hn, ?app_nil_r; reflexivity|].
  destruct b; simpl; rewrite app_nil_r; reflexivity.
Qed.

Lemma groupMetrics_from metricsData : forall bs,
  NoDup (Js.keys metricsData) ->
  (forall b k, In k (Js.keys (bucketMetrics b bs)) -> ~ In k (Js.keys metricsData)) ->
  forall b,
    bucketMetrics b (fold_left groupMetric metricsData bs) =
    bucketMetrics b bs ++ List.filter (inBucket b) metricsData.
Proof.
  induction metricsData as [|[name values] l IH]; intros bs Hnd Hdisj b.
  - simpl. now rewrite app_nil_r.
  - simpl in Hnd. inversion Hnd as [|? ? Hnotin Hnd']; subst.
    apply list_elem_of_In in Hnotin || rewrite list_elem_of_In in Hnotin.
    assert (Hfresh : forall b', ~ In name (Js.keys (bucketMetrics b' bs))).
    { intros b' Hin. apply (Hdisj b' name Hin). now left. }
    change (fold_left groupMetric ((name, values) :: l) bs)
      with (fold_left groupMetric l (groupMetric bs (name, values))).
    rewrite IH; trivial.
    + rewrite groupMetric_bucket by exact Hfresh.
      simpl List.filter.
      destruct (inBucket b (name, values)); rewrite <- app_assoc; reflexivity.
    + intros b' k Hin Hk.
      rewrite groupMetric_bucket in Hin by exact Hfresh.
      rewrite keys_app in Hin. apply in_app_or in Hin. destruct Hin as [Hin|Hin].
      * apply (Hdisj b' k Hin). now right.
      * apply keys_filter_incl in Hin. simpl in Hin.
        destruct Hin as [<-|[]]. contradiction.
Qed.

Lemma groupMetrics_filter metricsData b :
  Js.wf metricsData ->
  bucketMetrics b (groupMetrics metricsData) = List.filter (inBucket b) metricsData.
Proof.
  intros Hwf. unfold groupMetrics.
  rewrite groupMetrics_from; trivial.
  - now destruct b.
  - intros b' k Hin. now destruct b'.
Qed.

Section SystemTables.

Context `{Locale}.

Lemma updateCpuChart_tables m w :
  metricTables (updateCpuChart m w) = metricTables w.
Proof. unfold updateCpuChart. destruct (charts (dash w) !! "cpu"); reflexivity. Qed.

Lemma updateMemoryChart_tables m w :
  metricTables (updateMemoryChart m w) = metricTables w.
Proof. unfold updateMemoryChart. destruct (charts (dash w) !! "memory"); reflexivity. Qed.

Lemma updateDiskChart_tables m w :
  metricTables (updateDiskChart m w) = metricTables w.
Proof. unfold updateDiskChart. destruct (charts (dash w) !! "disk"); reflexivity. Qed.

Lemma updateNetworkChart_tables m w :
  metricTables (updateNetworkChart m w) = metricTables w.
Proof. unfold updateNetworkChart. destruct (charts (dash w) !! "network"); reflexivity. Qed.

Lemma updateMetricTable_tables tableId metrics w :
  is_Some (metricTables w !! tableId) ->
  metricTables (updateMetricTable tableId metrics w) =
  <[tableId := omap metricRow metrics]> (metricTables w).
Proof. intros [rows Hrows]. unfold updateMetricTable. now rewrite Hrows. Qed.


Lemma updateMetricTable_is_Some tableId metrics w t :
  is_Some (metricTables w !! t) ->
  is_Some (metricTables (updateMetricTable tableId metrics w) !! t).
Proof.
  intros Ht. unfold updateMetricTable.
  destruct (metricTables w !! tableId) eqn:E; [|exact Ht].
  simpl. rewrite lookup_insert_is_Some'. now right.
Qed.

Lemma updateMetricTable_same tableId metrics w :
  is_Some (metricTables w !! tableId) ->
  metricTables (updateMetricTable tableId metrics w) !! tableId =
  Some (omap metricRow metrics).
Proof.
  intros Ht. rewrite updateMetricTable_tables by exact Ht.
  apply lookup_insert_eq.
Qed.

Lemma updateMetricTable_other tableId metrics w t :
  tableId <> t ->
  metricTables (updateMetricTable tableId metrics w) !! t = metricTables w !! t.
Proof.
  intros Hne. unfold updateMetricTable.
  destruct (metricTables w !! tableId); [|reflexivity].
  simpl. now rewrite lookup_insert_ne.
Qed.

Lemma updateSystemCharts_table metricsData w b :
  (forall b', is_Some (metricTables w !! bucketTable b')) ->
  metricTables (updateSystemCharts metricsData w) !! bucketTable b =
  Some (omap metricRow (bucketMetrics b (groupMetrics metricsData))).
Proof.
  intros Hex. unfold updateSystemCharts.
  set (bs := groupMetrics metricsData).
  set (w0 := updateNetworkChart _ _).
  assert (Hex0 : forall t, is_Some (metricTables w !! t) ->
                           is_Some (metricTables w0 !! t)).
  { intros t. unfold w0.
    now rewrite updateNetworkChart_tables, updateDiskChart_tables,
      updateMemoryChart_tables, updateCpuChart_tables. }
  destruct b; simpl bucketTable; simpl bucketMetrics.
  - rewrite !updateMetricTable_other by discriminate.
    apply updateMetricTable_same, Hex0, (Hex Cpu).
  - rewrite !updateMetricTable_other by discriminate.
    apply updateMetricTable_same, updateMetricTable_is_Some, Hex0, (Hex Memory).
  - rewrite updateMetricTable_other by discriminate.
    apply updateMetricTable_same.
    do 2 apply updateMetricTable_is_Some. apply Hex0, (Hex Disk).
  - apply updateMetricTable_same.
    do 3 apply updateMetricTable_is_Some. apply Hex0, (Hex Network).
Qed.

End SystemTables.

Lemma wf_filter {V} (f : string * V -> bool) (o : Js.object V) :
  Js.wf o -> Js.wf (List.filter f o).
Proof.
  unfold Js.wf. induction o as [|[k v] o IH]; simpl; intros Hnd; [exact Hnd|].
  apply NoDup_cons in Hnd. destruct Hnd as [Hk Hnd].
  destruct (f (k, v)); simpl; [|now apply IH].
  apply NoDup_cons. split; [|now apply IH].
  intros Hin. apply Hk. apply list_elem_of_In. apply list_elem_of_In in Hin.
  now apply keys_filter_incl in Hin.
Qed.

Lemma inBucket_matched b entry : inBucket b entry = true -> matched entry = true.
Proof. unfold inBucket, matched. now destruct (firstBucket (fst entry)). Qed.

Lemma filter_inBucket_matched b (l : MetricsData) :
  List.filter (inBucket b) (List.filter matched l) = List.filter (inBucket b) l.
Proof.
  induction l as [|e l IH]; simpl; [reflexivity|].
  destruct (matched e) eqn:Hm; simpl.
  - now rewrite IH.
  - destruct (inBucket b e) eqn:Hb; [|exact IH].
    apply inBucket_matched in Hb. congruence.
Qed.

Lemma Buckets_ext (x y : Buckets) :
  (forall b, bucketMetrics b x = bucketMetrics b y) -> x = y.
Proof.
  intros Hb. destruct x, y.
  pose proof (Hb Cpu). pose proof (Hb Memory).
  pose proof (Hb Disk). pose proof (Hb Network).
  simpl in *. congruence.
Qed.

Lemma groupMetrics_matched metricsData :
  Js.wf metricsData ->
  groupMetrics (List.filter matched metricsData) = groupMetrics metricsData.
Proof.
  intros Hwf. apply Buckets_ext. intros b.
  rewrite !groupMetrics_filter by (trivial; now apply wf_filter).
  apply filter_inBucket_matched.
Qed.

(** C1 (as amended).  [updateSystemCharts] puts every metric of a response
    into the first of the buckets cpu, memory, disk, network whose word
    its name contains, keeping the order of the response; the table of a
    bucket shows the metrics of that bucket that have a sample, and nothing
    else.  A metric whose name has none of the four words reaches no
    chart and no table: the response without it gives the same page. *)
Theorem system_metrics_grouped `{Locale} (metricsData : MetricsData) (w : World) :
  Js.wf metricsData ->
  (forall b, is_Some (metricTables w !! bucketTable b)) ->
  (forall b,
     bucketMetrics b (groupMetrics metricsData) =
       List.filter (inBucket b) metricsData /\
     metricTables (updateSystemCharts metricsData w) !! bucketTable b =
       Some (omap metricRow (List.filter (inBucket b) metricsData))) /\
  updateSystemCharts metricsData w =
    updateSystemCharts (List.filter matched metricsData) w.
Proof.
  intros Hwf Htables. split.
  - intros b. split.
    + now apply groupMetrics_filter.
    + rewrite updateSystemCharts_table by exact Htables.
      now rewrite groupMetrics_filter.
  - unfold updateSystemCharts. now rewrite groupMetrics_matched.
Qed.

(** The response of the scenario of the specification, with one metric
    more whose name has none of the four words: the CPU series is
    charted and tabled, the other metric is in no bucket and no table. *)
Lemma system_metrics_grouped_witness :
  let metricsData : MetricsData :=
    [("system.cpu_percent",
      [(1000, QArith_base.inject_Z 10); (2000, QArith_base.inject_Z 55)]);
     ("system.uptime_seconds", [(1000, QArith_base.inject_Z 42)])] in
  let w := @updateSystemCharts plainLocale metricsData (servedPage 0) in
  (forall b,
     bucketMetrics b (groupMetrics metricsData) =
       List.filter (inBucket b) metricsData /\
     metricTables w !! bucketTable b =
       Some (omap metricRow (List.filter (inBucket b) metricsData))) /\
  w = @updateSystemCharts plainLocale (List.filter matched metricsData) (servedPage 0).
Proof.
  intros metricsData w.
  apply (@system_metrics_grouped plainLocale metricsData (servedPage 0)).
  - unfold Js.wf. vm_compute. repeat constructor; rewrite list_elem_of_In; simpl; intuition discriminate.
  - intros b. destruct b; vm_compute; eauto.
Defined.

(** C1 as the specification has it fails in its last part: a metric that
    matches none of the four words appears in no metric table of the
    system tab. *)
Lemma unmatched_metric_in_no_table :
  ~ (forall (L : Locale) (metricsData : MetricsData) (w : World) name values,
       Js.wf metricsData ->
       (forall b, is_Some (metricTables w !! bucketTable b)) ->
       In (name, values) metricsData ->
       values <> [] ->
       firstBucket name = None ->
       exists b rows row,
         metricTables (updateSystemCharts metricsData w) !! bucketTable b = Some rows /\
         In row rows /\ row_name row = displayName name).
Proof.
  intros Hclaim.
  destruct (Hclaim plainLocale
              [("system.uptime_seconds", [(1000, QArith_base.inject_Z 42)])]
              (servedPage 0) "system.uptime_seconds"
              [(1000, QArith_base.inject_Z 42)])
    as (b & rows & row & Hrows & Hin & _).
  - unfold Js.wf. simpl. repeat constructor. rewrite list_elem_of_In. simpl. tauto.
  - intros b. destruct b; vm_compute; eauto.
  - now left.
  - discriminate.
  - reflexivity.
  - destruct b; vm_compute in Hrows; inversion Hrows; subst; destruct Hin.
Qed.

(** ** Chart slots *)

Lemma mutateChart_compose ref f g w :
  mutateChart ref g (mutateChart ref f w) = mutateChart ref (g ∘ f) w.
Proof.
  unfold mutateChart, with_browser, set_heap. simpl.
  now rewrite list_alter_alter_eq.
Qed.

Lemma createOrUpdate_fresh slot fresh change w :
  charts (dash w) !! slot = None ->
  charts (dash (createOrUpdate slot fresh change w)) =
    <[slot := length (heap (browser w))]> (charts (dash w)) /\
  heap (browser (createOrUpdate slot fresh change w)) =
    heap (browser w) ++ [fresh].
Proof. intros Hslot. unfold createOrUpdate. rewrite Hslot. now split. Qed.

Lemma createOrUpdate_filled slot fresh change w ref :
  charts (dash w) !! slot = Some ref ->
  charts (dash (createOrUpdate slot fresh change w)) = charts (dash w) /\
  heap (browser (createOrUpdate slot fresh change w)) =
    alter change ref (heap (browser w)).
Proof. intros Hslot. unfold createOrUpdate. rewrite Hslot. now split. Qed.

Section ChartMethods.

Context `{Locale}.

Lemma updateCpuChart_pattern m w :
  let series := default [] (Js.get "system.cpu_percent" m) in
  let labels := map (fun item => formatTime (fst item)) series in
  let data := map snd series in
  updateCpuChart m w =
  createOrUpdate "cpu"
    (mkChart "cpu-chart" "line" labels [mkDataset "CPU Usage" data] (Some 100) None 0)
    (chart_update ∘ set_dataset_data 0 data ∘ set_chart_labels labels) w.
Proof.
  intros. unfold updateCpuChart, createOrUpdate.
  destruct (charts (dash w) !! "cpu"); [|reflexivity].
  now rewrite !mutateChart_compose.
Qed.

Lemma updateMemoryChart_pattern m w :
  let series := default [] (Js.get "system.memory_percent" m) in
  let labels := map (fun item => formatTime (fst item)) series in
  let data := map snd series in
  updateMemoryChart m w =
  createOrUpdate "memory"
    (mkChart "memory-chart" "line" labels [mkDataset "Memory Usage" data] (Some 100) None 0)
    (chart_update ∘ set_dataset_data 0 data ∘ set_chart_labels labels) w.
Proof.
  intros. unfold updateMemoryChart, createOrUpdate.
  destruct (charts (dash w) !! "memory"); [|reflexivity].
  now rewrite !mutateChart_compose.
Qed.

Lemma updateDiskChart_pattern m w :
  let series := diskPercentData m in
  let labels := map (fun item => formatTime (fst item)) series in
  let data := map snd series in
  updateDiskChart m w =
  createOrUpdate "disk"
    (mkChart "disk-chart" "line" labels [mkDataset "Disk Usage" data] (Some 100) None 0)
    (chart_update ∘ set_dataset_data 0 data ∘ set_chart_labels labels) w.
Proof.
  intros. unfold updateDiskChart, createOrUpdate.
  destruct (charts (dash w) !! "disk"); [|reflexivity].
  now rewrite !mutateChart_compose.
Qed.

Lemma updateNetworkChart_pattern m w :
  let recv := default [] (Js.get "system.network_total_bytes_recv_per_sec" m) in
  let sent := default [] (Js.get "system.network_total_bytes_sent_per_sec" m) in
  let labels := map (fun item => formatTime (fst item)) recv in
  let recvData := map (fun item => kilo (snd item)) recv in
  let sentData := map (fun item => kilo (snd item)) sent in
  updateNetworkChart m w =
  createOrUpdate "network"
    (mkChart "network-chart" "line" labels
       [mkDataset "Received" recvData; mkDataset "Sent" sentData] None None 0)
    (chart_update ∘ set_dataset_data 1 sentData ∘ set_dataset_data 0 recvData
       ∘ set_chart_labels labels) w.
Proof.
  intros. unfold updateNetworkChart, createOrUpdate.
  destruct (charts (dash w) !! "network"); [|reflexivity].
  now rewrite !mutateChart_compose.
Qed.

Lemma renderPerformanceChart_pattern name values w :
  let labels := map (fun item => formatTime (fst item)) values in
  let data := map snd values in
  let displayName := Js.lastSegment "." (stripDuration name) in
  let title := Some ("Performance Metric: " +:+ displayName) in
  renderPerformanceChart name values w =
  createOrUpdate "performance"
    (mkChart "performance-chart" "line" labels [mkDataset displayName data]
       None title 0)
    (chart_update ∘ set_dataset_data 0 data ∘ set_dataset_label 0 displayName
       ∘ set_chart_labels labels ∘ set_chart_title title) w.
Proof.
  intros. unfold renderPerformanceChart, createOrUpdate.
  destruct (charts (dash w) !! "performance"); [|reflexivity].
  now rewrite !mutateChart_compose.
Qed.

End ChartMethods.

(** ** The refresh schedule *)

Section Schedule.

Context `{Locale}.









Lemma TimerOk_timerState w w' :
  timerState w' = timerState w -> TimerOk w -> TimerOk w'.
Proof.
  unfold timerState, TimerOk. intros Heq Hok.
  inversion Heq as [[Ht Hi]]. now rewrite Ht, Hi.
Qed.

(** What [setAutoRefresh] leaves behind, whatever was scheduled before. *)
Lemma setAutoRefresh_schedule seconds w :
  TimerOk w ->
  let w' := setAutoRefresh seconds w in
  if 0 <? seconds
  then refreshTimer (dash w') = Some (nextInterval (browser w)) /\
       intervals (browser w') = {[nextInterval (browser w) := seconds * 1000]}
  else refreshTimer (dash w') = None /\ intervals (browser w') = ∅.
Proof.
  unfold TimerOk. intros Hok. cbv zeta. unfold setAutoRefresh.
  assert (Hempty :
    intervals (browser
      (match refreshTimer (dash w) with
       | Some id => with_dash (set_refreshTimer None) (clearInterval id w)
       | None => w
       end)) = ∅).
  { destruct (refreshTimer (dash w)) as [id|]; simpl.
    - apply dom_empty_iff_L. rewrite dom_delete_L, Hok.
      apply difference_diag_L.
    - now apply dom_empty_iff_L. }
  destruct (0 <? seconds).
  - destruct (refreshTimer (dash w)) as [id|]; simpl in *.
    + split; [reflexivity|]. rewrite Hempty. apply insert_empty.
    + split; [reflexivity|]. rewrite Hempty. apply insert_empty.
  - destruct (refreshTimer (dash w)) as [id|] eqn:E; simpl in *;
      (split; [first [reflexivity | exact E] | exact Hempty]).
Qed.





End Schedule.

Section Refresh.

Context `{Locale}.

Lemma loadLogs_dash w :
  lastRefresh (dash (loadLogs w)) = lastRefresh (dash w) /\
  currentTab (dash (loadLogs w)) = currentTab (dash w) /\
  monitoringActive (dash (loadLogs w)) = monitoringActive (dash w) /\
  requests (browser (loadLogs w)) = requests (browser w).
Proof.
  unfold loadLogs, simulateLogs, showLogs, initLogLevelChart.
  destruct (charts (dash w) !! "logLevels") as [ref|] eqn:E; simpl.
  - rewrite E. now simpl.
  - rewrite lookup_insert_eq. now simpl.
Qed.

Lemma loadTabData_dash tabName w :
  lastRefresh (dash (loadTabData tabName w)) = lastRefresh (dash w) /\
  currentTab (dash (loadTabData tabName w)) = currentTab (dash w) /\
  monitoringActive (dash (loadTabData tabName w)) = monitoringActive (dash w) /\
  exists rs, requests (browser (loadTabData tabName w)) = requests (browser w) ++ rs.
Proof.
  unfold loadTabData.
  destruct (String.eqb tabName "system");
    [repeat split; eexists; reflexivity|].
  destruct (String.eqb tabName "performance");
    [repeat split; eexists; reflexivity|].
  destruct (String.eqb tabName "alerts").
  { repeat split. eexists. unfold loadAlerts. simpl. rewrite <- app_assoc. reflexivity. }
  destruct (String.eqb tabName "logs").
  - destruct (loadLogs_dash w) as (H1 & H2 & H3 & H4).
    repeat split; trivial. exists []. now rewrite app_nil_r.
  - repeat split. exists []. now rewrite app_nil_r.
Qed.

End Refresh.


(** ** Chart slots over a session *)

Lemma KeepsCharts_same w w' : chartState w' = chartState w -> KeepsCharts w w'.
Proof.
  intros Heq.
  assert (Hc : charts (dash w') = charts (dash w)) by exact (f_equal fst Heq).
  assert (Hh : heap (browser w') = heap (browser w)) by exact (f_equal snd Heq).
  unfold KeepsCharts, ChartsOk. rewrite Hc, Hh. tauto.
Qed.

Lemma KeepsCharts_trans w1 w2 w3 :
  KeepsCharts w1 w2 -> KeepsCharts w2 w3 -> KeepsCharts w1 w3.
Proof. unfold KeepsCharts. intros [? ?] [? ?]. split; auto. Qed.

Lemma KeepsCharts_eq w w1 w2 :
  chartState w2 = chartState w1 -> KeepsCharts w w1 -> KeepsCharts w w2.
Proof.
  intros Heq Hk. apply (KeepsCharts_trans w w1 w2); [exact Hk|].
  now apply KeepsCharts_same.
Qed.

Lemma createOrUpdate_ChartsOk slot fresh change w :
  length (chart_datasets fresh) = slotDatasets slot ->
  (slot = "logLevels" -> chart_labels fresh = levelNames) ->
  (forall c, length (chart_datasets (change c)) = length (chart_datasets c)) ->
  (slot = "logLevels" -> forall c, chart_labels (change c) = chart_labels c) ->
  ChartsOk w -> ChartsOk (createOrUpdate slot fresh change w).
Proof.
  intros Hfresh Hfreshl Hchange Hchangel (Hsize & Hinj & Hrefs).
  destruct (charts (dash w) !! slot) as [r|] eqn:Hslot.
  - destruct (createOrUpdate_filled slot fresh change w r Hslot) as [Hc Hh].
    unfold ChartsOk. rewrite Hc, Hh. split; [|split].
    + now rewrite length_alter.
    + exact Hinj.
    + intros slot0 ref Hs0. destruct (Hrefs slot0 ref Hs0) as (c & Hl & Hn & Hlab).
      destruct (decide (r = ref)) as [->|Hne].
      * assert (slot0 = slot) by (eapply Hinj; eassumption). subst slot0.
        exists (change c). rewrite list_lookup_alter_eq, Hl. split; [reflexivity|].
        split; [now rewrite Hchange|].
        intros Hlog. rewrite Hchangel by exact Hlog. now apply Hlab.
      * exists c. now rewrite list_lookup_alter_ne.
  - destruct (createOrUpdate_fresh slot fresh change w Hslot) as [Hc Hh].
    assert (Hlt : forall s ref, charts (dash w) !! s = Some ref ->
                                (ref < length (heap (browser w)))%nat).
    { intros s ref Hs. destruct (Hrefs s ref Hs) as (c & Hl & _).
      eapply lookup_lt_Some, Hl. }
    unfold ChartsOk. rewrite Hc, Hh. split; [|split].
    + rewrite length_app, map_size_insert_None by exact Hslot. simpl. lia.
    + intros s1 s2 ref H1 H2.
      destruct (decide (slot = s1)) as [<-|Hn1];
        destruct (decide (slot = s2)) as [<-|Hn2]; trivial.
      * rewrite lookup_insert_eq in H1. rewrite lookup_insert_ne in H2 by exact Hn2.
        inversion H1; subst. apply Hlt in H2. lia.
      * rewrite lookup_insert_eq in H2. rewrite lookup_insert_ne in H1 by exact Hn1.
        inversion H2; subst. apply Hlt in H1. lia.
      * rewrite lookup_insert_ne in H1 by exact Hn1.
        rewrite lookup_insert_ne in H2 by exact Hn2.
        eapply Hinj; eassumption.
    + intros slot0 ref Hs0.
      destruct (decide (slot = slot0)) as [<-|Hn0].
      * rewrite lookup_insert_eq in Hs0. inversion Hs0; subst. exists fresh.
        rewrite lookup_app_r by lia. rewrite Nat.sub_diag. now simpl.
      * rewrite lookup_insert_ne in Hs0 by exact Hn0.
        destruct (Hrefs slot0 ref Hs0) as (c & Hl & Hn & Hlab).
        exists c. split; [|tauto]. now apply lookup_app_l_Some.
Qed.

Lemma createOrUpdate_KeepsCharts slot fresh change w :
  length (chart_datasets fresh) = slotDatasets slot ->
  (slot = "logLevels" -> chart_labels fresh = levelNames) ->
  (forall c, length (chart_datasets (change c)) = length (chart_datasets c)) ->
  (slot = "logLevels" -> forall c, chart_labels (change c) = chart_labels c) ->
  KeepsCharts w (createOrUpdate slot fresh change w).
Proof.
  intros Hfresh Hfreshl Hchange Hchangel. split.
  - now apply createOrUpdate_ChartsOk.
  - intros slot0 ref Hs0.
    destruct (charts (dash w) !! slot) as [r|] eqn:Hslot.
    + destruct (createOrUpdate_filled slot fresh change w r Hslot) as [-> _].
      exact Hs0.
    + destruct (createOrUpdate_fresh slot fresh change w Hslot) as [-> _].
      rewrite lookup_insert_ne; [exact Hs0|]. congruence.
Qed.

Lemma set_dataset_data_length i data c :
  length (chart_datasets (set_dataset_data i data c)) = length (chart_datasets c).
Proof. unfold set_dataset_data. simpl. apply length_alter. Qed.

Lemma set_dataset_label_length i label c :
  length (chart_datasets (set_dataset_label i label c)) = length (chart_datasets c).
Proof. unfold set_dataset_label. simpl. apply length_alter. Qed.

Lemma loadLogs_chartState w :
  chartState (loadLogs w) =
  chartState
    (createOrUpdate "logLevels"
       ((chart_update ∘ set_dataset_data 0 (logLevelCounts simulatedLogs)) logLevelPie)
       (chart_update ∘ set_dataset_data 0 (logLevelCounts simulatedLogs)) w).
Proof.
  unfold loadLogs, simulateLogs, showLogs, initLogLevelChart, createOrUpdate, chartState.
  destruct (charts (dash w) !! "logLevels") as [ref|] eqn:E; simpl.
  - rewrite E. simpl. now rewrite list_alter_alter_eq.
  - rewrite lookup_insert_eq. simpl. f_equal.
    rewrite list_alter_alter_eq.
    rewrite <- (Nat.add_0_r (length (heap (browser w)))) at 1.
    now rewrite alter_app_r.
Qed.

Section ChartsKept.

Context `{Locale}.

Ltac chart_side :=
  first [ reflexivity
        | intros; discriminate
        | intros; unfold compose; simpl;
          rewrite ?length_alter; reflexivity ].

Lemma updateCpuChart_KeepsCharts m w : KeepsCharts w (updateCpuChart m w).
Proof.
  rewrite updateCpuChart_pattern. cbv zeta.
  apply createOrUpdate_KeepsCharts; chart_side.
Qed.

Lemma updateMemoryChart_KeepsCharts m w : KeepsCharts w (updateMemoryChart m w).
Proof.
  rewrite updateMemoryChart_pattern. cbv zeta.
  apply createOrUpdate_KeepsCharts; chart_side.
Qed.

Lemma updateDiskChart_KeepsCharts m w : KeepsCharts w (updateDiskChart m w).
Proof.
  rewrite updateDiskChart_pattern. cbv zeta.
  apply createOrUpdate_KeepsCharts; chart_side.
Qed.

Lemma updateNetworkChart_KeepsCharts m w : KeepsCharts w (updateNetworkChart m w).
Proof.
  rewrite updateNetworkChart_pattern. cbv zeta.
  apply createOrUpdate_KeepsCharts; chart_side.
Qed.

Lemma renderPerformanceChart_KeepsCharts name values w :
  KeepsCharts w (renderPerformanceChart name values w).
Proof.
  rewrite renderPerformanceChart_pattern. cbv zeta.
  apply createOrUpdate_KeepsCharts; chart_side.
Qed.

Lemma loadLogs_KeepsCharts w : KeepsCharts w (loadLogs w).
Proof.
  eapply KeepsCharts_eq; [apply loadLogs_chartState|].
  apply createOrUpdate_KeepsCharts; chart_side.
Qed.

Lemma updateMetricTable_chartState tableId metrics w :
  chartState (updateMetricTable tableId metrics w) = chartState w.
Proof. unfold updateMetricTable. destruct (metricTables w !! tableId); reflexivity. Qed.

Lemma updateSystemCharts_KeepsCharts metricsData w :
  KeepsCharts w (updateSystemCharts metricsData w).
Proof.
  unfold updateSystemCharts.
  set (b := groupMetrics metricsData).
  set (w1 := updateCpuChart (cpuMetrics b) w).
  set (w2 := updateMemoryChart (memoryMetrics b) w1).
  set (w3 := updateDiskChart (diskMetrics b) w2).
  set (w4 := updateNetworkChart (networkMetrics b) w3).
  apply (KeepsCharts_eq w w4).
  { now rewrite !updateMetricTable_chartState. }
  apply (KeepsCharts_trans w w3 w4); [|apply updateNetworkChart_KeepsCharts].
  apply (KeepsCharts_trans w w2 w3); [|apply updateDiskChart_KeepsCharts].
  apply (KeepsCharts_trans w w1 w2); [|apply updateMemoryChart_KeepsCharts].
  apply updateCpuChart_KeepsCharts.
Qed.

Lemma loadTabData_KeepsCharts tabName w : KeepsCharts w (loadTabData tabName w).
Proof.
  unfold loadTabData.
  repeat match goal with |- context [if ?c then _ else _] => destruct c end;
    try (apply KeepsCharts_same; reflexivity).
  apply loadLogs_KeepsCharts.
Qed.

Lemma refreshDashboard_KeepsCharts w : KeepsCharts w (refreshDashboard w).
Proof.
  unfold refreshDashboard, checkMonitoringStatus.
  eapply KeepsCharts_eq; [reflexivity|].
  eapply KeepsCharts_trans; [|apply loadTabData_KeepsCharts].
  apply KeepsCharts_same. reflexivity.
Qed.

Lemma updatePerformanceChart_chartState w :
  chartState (updatePerformanceChart w) = chartState w.
Proof.
  unfold updatePerformanceChart. destruct (selectedIndex _ <=? 0)%nat; reflexivity.
Qed.

Lemma setAutoRefresh_chartState seconds w :
  chartState (setAutoRefresh seconds w) = chartState w.
Proof.
  unfold setAutoRefresh.
  destruct (refreshTimer (dash w)), (0 <? seconds); reflexivity.
Qed.

(** Whatever happens on the page, filled slots keep their chart. *)
Lemma handle_KeepsCharts e w : KeepsCharts w (handle e w).
Proof.
  destruct e; simpl;
    try (apply KeepsCharts_same; reflexivity).
  - unfold switchTab.
    eapply KeepsCharts_trans; [|apply loadTabData_KeepsCharts].
    apply KeepsCharts_same. reflexivity.
  - apply refreshDashboard_KeepsCharts.
  - unfold intervalFires. destruct (intervals (browser w) !! id).
    + apply refreshDashboard_KeepsCharts.
    + apply KeepsCharts_same. reflexivity.
  - apply KeepsCharts_same, setAutoRefresh_chartState.
  - apply KeepsCharts_same. unfold toggleMonitoring.
    now destruct (monitoringActive (dash w)).
  - apply KeepsCharts_same. unfold monitoringToggled.
    destruct stop, r as [|data]; try reflexivity;
      destruct (String.eqb (status data) "success"); reflexivity.
  - apply KeepsCharts_same. unfold monitoringStatusLoaded.
    destruct r as [|data]; [reflexivity|].
    destruct (String.eqb (status data) "active"); reflexivity.
  - unfold systemMetricsLoaded. destruct r as [|data].
    + apply KeepsCharts_same. reflexivity.
    + eapply KeepsCharts_eq; [reflexivity|]. apply updateSystemCharts_KeepsCharts.
  - apply KeepsCharts_same. now rewrite updatePerformanceChart_chartState.
  - apply KeepsCharts_same. unfold performanceLoaded.
    destruct r as [|data]; [reflexivity|].
    now rewrite updatePerformanceChart_chartState.
  - unfold metricHistoryLoaded. destruct r as [|[name values]].
    + apply KeepsCharts_same. reflexivity.
    + apply renderPerformanceChart_KeepsCharts.
  - apply KeepsCharts_same. unfold alertsLoaded.
    destruct r as [|alerts]; [reflexivity|].
    unfold renderActiveAlerts. now destruct alerts.
  - apply KeepsCharts_same. unfold alertHistoryLoaded. now destruct r.
  - apply KeepsCharts_same. unfold createAlert. now destruct (_ || _).
  - apply KeepsCharts_same. unfold alertCreated.
    destruct r as [|data]; [reflexivity|].
    now destruct (String.eqb (status data) "success").
  - apply KeepsCharts_same. unfold alertAcknowledged.
    destruct r as [|data]; [reflexivity|].
    now destruct (String.eqb (status data) "success").
  - apply KeepsCharts_same. unfold alertResolved.
    destruct r as [|data]; [reflexivity|].
    now destruct (String.eqb (status data) "success").
  - apply KeepsCharts_same. unfold alertSilenced.
    destruct r as [|data]; [reflexivity|].
    now destruct (String.eqb (status data) "success").
Qed.

Lemma session_KeepsCharts events : forall w, KeepsCharts w (session events w).
Proof.
  induction events as [|e events IH]; intros w.
  - apply KeepsCharts_same. reflexivity.
  - eapply KeepsCharts_trans; [apply handle_KeepsCharts|apply IH].
Qed.

Lemma servedPage_ChartsOk date : ChartsOk (servedPage date).
Proof.
  unfold ChartsOk. simpl. split; [|split].
  - now rewrite map_size_empty.
  - intros s1 s2 ref H1. now rewrite lookup_empty in H1.
  - intros slot ref H1. now rewrite lookup_empty in H1.
Qed.

Lemma init_KeepsCharts w : KeepsCharts w (init w).
Proof.
  unfold init.
  eapply KeepsCharts_eq; [apply setAutoRefresh_chartState|].
  eapply KeepsCharts_trans; [|apply refreshDashboard_KeepsCharts].
  unfold switchTab.
  eapply KeepsCharts_trans; [|apply loadTabData_KeepsCharts].
  apply KeepsCharts_same. reflexivity.
Qed.

End ChartsKept.

Section Rendering.

Context `{Locale}.

(** Every render call is an instance of the create-or-update pattern on
    its slot, and both ways lead to the labels and values it was given. *)
Lemma render_pattern op w :
  exists fresh change,
    chartState (render op w) =
      chartState (createOrUpdate (renderSlot op) fresh change w) /\
    chart_labels fresh = renderLabels op /\
    map ds_data (chart_datasets fresh) = renderData op /\
    forall c,
      length (chart_datasets c) = slotDatasets (renderSlot op) ->
      (renderSlot op = "logLevels" -> chart_labels c = levelNames) ->
      chart_canvas (change c) = chart_canvas c /\
      chart_labels (change c) = renderLabels op /\
      map ds_data (chart_datasets (change c)) = renderData op.
Proof.
  destruct op as [m|m|m|m|name values|]; simpl render; simpl renderSlot.
  - rewrite updateCpuChart_pattern. cbv zeta. do 2 eexists.
    split; [reflexivity|]. split; [reflexivity|]. split; [reflexivity|].
    intros [? ? ? [|d [|]] ? ? ?] Hlen _; try discriminate. now simpl.
  - rewrite updateMemoryChart_pattern. cbv zeta. do 2 eexists.
    split; [reflexivity|]. split; [reflexivity|]. split; [reflexivity|].
    intros [? ? ? [|d [|]] ? ? ?] Hlen _; try discriminate. now simpl.
  - rewrite updateDiskChart_pattern. cbv zeta. do 2 eexists.
    split; [reflexivity|]. split; [reflexivity|]. split; [reflexivity|].
    intros [? ? ? [|d [|]] ? ? ?] Hlen _; try discriminate. now simpl.
  - rewrite updateNetworkChart_pattern. cbv zeta. do 2 eexists.
    split; [reflexivity|]. split; [reflexivity|]. split; [reflexivity|].
    intros [? ? ? [|d1 [|d2 [|]]] ? ? ?] Hlen _; try discriminate. now simpl.
  - rewrite renderPerformanceChart_pattern. cbv zeta. do 2 eexists.
    split; [reflexivity|]. split; [reflexivity|]. split; [reflexivity|].
    intros [? ? ? [|d [|]] ? ? ?] Hlen _; try discriminate. now simpl.
  - do 2 eexists. split; [apply loadLogs_chartState|].
    split; [reflexivity|]. split; [reflexivity|].
    intros [? ? ? [|d [|]] ? ? ?] Hlen Hlab; try discriminate.
    simpl in *. split; [reflexivity|]. split; [now apply Hlab|reflexivity].
Qed.

End Rendering.

(** C4.  At any time of a page session the heap of Chart objects holds
    exactly one chart per filled slot, so no slot ever had a second chart
    constructed for it.  No event takes a chart away from a slot or gives
    it another one.  A render call on an empty slot constructs the chart
    with the labels and values of the call; on a filled slot it
    constructs nothing and leaves every other chart alone: the chart the
    slot refers to stays the same object, on the same canvas, and shows
    the labels and values of the call. *)
Theorem chart_created_once_then_mutated `{Locale}
    (date : Z) (events : list Event) (e : Event) (op : Render) :
  let w := session events (init (servedPage date)) in
  length (heap (browser w)) = size (charts (dash w)) /\
  (forall slot ref,
     charts (dash w) !! slot = Some ref ->
     charts (dash (handle e w)) !! slot = Some ref) /\
  match charts (dash w) !! renderSlot op with
  | None =>
      charts (dash (render op w)) =
        <[renderSlot op := length (heap (browser w))]> (charts (dash w)) /\
      exists c,
        heap (browser (render op w)) = heap (browser w) ++ [c] /\
        chart_labels c = renderLabels op /\
        map ds_data (chart_datasets c) = renderData op
  | Some ref =>
      charts (dash (render op w)) = charts (dash w) /\
      length (heap (browser (render op w))) = length (heap (browser w)) /\
      (forall r, r <> ref ->
         heap (browser (render op w)) !! r = heap (browser w) !! r) /\
      exists c c',
        heap (browser w) !! ref = Some c /\
        heap (browser (render op w)) !! ref = Some c' /\
        chart_canvas c' = chart_canvas c /\
        chart_labels c' = renderLabels op /\
        map ds_data (chart_datasets c') = renderData op
  end.
Proof.
  intros w.
  assert (Hok : ChartsOk w).
  { apply session_KeepsCharts, init_KeepsCharts, servedPage_ChartsOk. }
  split; [apply Hok|]. split; [apply handle_KeepsCharts|].
  destruct (render_pattern op w) as (fresh & change & Hst & Hfl & Hfd & Hch).
  assert (Hc : charts (dash (render op w)) =
               charts (dash (createOrUpdate (renderSlot op) fresh change w)))
    by exact (f_equal fst Hst).
  assert (Hh : heap (browser (render op w)) =
               heap (browser (createOrUpdate (renderSlot op) fresh change w)))
    by exact (f_equal snd Hst).
  rewrite Hc, Hh.
  destruct (charts (dash w) !! renderSlot op) as [ref|] eqn:Hslot.
  - destruct (createOrUpdate_filled _ fresh change w ref Hslot) as [-> ->].
    destruct Hok as (_ & _ & Hrefs).
    destruct (Hrefs _ _ Hslot) as (c & Hl & Hn & Hlab).
    destruct (Hch c Hn Hlab) as (Hcanvas & Hlabels & Hdata).
    split; [reflexivity|]. split; [apply length_alter|]. split.
    + intros r Hr. now apply list_lookup_alter_ne.
    + exists c, (change c). rewrite list_lookup_alter_eq, Hl. now simpl.
  - destruct (createOrUpdate_fresh _ fresh change w Hslot) as [-> ->].
    split; [reflexivity|]. now exists fresh.
Qed.

(** ** The disk chart *)

Lemma diskPercent_from diskMetrics : forall acc,
  fold_left diskPercentStep diskMetrics acc =
  match acc with
  | [] => default [] (firstPercentWithSamples diskMetrics)
  | _ :: _ => acc
  end.
Proof.
  unfold firstPercentWithSamples.
  induction diskMetrics as [|[name values] l IH]; intros acc.
  - now destruct acc.
  - simpl fold_left. rewrite IH. destruct acc as [|a acc]; simpl.
    + destruct (Js.includes name "percent"); simpl; [|reflexivity].
      now destruct values.
    + now rewrite andb_false_r.
Qed.

Lemma diskPercentData_first diskMetrics :
  diskPercentData diskMetrics = default [] (firstPercentWithSamples diskMetrics).
Proof. unfold diskPercentData. now rewrite diskPercent_from. Qed.

Lemma firstPercent_None diskMetrics :
  firstPercent diskMetrics = None -> firstPercentWithSamples diskMetrics = None.
Proof.
  unfold firstPercent, firstPercentWithSamples.
  induction diskMetrics as [|[name values] l IH]; simpl; [reflexivity|].
  destruct (Js.includes name "percent"); simpl; [discriminate|exact IH].
Qed.

(** C10 (as amended).  [updateDiskChart] plots one data series: that of the
    first disk metric, in the order of the object, whose name contains
    ["percent"] and whose series has a sample.  Nothing else of the disk
    metrics reaches the chart, and when no name contains ["percent"] the
    chart gets no label and no value. *)
Theorem disk_chart_first_percent_with_samples `{Locale}
    (date : Z) (events : list Event) (diskMetrics : MetricsData) :
  let w := session events (init (servedPage date)) in
  let w' := updateDiskChart diskMetrics w in
  let plotted := default [] (firstPercentWithSamples diskMetrics) in
  diskPercentData diskMetrics = plotted /\
  (firstPercent diskMetrics = None -> plotted = []) /\
  exists ref c,
    charts (dash w') !! "disk" = Some ref /\
    heap (browser w') !! ref = Some c /\
    chart_labels c = timeLabels plotted /\
    map ds_data (chart_datasets c) = [map snd plotted].
Proof.
  intros w w' plotted.
  assert (Hplot : diskPercentData diskMetrics = plotted)
    by apply diskPercentData_first.
  split; [exact Hplot|]. split.
  { intros Hnone. unfold plotted. now rewrite firstPercent_None. }
  assert (Hok : ChartsOk w).
  { apply session_KeepsCharts, init_KeepsCharts, servedPage_ChartsOk. }
  destruct (render_pattern (DiskChart diskMetrics) w)
    as (fresh & change & Hst & Hfl & Hfd & Hch).
  simpl render in Hst. simpl renderSlot in *.
  simpl renderLabels in *. simpl renderData in *. rewrite Hplot in *.
  fold w' in Hst.
  assert (Hc : charts (dash w') = charts (dash (createOrUpdate "disk" fresh change w)))
    by exact (f_equal fst Hst).
  assert (Hh : heap (browser w') = heap (browser (createOrUpdate "disk" fresh change w)))
    by exact (f_equal snd Hst).
  rewrite Hc, Hh.
  destruct (charts (dash w) !! "disk") as [ref|] eqn:Hslot.
  - destruct (createOrUpdate_filled _ fresh change w ref Hslot) as [-> ->].
    destruct Hok as (_ & _ & Hrefs).
    destruct (Hrefs _ _ Hslot) as (c & Hl & Hn & Hlab).
    destruct (Hch c Hn Hlab) as (_ & Hlabels & Hdata).
    exists ref, (change c). rewrite list_lookup_alter_eq, Hl. now simpl.
  - destruct (createOrUpdate_fresh _ fresh change w Hslot) as [-> ->].
    exists (length (heap (browser w))), fresh.
    rewrite lookup_insert_eq. split; [reflexivity|].
    rewrite lookup_app_r by lia. rewrite Nat.sub_diag. now simpl.
Qed.

(** C10 as the specification has it fails when the first disk metric with
    ["percent"] in its name has no sample: the chart then plots a later
    one. *)
Lemma disk_chart_skips_empty_series :
  ~ (forall diskMetrics : MetricsData,
       diskPercentData diskMetrics = default [] (firstPercent diskMetrics)).
Proof.
  intros Hclaim.
  specialize (Hclaim [("system.disk_root_percent", []);
                      ("system.disk_home_percent",
                       [(1000, QArith_base.inject_Z 50)])]).
  vm_compute in Hclaim. discriminate.
Qed.

(** ** Tabs *)

Section Tabs.

Context `{Locale}.

Lemma loadTabData_requests tabName w :
  requests (browser (loadTabData tabName w)) =
  requests (browser w) ++ tabRequests tabName w.
Proof.
  unfold loadTabData, tabRequests.
  destruct (String.eqb tabName "system"); [reflexivity|].
  destruct (String.eqb tabName "performance"); [reflexivity|].
  destruct (String.eqb tabName "alerts").
  { unfold loadAlerts. simpl. now rewrite <- app_assoc. }
  destruct (String.eqb tabName "logs").
  - destruct (loadLogs_dash w) as (_ & _ & _ & ->). now rewrite app_nil_r.
  - now rewrite app_nil_r.
Qed.

Lemma loadTabData_frame tabName w :
  frame (loadTabData tabName w) = frame w.
Proof.
  unfold loadTabData.
  repeat match goal with |- context [if ?c then _ else _] => destruct c end;
    try reflexivity.
  unfold loadLogs, simulateLogs, showLogs, initLogLevelChart.
  destruct (charts (dash w) !! "logLevels") as [ref|] eqn:E; simpl.
  - now rewrite E.
  - now rewrite lookup_insert_eq.
Qed.

Lemma loadTabData_unknown tabName w :
  ~ In tabName tabNames -> loadTabData tabName w = w.
Proof.
  intros Hnot. unfold loadTabData.
  repeat match goal with
         | |- context [String.eqb tabName ?t] =>
             destruct (String.eqb_spec tabName t) as [->|_];
             [exfalso; apply Hnot; simpl; tauto|]
         end.
  reflexivity.
Qed.

Lemma loadLogs_entries w :
  logEntries (logsTab (loadLogs w)) = map logElement simulatedLogs /\
  is_Some (charts (dash (loadLogs w)) !! "logLevels").
Proof.
  unfold loadLogs, simulateLogs, showLogs, initLogLevelChart.
  destruct (charts (dash w) !! "logLevels") as [ref|] eqn:E; simpl.
  - rewrite E. simpl. rewrite E. eauto.
  - rewrite lookup_insert_eq. simpl. rewrite lookup_insert_eq. eauto.
Qed.

End Tabs.

(** C2 (as amended).  On a page with the four tab buttons and panes,
    [switchTab(tab)] sets [currentTab] to [tab] whatever [tab] is.  For
    one of the four tabs the button and the pane of that tab become the
    only active ones and the data load of the tab is started: its
    requests go out, and for the logs tab the log entries are shown and
    the level chart exists.  For any other value no button and no pane is
    active any more, and nothing is loaded: but for [currentTab] and the
    active marks the state stays as it was. *)
Theorem switchTab_effect (tabName : string) (w : World) :
  map button_tab (tabButtons (frame w)) = tabNames ->
  map pane_id (tabPanes (frame w)) = map (fun t => "tab-" +:+ t) tabNames ->
  let w' := switchTab tabName w in
  currentTab (dash w') = tabName /\
  requests (browser w') = requests (browser w) ++ tabRequests tabName w /\
  (In tabName tabNames ->
     activeButtons w' = [tabName] /\
     activePanes w' = ["tab-" +:+ tabName] /\
     (tabName = "logs" ->
        logEntries (logsTab w') = map logElement simulatedLogs /\
        is_Some (charts (dash w') !! "logLevels"))) /\
  (~ In tabName tabNames ->
     activeButtons w' = [] /\
     activePanes w' = [] /\
     tabRequests tabName w = [] /\
     chartState w' = chartState w /\
     timerState w' = timerState w /\
     monitoringActive (dash w') = monitoringActive (dash w) /\
     lastRefresh (dash w') = lastRefresh (dash w) /\
     metricTables w' = metricTables w /\
     performanceTab w' = performanceTab w /\
     alertsTab w' = alertsTab w /\
     logsTab w' = logsTab w).
Proof.
  intros Hbuttons Hpanes w'.
  destruct (tabButtons (frame w)) as [|[t1 a1] [|[t2 a2] [|[t3 a3] [|[t4 a4] [|]]]]] eqn:Eb;
    try discriminate.
  destruct (tabPanes (frame w)) as [|[p1 c1] [|[p2 c2] [|[p3 c3] [|[p4 c4] [|]]]]] eqn:Ep;
    try discriminate.
  simpl in Hbuttons, Hpanes.
  inversion Hbuttons; subst t1 t2 t3 t4. inversion Hpanes; subst p1 p2 p3 p4.
  clear Hbuttons Hpanes.
  unfold w', switchTab.
  set (w1 := with_frame _ (with_frame _ _)).
  assert (Hframe : frame (loadTabData tabName w1) = frame w1)
    by apply loadTabData_frame.
  split; [|split; [|split]].
  - destruct (loadTabData_dash tabName w1) as (_ & -> & _). reflexivity.
  - rewrite loadTabData_requests. reflexivity.
  - intros Hin. split; [|split].
    + unfold activeButtons. rewrite Hframe. unfold w1. simpl. rewrite Eb.
      destruct Hin as [<-|[<-|[<-|[<-|[]]]]]; reflexivity.
    + unfold activePanes. rewrite Hframe. unfold w1. simpl. rewrite Ep.
      destruct Hin as [<-|[<-|[<-|[<-|[]]]]]; reflexivity.
    + intros Hlogs. revert w1 Hframe. rewrite Hlogs. intros w1 _.
      change (loadTabData "logs" w1) with (loadLogs w1).
      apply loadLogs_entries.
  - intros Hnot.
    assert (Hne : forall t, In t tabNames -> String.eqb t tabName = false).
    { intros t Ht. apply String.eqb_neq. intros ->. contradiction. }
    assert (Hnp : forall t, In t tabNames ->
                            String.eqb ("tab-" +:+ t) ("tab-" +:+ tabName) = false).
    { intros t Ht. apply String.eqb_neq. intros Heq. apply Hnot.
      apply append_inj in Heq. now subst. }
    rewrite loadTabData_unknown by exact Hnot.
    assert (Hb1 : tabButtons (frame w1) =
                  map (fun b => mkTabButton (button_tab b)
                                            (String.eqb (button_tab b) tabName))
                      (tabButtons (frame w))) by reflexivity.
    assert (Hp1 : tabPanes (frame w1) =
                  map (fun p => mkTabPane (pane_id p)
                                          (String.eqb (pane_id p) ("tab-" +:+ tabName)))
                      (tabPanes (frame w))) by reflexivity.
    rewrite Eb in Hb1. rewrite Ep in Hp1.
    cbn [map button_tab pane_id] in Hb1, Hp1.
    rewrite !Hne in Hb1 by (simpl; tauto).
    rewrite !Hnp in Hp1 by (simpl; tauto).
    unfold activeButtons, activePanes. rewrite Hb1, Hp1.
    split; [reflexivity|]. split; [reflexivity|]. split.
    { unfold tabRequests.
      rewrite !(String.eqb_sym tabName), !Hne by (simpl; tauto). reflexivity. }
    repeat split.
Qed.

(** The page as served, sent to the alerts tab: the button and pane of
    that tab are the active ones and the two alert requests are out. *)
Lemma switchTab_effect_witness :
  let w' := switchTab "alerts" (servedPage 0) in
  currentTab (dash w') = "alerts" /\
  requests (browser w') =
    [GET "/api/monitoring/alerts"; GET "/api/monitoring/alerts/history"] /\
  activeButtons w' = ["alerts"] /\
  activePanes w' = ["tab-alerts"].
Proof.
  destruct (switchTab_effect "alerts" (servedPage 0))
    as (Hcur & Hreq & Hin & _); [reflexivity|reflexivity|].
  destruct Hin as (Hb & Hp & _); [simpl; tauto|].
  cbv zeta. repeat split; assumption.
Defined.

(** C2 as the specification has it fails for a value outside the four
    tabs: [currentTab] takes that value. *)
Lemma switchTab_unknown_not_noop :
  ~ (forall (tabName : string) (w : World),
       ~ In tabName tabNames ->
       currentTab (dash (switchTab tabName w)) = currentTab (dash w) /\
       activeButtons (switchTab tabName w) = activeButtons w /\
       activePanes (switchTab tabName w) = activePanes w).
Proof.
  intros Hclaim.
  destruct (Hclaim "settings" (servedPage 0)) as (Hcur & _).
  - simpl. intuition discriminate.
  - vm_compute in Hcur. discriminate.
Qed.

(** ** Sorting *)

Section Sorting.

Context {A : Type} (cmp : A -> A -> Z).

Lemma insert_Permutation x l : Permutation (Js.insert cmp x l) (x :: l).
Proof.
  induction l as [|y l IH]; simpl; [reflexivity|].
  destruct (0 <? cmp x y); [|reflexivity].
  rewrite IH. apply perm_swap.
Qed.

Lemma sort_Permutation l : Permutation (Js.sort cmp l) l.
Proof.
  induction l as [|x l IH]; simpl; [reflexivity|].
  rewrite insert_Permutation. now rewrite IH.
Qed.

(** An element passes the elements that compare strictly smaller. *)
Lemma insert_pass x l1 l2 :
  (forall y, In y l1 -> 0 < cmp x y) ->
  Js.insert cmp x (l1 ++ l2) = l1 ++ Js.insert cmp x l2.
Proof.
  induction l1 as [|y l1 IH]; intros Hlt; [reflexivity|].
  simpl. assert (Hy : 0 < cmp x y) by (apply Hlt; now left).
  apply Z.ltb_lt in Hy. rewrite Hy. f_equal. apply IH.
  intros z Hz. apply Hlt. now right.
Qed.

(** It stops in front of the first element that does not. *)
Lemma insert_stop x l :
  (forall y, In y l -> cmp x y <= 0) -> Js.insert cmp x l = x :: l.
Proof.
  destruct l as [|y l]; intros Hle; [reflexivity|].
  simpl. assert (Hy : cmp x y <= 0) by (apply Hle; now left).
  apply Z.ltb_ge in Hy. now rewrite Hy.
Qed.

Hypothesis cmp_antisym : forall x y, 0 < cmp x y -> cmp y x <= 0.
Hypothesis cmp_trans : forall x y z, cmp x y <= 0 -> cmp y z <= 0 -> cmp x z <= 0.

Lemma insert_StronglySorted x l :
  StronglySorted (fun a b => cmp a b <= 0) l ->
  StronglySorted (fun a b => cmp a b <= 0) (Js.insert cmp x l).
Proof.
  induction l as [|y l IH]; intros Hs; simpl.
  - repeat constructor.
  - inversion Hs as [|? ? Hs' Hall]; subst.
    destruct (0 <? cmp x y) eqn:Hxy.
    + constructor; [now apply IH|].
      apply Z.ltb_lt in Hxy.
      rewrite List.Forall_forall. intros z Hz.
      apply (Permutation_in _ (insert_Permutation x l)) in Hz.
      destruct Hz as [<-|Hz]; [now apply cmp_antisym|].
      rewrite List.Forall_forall in Hall. now apply Hall.
    + apply Z.ltb_ge in Hxy. constructor; [exact Hs|].
      constructor; [exact Hxy|].
      rewrite List.Forall_forall in *. intros z Hz.
      apply (cmp_trans x y z); [exact Hxy|now apply Hall].
Qed.

Lemma sort_StronglySorted l :
  StronglySorted (fun a b => cmp a b <= 0) (Js.sort cmp l).
Proof.
  induction l as [|x l IH]; simpl; [constructor|].
  now apply insert_StronglySorted.
Qed.

End Sorting.

(** ** Active alerts *)

Lemma withSeverity_In s alerts a :
  In a (withSeverity s alerts) -> alert_severity a = s.
Proof.
  unfold withSeverity. intros Hin. apply filter_In in Hin.
  now apply String.eqb_eq.
Qed.

Lemma compareSeverity_known a b sa sb ra rb :
  alert_severity a = sa -> alert_severity b = sb ->
  Js.get sa severityOrder = Some ra -> Js.get sb severityOrder = Some rb ->
  compareSeverity a b = ra - rb.
Proof. intros <- <- Ha Hb. unfold compareSeverity. now rewrite Ha, Hb. Qed.

(** The sort of [renderActiveAlerts] puts the critical alerts first, then
    the errors, the warnings and the infos, each group in the order
    received. *)
Lemma sort_bySeverity alerts :
  Forall (fun a => In (alert_severity a) severityNames) alerts ->
  Js.sort compareSeverity alerts =
  withSeverity "critical" alerts ++ withSeverity "error" alerts ++
  withSeverity "warning" alerts ++ withSeverity "info" alerts.
Proof.
  induction 1 as [|x l Hx Hl IH]; [reflexivity|].
  simpl Js.sort. fold (Js.sort compareSeverity l). rewrite IH.
  assert (Hcmp : forall s r sy ry y,
            alert_severity x = s -> Js.get s severityOrder = Some r ->
            Js.get sy severityOrder = Some ry ->
            In y (withSeverity sy l) -> compareSeverity x y = r - ry).
  { intros s r sy ry y Hs Hr Hry Hy.
    apply (compareSeverity_known x y s sy); trivial.
    now apply withSeverity_In in Hy. }
  unfold withSeverity at 5 6 7 8. simpl List.filter.
  fold (withSeverity "critical" l) (withSeverity "error" l)
       (withSeverity "warning" l) (withSeverity "info" l).
  assert (Hpass : forall s r sy ry,
            alert_severity x = s -> Js.get s severityOrder = Some r ->
            Js.get sy severityOrder = Some ry -> ry < r ->
            forall rest,
              Js.insert compareSeverity x (withSeverity sy l ++ rest) =
              withSeverity sy l ++ Js.insert compareSeverity x rest).
  { intros s r sy ry Hs Hr Hry Hlt rest. apply insert_pass.
    intros y Hy. rewrite (Hcmp s r sy ry y Hs Hr Hry Hy). lia. }
  assert (Hle : forall s r sy ry y,
            alert_severity x = s -> Js.get s severityOrder = Some r ->
            Js.get sy severityOrder = Some ry -> r <= ry ->
            In y (withSeverity sy l) -> compareSeverity x y <= 0).
  { intros s r sy ry y Hs Hr Hry Hrr Hy.
    rewrite (Hcmp s r sy ry y Hs Hr Hry Hy). lia. }
  simpl in Hx. destruct Hx as [Hx|[Hx|[Hx|[Hx|[]]]]]; symmetry in Hx;
    rewrite Hx; simpl.
  - apply insert_stop. intros y Hy.
    repeat (apply in_app_or in Hy; destruct Hy as [Hy|Hy]);
      eapply (Hle _ _ _ _ y Hx); try exact Hy; try reflexivity; lia.
  - rewrite (Hpass _ _ "critical" _ Hx eq_refl eq_refl) by lia.
    f_equal. apply insert_stop. intros y Hy.
    repeat (apply in_app_or in Hy; destruct Hy as [Hy|Hy]);
      eapply (Hle _ _ _ _ y Hx); try exact Hy; try reflexivity; lia.
  - rewrite (Hpass _ _ "critical" _ Hx eq_refl eq_refl) by lia.
    f_equal. rewrite (Hpass _ _ "error" _ Hx eq_refl eq_refl) by lia.
    f_equal. apply insert_stop. intros y Hy.
    repeat (apply in_app_or in Hy; destruct Hy as [Hy|Hy]);
      eapply (Hle _ _ _ _ y Hx); try exact Hy; try reflexivity; lia.
  - rewrite (Hpass _ _ "critical" _ Hx eq_refl eq_refl) by lia.
    f_equal. rewrite (Hpass _ _ "error" _ Hx eq_refl eq_refl) by lia.
    f_equal. rewrite (Hpass _ _ "warning" _ Hx eq_refl eq_refl) by lia.
    f_equal. apply insert_stop. intros y Hy.
    eapply (Hle _ _ _ _ y Hx); try exact Hy; try reflexivity; lia.
Qed.

Lemma withSeverity_app s l1 l2 :
  withSeverity s (l1 ++ l2) = withSeverity s l1 ++ withSeverity s l2.
Proof. unfold withSeverity. apply List.filter_app. Qed.

Lemma withSeverity_twice s s' l :
  withSeverity s (withSeverity s' l) =
  if String.eqb s' s then withSeverity s' l else [].
Proof.
  unfold withSeverity. induction l as [|a l IH]; simpl.
  - now destruct (String.eqb s' s).
  - destruct (String.eqb_spec (alert_severity a) s') as [Ha|Ha]; simpl.
    + rewrite IH, Ha. now destruct (String.eqb s' s).
    + exact IH.
Qed.

Lemma severityRank_block s l a b :
  In a (withSeverity s l) -> In b (withSeverity s l) ->
  severityRank a <= severityRank b.
Proof.
  intros Ha Hb. apply withSeverity_In in Ha. apply withSeverity_In in Hb.
  unfold severityRank. rewrite Ha, Hb. lia.
Qed.

Lemma StronglySorted_block s l :
  StronglySorted (fun a b => severityRank a <= severityRank b) (withSeverity s l).
Proof.
  assert (Hall : forall a b, In a (withSeverity s l) -> In b (withSeverity s l) ->
                             severityRank a <= severityRank b)
    by apply severityRank_block.
  induction (withSeverity s l) as [|x xs IH]; constructor.
  - apply IH. intros a b Ha Hb. apply Hall; now right.
  - apply List.Forall_forall. intros y Hy. apply Hall; [now left|now right].
Qed.

Lemma severityRank_blocks s1 s2 r1 r2 l a b :
  Js.get s1 severityOrder = Some r1 -> Js.get s2 severityOrder = Some r2 ->
  r1 <= r2 ->
  In a (withSeverity s1 l) -> In b (withSeverity s2 l) ->
  severityRank a <= severityRank b.
Proof.
  intros H1 H2 Hle Ha Hb.
  apply withSeverity_In in Ha. apply withSeverity_In in Hb.
  unfold severityRank. now rewrite Ha, Hb, H1, H2.
Qed.

Lemma item_alert_renderAlert `{Locale} date alerts :
  map item_alert (map (renderAlert date) alerts) = alerts.
Proof. induction alerts as [|a l IH]; simpl; [reflexivity|]. now rewrite IH. Qed.

Lemma renderedAlerts_sorted `{Locale} alerts w :
  renderedAlerts (renderActiveAlerts alerts w) = Js.sort compareSeverity alerts.
Proof.
  unfold renderedAlerts, renderActiveAlerts.
  destruct alerts as [|a l]; [reflexivity|].
  simpl activeAlerts. apply item_alert_renderAlert.
Qed.

(** C5.  When every alert has one of the four severities, the
    active-alert list shows the critical alerts, then the errors, the
    warnings and the infos, each group in the order the server gave: the
    list is ascending by severity rank and alerts of one severity keep
    their order.  Alerts with the severities warning, critical, info,
    error, in this order, are shown as critical, error, warning, info. *)
Theorem active_alerts_by_severity `{Locale} (alerts : list Alert) (w : World) :
  Forall (fun a => In (alert_severity a) severityNames) alerts ->
  let shown := renderedAlerts (renderActiveAlerts alerts w) in
  shown = withSeverity "critical" alerts ++ withSeverity "error" alerts ++
          withSeverity "warning" alerts ++ withSeverity "info" alerts /\
  Permutation shown alerts /\
  StronglySorted (fun a b => severityRank a <= severityRank b) shown /\
  (forall s, In s severityNames -> withSeverity s shown = withSeverity s alerts) /\
  (forall a b c d,
     alert_severity a = "warning" -> alert_severity b = "critical" ->
     alert_severity c = "info" -> alert_severity d = "error" ->
     alerts = [a; b; c; d] -> shown = [b; d; a; c]).
Proof.
  intros Hknown shown.
  assert (Hshown : shown = withSeverity "critical" alerts ++ withSeverity "error" alerts ++
                           withSeverity "warning" alerts ++ withSeverity "info" alerts).
  { unfold shown. rewrite renderedAlerts_sorted. now apply sort_bySeverity. }
  split; [exact Hshown|]. split; [|split; [|split]].
  - unfold shown. rewrite renderedAlerts_sorted. apply sort_Permutation.
  - assert (Hcross : forall s l rest,
              (forall b, In b rest -> exists s' r r',
                 Js.get s severityOrder = Some r /\
                 Js.get s' severityOrder = Some r' /\ r <= r' /\
                 In b (withSeverity s' l)) ->
              forall a b, a ∈ withSeverity s l -> b ∈ rest ->
                          severityRank a <= severityRank b).
    { intros s l rest Hrest a b Ha Hb.
      apply list_elem_of_In in Ha. apply list_elem_of_In in Hb.
      destruct (Hrest b Hb) as (s' & r & r' & Hr & Hr' & Hle & Hin).
      now apply (severityRank_blocks s s' r r' l). }
    rewrite Hshown.
    apply StronglySorted_app_2; [|apply StronglySorted_block|].
    { apply Hcross. intros b Hb.
      repeat (apply in_app_or in Hb; destruct Hb as [Hb|Hb]);
        eexists _, 0, _; (split; [reflexivity|split; [|split; [|exact Hb]]]);
        [reflexivity|lia|reflexivity|lia|reflexivity|lia]. }
    apply StronglySorted_app_2; [|apply StronglySorted_block|].
    { apply Hcross. intros b Hb.
      repeat (apply in_app_or in Hb; destruct Hb as [Hb|Hb]);
        eexists _, 1, _; (split; [reflexivity|split; [|split; [|exact Hb]]]);
        [reflexivity|lia|reflexivity|lia]. }
    apply StronglySorted_app_2; [|apply StronglySorted_block|apply StronglySorted_block].
    apply Hcross. intros b Hb.
    eexists _, 2, _; (split; [reflexivity|split; [|split; [|exact Hb]]]);
      [reflexivity|lia].
  - intros s Hs. rewrite Hshown. rewrite !withSeverity_app, !withSeverity_twice.
    simpl in Hs. destruct Hs as [<-|[<-|[<-|[<-|[]]]]]; simpl;
      rewrite ?app_nil_r; reflexivity.
  - intros a b c d Ha Hb Hc Hd ->. rewrite Hshown.
    unfold withSeverity. simpl. rewrite Ha, Hb, Hc, Hd. reflexivity.
Qed.

(** The example of the specification. *)
Lemma active_alerts_by_severity_witness :
  let alerts := [someAlert "disk" "warning"; someAlert "cpu" "critical";
                 someAlert "note" "info"; someAlert "api" "error"] in
  let shown :=
    renderedAlerts (@renderActiveAlerts plainLocale alerts (servedPage 0)) in
  shown = [someAlert "cpu" "critical"; someAlert "api" "error";
           someAlert "disk" "warning"; someAlert "note" "info"] /\
  StronglySorted (fun a b => severityRank a <= severityRank b) shown.
Proof.
  intros alerts shown.
  destruct (@active_alerts_by_severity plainLocale alerts (servedPage 0))
    as (_ & _ & Hsorted & _ & Hexample).
  - unfold alerts. repeat constructor; simpl; tauto.
  - split; [|exact Hsorted].
    now apply (Hexample (someAlert "disk" "warning") (someAlert "cpu" "critical")
                        (someAlert "note" "info") (someAlert "api" "error")).
Defined.

(** ** The performance table *)

Section PerformanceTable.

Context `{Locale} `{!Collation}.

Lemma localeCompare_le_antisym a b :
  localeCompare a b <= 0 -> localeCompare b a <= 0 -> a = b.
Proof.
  intros Hab Hba. apply localeCompare_eq.
  pose proof (localeCompare_antisym a b) as Hs. lia.
Qed.

Lemma comparePerformance_antisym x y :
  0 < comparePerformance x y -> comparePerformance y x <= 0.
Proof.
  unfold comparePerformance. rewrite (String.eqb_sym (perf_category y)).
  destruct (String.eqb (perf_category x) (perf_category y)); intros Hlt.
  - pose proof (localeCompare_antisym (perf_name x) (perf_name y)). lia.
  - pose proof (localeCompare_antisym (perf_category x) (perf_category y)). lia.
Qed.

Lemma comparePerformance_trans x y z :
  comparePerformance x y <= 0 -> comparePerformance y z <= 0 ->
  comparePerformance x z <= 0.
Proof.
  unfold comparePerformance.
  destruct (String.eqb_spec (perf_category x) (perf_category y)) as [Exy|Nxy];
    destruct (String.eqb_spec (perf_category y) (perf_category z)) as [Eyz|Nyz];
    destruct (String.eqb_spec (perf_category x) (perf_category z)) as [Exz|Nxz];
    intros Hxy Hyz; try congruence.
  - now apply (localeCompare_trans _ (perf_name y)).
  - exfalso. apply Nxy. apply localeCompare_le_antisym; [exact Hxy|].
    now rewrite Exz.
  - now apply (localeCompare_trans _ (perf_category y)).
Qed.

Lemma comparePerformance_rowLe x y : comparePerformance x y <= 0 -> rowLe x y.
Proof.
  unfold comparePerformance, rowLe.
  destruct (String.eqb_spec (perf_category x) (perf_category y)) as [E|N];
    intros Hle; [now right|left].
  destruct (Z.eq_dec (localeCompare (perf_category x) (perf_category y)) 0) as [Hz|Hz].
  - apply localeCompare_eq in Hz. contradiction.
  - lia.
Qed.

Lemma StronglySorted_rowLe rows :
  StronglySorted (fun a b => comparePerformance a b <= 0) rows ->
  StronglySorted rowLe rows.
Proof.
  induction 1 as [|x l Hs IH Hall]; constructor; [exact IH|].
  eapply Forall_impl; [exact Hall|]. intros y. apply comparePerformance_rowLe.
Qed.

End PerformanceTable.

Lemma flattenPerformance_triples metricsData :
  flattenPerformance metricsData = map tripleRow (responseTriples metricsData).
Proof.
  unfold flattenPerformance, responseTriples.
  induction metricsData as [|[category metrics] rest IH]; [reflexivity|].
  cbn [flat_map]. rewrite map_app, IH. f_equal.
  rewrite map_map. apply map_ext. now intros [name stats].
Qed.

Lemma responseTriples_In metricsData category name stats :
  In (category, name, stats) (responseTriples metricsData) <->
  exists metrics, In (category, metrics) metricsData /\ In (name, stats) metrics.
Proof.
  unfold responseTriples. rewrite in_flat_map. split.
  - intros ([category' metrics] & Hin & Htriple).
    apply in_map_iff in Htriple. destruct Htriple as ([name' stats'] & E & Hm).
    injection E as <- <- <-. now exists metrics.
  - intros (metrics & Hin & Hm). exists (category, metrics). split; [exact Hin|].
    apply in_map_iff. now exists (name, stats).
Qed.

(** C9 (as amended).  With [localeCompare] an ordering of strings (the
    collation of the locale, which need not be the lexicographic order
    of the character codes), the rows of the performance table are
    exactly the (category, metric, statistics) triples of the response,
    each metric shown without a trailing [_duration], in ascending order
    of category and, within a category, of the name shown: the sort key
    is the name without the suffix, not the metric name. *)
Theorem performance_rows_sorted `{Locale} `{!Collation}
    (metricsData : PerformanceData) (w : World) :
  let rows := performanceRows (performanceTab (updatePerformanceTable metricsData w)) in
  Permutation rows (map tripleRow (responseTriples metricsData)) /\
  (forall row,
     In row rows <->
     exists category metrics name stats,
       In (category, metrics) metricsData /\ In (name, stats) metrics /\
       row = mkPerformanceRow (stripDuration name) category stats) /\
  StronglySorted rowLe rows.
Proof.
  intros rows.
  assert (Hrows : rows = Js.sort comparePerformance (flattenPerformance metricsData))
    by reflexivity.
  assert (Hperm : Permutation rows (map tripleRow (responseTriples metricsData))).
  { rewrite Hrows, <- flattenPerformance_triples. apply sort_Permutation. }
  split; [exact Hperm|]. split.
  - intros row. split.
    + intros Hrow. apply (Permutation_in _ Hperm) in Hrow.
      apply in_map_iff in Hrow. destruct Hrow as ([[category name] stats] & <- & Hin).
      apply responseTriples_In in Hin. destruct Hin as (metrics & Hc & Hm).
      now exists category, metrics, name, stats.
    + intros (category & metrics & name & stats & Hc & Hm & ->).
      apply (Permutation_in _ (Permutation_sym Hperm)).
      apply in_map_iff. exists (category, name, stats). split; [reflexivity|].
      apply responseTriples_In. now exists metrics.
  - rewrite Hrows. apply StronglySorted_rowLe. apply sort_StronglySorted.
    + apply comparePerformance_antisym.
    + apply comparePerformance_trans.
Qed.

Lemma plainLocale_Collation : @Collation plainLocale.
Proof.
  assert (Hle : forall a b, @localeCompare plainLocale a b <= 0 <->
                            String.compare a b <> Gt).
  { intros a b. simpl. destruct (String.compare a b); split; intros; try lia; congruence. }
  split.
  - intros a b. simpl. destruct (String.compare a b) eqn:E; try lia.
    intros _. now apply String.compare_eq_iff.
  - intros a b. simpl. rewrite (String.compare_antisym a b).
    destruct (String.compare b a); reflexivity.
  - intros a b c. rewrite !Hle. intros Hab Hbc Hac.
    assert (Hlt : forall x y, String.compare x y <> Gt ->
                              x = y \/ OrderedTypeEx.String_as_OT.lt x y).
    { intros x y Hxy. destruct (String.compare x y) eqn:E; [| |congruence].
      - left. now apply String.compare_eq_iff.
      - right. now apply OrderedTypeEx.String_as_OT.cmp_lt. }
    rewrite String.compare_antisym in Hac.
    assert (Hca : OrderedTypeEx.String_as_OT.lt c a).
    { apply OrderedTypeEx.String_as_OT.cmp_lt.
      unfold OrderedTypeEx.String_as_OT.cmp.
      destruct (String.compare c a); simpl in Hac; congruence. }
    destruct (Hlt a b Hab) as [->|Lab]; destruct (Hlt b c Hbc) as [->|Lbc].
    + apply (OrderedTypeEx.String_as_OT.lt_not_eq c c Hca). reflexivity.
    + apply (OrderedTypeEx.String_as_OT.lt_not_eq c c); [|reflexivity].
      now apply (OrderedTypeEx.String_as_OT.lt_trans c b c).
    + apply (OrderedTypeEx.String_as_OT.lt_not_eq c c); [|reflexivity].
      now apply (OrderedTypeEx.String_as_OT.lt_trans c a c).
    + apply (OrderedTypeEx.String_as_OT.lt_not_eq c c); [|reflexivity].
      apply (OrderedTypeEx.String_as_OT.lt_trans c a c); [exact Hca|].
      now apply (OrderedTypeEx.String_as_OT.lt_trans a b c).
Qed.

(** A response with two categories, out of order, under the plain
    locale: the table shows api before task, and load before run. *)
Lemma performance_rows_sorted_witness :
  let metricsData : PerformanceData :=
    [("task", [("run_duration", someStat 1); ("load", someStat 2)]);
     ("api", [("request_duration", someStat 3)])] in
  let rows :=
    performanceRows
      (performanceTab (@updatePerformanceTable plainLocale metricsData (servedPage 0))) in
  (Permutation rows (map tripleRow (responseTriples metricsData)) /\
   (forall row,
      In row rows <->
      exists category metrics name stats,
        In (category, metrics) metricsData /\ In (name, stats) metrics /\
        row = mkPerformanceRow (stripDuration name) category stats) /\
   StronglySorted (@rowLe plainLocale) rows) /\
  rows = [mkPerformanceRow "request" "api" (someStat 3);
          mkPerformanceRow "load" "task" (someStat 2);
          mkPerformanceRow "run" "task" (someStat 1)].
Proof.
  intros metricsData rows. split.
  - apply (@performance_rows_sorted plainLocale plainLocale_Collation).
  - vm_compute. reflexivity.
Defined.

(** C9 as the specification has it fails: the rows are not in ascending
    order of the metric name.  Of the metrics [a_b] and [a_duration] of
    one category, [a_duration] is shown as [a] and sorted as [a], in
    front of [a_b], although [a_b] comes before [a_duration]. *)
Lemma performance_rows_not_by_metric_name :
  ~ (forall (L : Locale) (metricsData : PerformanceData) (w : World),
       exists triples,
         Permutation triples (responseTriples metricsData) /\
         StronglySorted tripleLexLe triples /\
         performanceRows
           (performanceTab (@updatePerformanceTable L metricsData w)) =
         map tripleRow triples).
Proof.
  intros Hclaim.
  destruct (Hclaim plainLocale
              [("task", [("a_b", someStat 1); ("a_duration", someStat 2)])]
              (servedPage 0)) as (triples & Hperm & Hsorted & Hrows).
  vm_compute in Hperm. apply Permutation_sym in Hperm.
  apply Permutation_length_2_inv in Hperm.
  destruct Hperm as [-> | ->].
  - vm_compute in Hrows. discriminate Hrows.
  - inversion Hsorted as [|? ? _ Hall]; subst.
    apply Forall_inv in Hall. destruct Hall as [Hlt|[_ Hle]].
    + vm_compute in Hlt. discriminate Hlt.
    + apply Hle. reflexivity.
Qed.

(** ** Mutating actions that fail *)

Lemma failed_not_success data :
  failed (Js.Resolved data) -> String.eqb (status data) "success" = false.
Proof. simpl. intros Hne. now apply String.eqb_neq. Qed.

(** C6.  When the request of a toggle or of a create fails (rejected
    promise, or a status other than ["success"]), the continuation shows
    an error toast and changes nothing else: [monitoringActive], the
    toggle button, the alerts tab with its form, and the list of requests
    are as before.  A create with an empty name or description shows an
    error toast and changes nothing else either, so it sends no request.
    Sending the toggle request does not touch [monitoringActive]. *)
Theorem failed_action_changes_nothing
    (w : World) (stop : bool) (name : string) (r : Js.reply StatusReply) :
  failed r ->
  onlyErrorToast w (monitoringToggled stop r w) /\
  onlyErrorToast w (alertCreated name r w) /\
  (alertName (alertsTab w) = EmptyString \/
   alertDescription (alertsTab w) = EmptyString ->
   onlyErrorToast w (createAlert w)) /\
  monitoringActive (dash (toggleMonitoring w)) = monitoringActive (dash w) /\
  (forall w', onlyErrorToast w w' ->
     dash w' = dash w /\
     browser w' = browser w /\
     alertsTab w' = alertsTab w /\
     toggleText (frame w') = toggleText (frame w) /\
     toggleDanger (frame w') = toggleDanger (frame w) /\
     exists message, toasts (frame w') = toasts (frame w) ++ [mkToast message "error"]).
Proof.
  intros Hfail. split; [|split; [|split; [|split]]].
  - unfold monitoringToggled.
    destruct stop, r as [|data]; try (eexists; reflexivity);
      rewrite (failed_not_success data Hfail); eexists; reflexivity.
  - unfold alertCreated.
    destruct r as [|data]; [eexists; reflexivity|].
    rewrite (failed_not_success data Hfail). eexists; reflexivity.
  - intros Hempty. unfold createAlert, nonEmpty.
    destruct Hempty as [-> | ->]; simpl.
    + eexists; reflexivity.
    + rewrite orb_true_r. eexists; reflexivity.
  - unfold toggleMonitoring.
    destruct (monitoringActive (dash w)) eqn:E; exact E.
  - intros w' [message ->]. repeat (split; [reflexivity|]). now exists message.
Qed.

(** The server refuses to stop the monitoring and to create an alert, and
    a form without a name is submitted: each time the page only gains an
    error toast. *)
Lemma failed_action_changes_nothing_witness :
  let w := with_dash (set_monitoringActive true) (servedPage 0) in
  let r := Js.Resolved (mkStatusReply "error" (Some "quota exceeded")) in
  monitoringToggled true r w = showToast "Failed to stop monitoring" "error" w /\
  alertCreated "disk" r w =
    showToast "Failed to create alert: quota exceeded" "error" w /\
  createAlert w = showToast "Alert name and description are required" "error" w /\
  onlyErrorToast w (monitoringToggled true r w) /\
  monitoringActive (dash (monitoringToggled true r w)) = true /\
  requests (browser (createAlert w)) = [].
Proof.
  intros w r.
  destruct (failed_action_changes_nothing w true "disk" r) as (Ht & _);
    [simpl; discriminate|].
  repeat split; try reflexivity. exact Ht.
Defined.

(** ** The log filter *)

Lemma colon_free_cons a f :
  Js.includes (String a f) ":" = false -> a <> ":"%char /\ Js.includes f ":" = false.
Proof.
  cbn [Js.includes String.prefix].
  destruct (ascii_dec ":" a) as [<-|Hne].
  - now destruct f.
  - cbn [orb]. intros Hf. split; [congruence|exact Hf].
Qed.

Lemma prefix_colon c : forall f,
  Js.includes f ":" = false -> String.prefix f (c +:+ ":") = String.prefix f c.
Proof.
  induction c as [|x c IH]; intros [|a f] Hf; try reflexivity.
  - apply colon_free_cons in Hf. destruct Hf as [Ha _].
    change (EmptyString +:+ ":") with ":". cbn [String.prefix].
    destruct (ascii_dec a ":"); [contradiction|reflexivity].
  - apply colon_free_cons in Hf. destruct Hf as [_ Hf].
    change (String x c +:+ ":") with (String x (c +:+ ":")).
    cbn [String.prefix].
    destruct (ascii_dec a x); [now apply IH|reflexivity].
Qed.

(** A filter value without a colon is found in the text of the component
    span, which ends in a colon, exactly when it is found in the
    component. *)
Lemma includes_colon c f :
  Js.includes f ":" = false ->
  Js.includes (c +:+ ":") f = Js.includes c f.
Proof.
  intros Hf. induction c as [|x c IH].
  - change (Js.includes (EmptyString +:+ ":") f)
      with (String.prefix f ":" || (String.prefix f EmptyString || false)).
    change (Js.includes EmptyString f) with (String.prefix f EmptyString || false).
    pose proof (prefix_colon EmptyString f Hf) as Hp.
    change (EmptyString +:+ ":") with ":" in Hp. rewrite Hp.
    now destruct (String.prefix f EmptyString).
  - change (Js.includes (String x c +:+ ":") f)
      with (String.prefix f (String x c +:+ ":") || Js.includes (c +:+ ":") f).
    change (Js.includes (String x c) f)
      with (String.prefix f (String x c) || Js.includes c f).
    now rewrite prefix_colon, IH.
Qed.

Lemma toLowerCase_nonEmpty s : nonEmpty (Js.toLowerCase s) = nonEmpty s.
Proof. now destruct s. Qed.

Lemma nonEmpty_false s : nonEmpty s = false <-> s = EmptyString.
Proof.
  unfold nonEmpty. destruct (String.eqb_spec s EmptyString); simpl; split;
    congruence.
Qed.

Lemma nonEmpty_true s : nonEmpty s = true <-> s <> EmptyString.
Proof.
  unfold nonEmpty. destruct (String.eqb_spec s EmptyString); simpl; split;
    congruence.
Qed.

Lemma select_value_In s :
  select_value s = EmptyString \/ In (select_value s) (options s).
Proof.
  unfold select_value. destruct (options s !! selectedIndex s) as [v|] eqn:E.
  - right. simpl. apply list_elem_of_In. eapply list_elem_of_lookup_2, E.
  - now left.
Qed.

(** For the level values the filter offers and the five levels a record
    can have, the class test of [filterLogs] is the comparison of the
    levels. *)
Lemma level_filter level log_lvl t l comp m d :
  In level levelOptions -> In log_lvl levelNames ->
  nonEmpty level &&
  negb (classListContains
          (mkLogElement ("log-entry log-" +:+ log_lvl) t l comp m d)
          ("log-" +:+ level)) =
  nonEmpty level && negb (String.eqb log_lvl level).
Proof.
  intros Hlevel Hlog. simpl in Hlevel, Hlog.
  destruct Hlevel as [<-|[<-|[<-|[<-|[<-|[<-|[]]]]]]];
    destruct Hlog as [<-|[<-|[<-|[<-|[<-|[]]]]]]; reflexivity.
Qed.

Lemma filterEntry_display level component search entry :
  entry_display (filterEntry level component search entry) =
  if negb (nonEmpty level && negb (classListContains entry ("log-" +:+ level))) &&
     negb (nonEmpty component && negb (Js.includes (entry_component entry) component)) &&
     negb (nonEmpty search &&
           negb (Js.includes (Js.toLowerCase (textContent entry)) search))
  then EmptyString else "none".
Proof.
  unfold filterEntry.
  destruct (nonEmpty level && _), (nonEmpty component && _), (nonEmpty search && _);
    reflexivity.
Qed.

Section LogsKept.

Context `{Locale}.

Lemma createOrUpdate_logsTab slot fresh change w :
  logsTab (createOrUpdate slot fresh change w) = logsTab w.
Proof. unfold createOrUpdate. destruct (charts (dash w) !! slot); reflexivity. Qed.

Lemma updateMetricTable_logsTab tableId metrics w :
  logsTab (updateMetricTable tableId metrics w) = logsTab w.
Proof. unfold updateMetricTable. destruct (metricTables w !! tableId); reflexivity. Qed.

Lemma updateSystemCharts_logsTab metricsData w :
  logsTab (updateSystemCharts metricsData w) = logsTab w.
Proof.
  unfold updateSystemCharts.
  rewrite !updateMetricTable_logsTab.
  rewrite updateNetworkChart_pattern, updateDiskChart_pattern,
    updateMemoryChart_pattern, updateCpuChart_pattern.
  cbv zeta. now rewrite !createOrUpdate_logsTab.
Qed.

Lemma updatePerformanceChart_logsTab w :
  logsTab (updatePerformanceChart w) = logsTab w.
Proof.
  unfold updatePerformanceChart. destruct (selectedIndex _ <=? 0)%nat; reflexivity.
Qed.

Lemma LogsOk_same w w' : logsTab w' = logsTab w -> LogsOk w -> LogsOk w'.
Proof. unfold LogsOk. now intros ->. Qed.

Lemma loadLogs_logsTab w :
  logsTab (loadLogs w) =
  mkLogsTab (logLevel (logsTab w))
            (select_refill (Js.unique (map log_component simulatedLogs))
                           (logComponent (logsTab w)))
            (logSearch (logsTab w))
            (map logElement simulatedLogs).
Proof.
  unfold loadLogs, simulateLogs, showLogs, initLogLevelChart.
  destruct (charts (dash w) !! "logLevels") as [ref|] eqn:E; simpl.
  - now rewrite E.
  - now rewrite lookup_insert_eq.
Qed.

Lemma loadLogs_LogsOk w : LogsOk w -> LogsOk (loadLogs w).
Proof.
  intros (Hlevel & Hcolon & _). unfold LogsOk. rewrite loadLogs_logsTab.
  cbn [logLevel logComponent logEntries]. split; [exact Hlevel|]. split.
  - unfold select_refill. cbn [options].
    apply Forall_app. split; [now apply Forall_take|].
    vm_compute. repeat constructor.
  - apply List.Forall_forall. intros entry Hin.
    apply in_map_iff in Hin. destruct Hin as (log & <- & Hlog).
    exists log. now split.
Qed.

Lemma loadTabData_LogsOk tabName w : LogsOk w -> LogsOk (loadTabData tabName w).
Proof.
  intros Hok. unfold loadTabData.
  repeat match goal with |- context [if ?c then _ else _] => destruct c end;
    try exact Hok.
  now apply loadLogs_LogsOk.
Qed.

Lemma refreshDashboard_LogsOk w : LogsOk w -> LogsOk (refreshDashboard w).
Proof.
  intros Hok. unfold refreshDashboard, checkMonitoringStatus.
  apply (LogsOk_same (loadTabData (currentTab (dash w))
           (with_frame (fun f =>
              mkFrame (tabButtons f) (tabPanes f) (toggleText f) (toggleDanger f)
                      ("Last updated: " +:+ formatTime (now (browser w))) (toasts f))
              (with_dash (set_lastRefresh (Some (now (browser w)))) w))));
    [reflexivity|].
  apply loadTabData_LogsOk. exact Hok.
Qed.

Lemma showsLog_filterEntry level component search entry log :
  showsLog entry log -> showsLog (filterEntry level component search entry) log.
Proof. intros Hs. exact Hs. Qed.

Lemma filterLogs_LogsOk w : LogsOk w -> LogsOk (filterLogs w).
Proof.
  intros (Hlevel & Hcolon & Hentries). unfold LogsOk, filterLogs.
  cbn [logsTab with_logsTab logLevel logComponent logEntries].
  split; [exact Hlevel|]. split; [exact Hcolon|].
  apply List.Forall_forall. intros entry Hin.
  apply in_map_iff in Hin. destruct Hin as (entry0 & <- & Hin).
  rewrite List.Forall_forall in Hentries.
  destruct (Hentries entry0 Hin) as (log & Hlog & Hshows).
  exists log. split; [exact Hlog|]. now apply showsLog_filterEntry.
Qed.

Lemma pick_options index s : options (pick index s) = options s.
Proof. unfold pick. now destruct (index <? length (options s))%nat. Qed.

(** Whatever happens on the page, the logs tab stays in order. *)
Lemma handle_LogsOk e w : LogsOk w -> LogsOk (handle e w).
Proof.
  intros Hok. destruct e; simpl;
    try (apply (LogsOk_same w); [reflexivity|exact Hok]).
  - unfold switchTab. apply loadTabData_LogsOk.
    eapply LogsOk_same; [|exact Hok]. reflexivity.
  - now apply refreshDashboard_LogsOk.
  - unfold intervalFires. destruct (intervals (browser w) !! id); [|exact Hok].
    now apply refreshDashboard_LogsOk.
  - apply (LogsOk_same w); [|exact Hok]. unfold setAutoRefresh.
    destruct (refreshTimer (dash w)), (0 <? seconds); reflexivity.
  - apply (LogsOk_same w); [|exact Hok]. unfold toggleMonitoring.
    now destruct (monitoringActive (dash w)).
  - apply (LogsOk_same w); [|exact Hok]. unfold monitoringToggled.
    destruct stop, r as [|data]; try reflexivity;
      destruct (String.eqb (status data) "success"); reflexivity.
  - apply (LogsOk_same w); [|exact Hok]. unfold monitoringStatusLoaded.
    destruct r as [|data]; [reflexivity|].
    destruct (String.eqb (status data) "active"); reflexivity.
  - apply (LogsOk_same w); [|exact Hok]. unfold systemMetricsLoaded.
    destruct r as [|data]; [reflexivity|].
    unfold updateSystemInfo.
    change (logsTab (fetch ?r ?x)) with (logsTab x).
    apply updateSystemCharts_logsTab.
  - apply (LogsOk_same w); [|exact Hok]. now rewrite updatePerformanceChart_logsTab.
  - apply (LogsOk_same w); [|exact Hok]. unfold performanceLoaded.
    destruct r as [|data]; [reflexivity|].
    now rewrite updatePerformanceChart_logsTab.
  - apply (LogsOk_same w); [|exact Hok]. unfold metricHistoryLoaded.
    destruct r as [|[name values]]; [reflexivity|].
    rewrite renderPerformanceChart_pattern. cbv zeta.
    apply createOrUpdate_logsTab.
  - apply (LogsOk_same w); [|exact Hok]. unfold alertsLoaded.
    destruct r as [|alerts]; [reflexivity|].
    unfold renderActiveAlerts. now destruct alerts.
  - apply (LogsOk_same w); [|exact Hok]. unfold alertHistoryLoaded. now destruct r.
  - apply (LogsOk_same w); [|exact Hok]. unfold createAlert. now destruct (_ || _).
  - apply (LogsOk_same w); [|exact Hok]. unfold alertCreated.
    destruct r as [|data]; [reflexivity|].
    now destruct (String.eqb (status data) "success").
  - apply (LogsOk_same w); [|exact Hok]. unfold alertAcknowledged.
    destruct r as [|data]; [reflexivity|].
    now destruct (String.eqb (status data) "success").
  - apply (LogsOk_same w); [|exact Hok]. unfold alertResolved.
    destruct r as [|data]; [reflexivity|].
    now destruct (String.eqb (status data) "success").
  - apply (LogsOk_same w); [|exact Hok]. unfold alertSilenced.
    destruct r as [|data]; [reflexivity|].
    now destruct (String.eqb (status data) "success").
  - apply filterLogs_LogsOk. destruct Hok as (Hlevel & Hcolon & Hentries).
    unfold LogsOk. cbn [logsTab with_logsTab logLevel logComponent logEntries].
    now rewrite pick_options.
  - apply filterLogs_LogsOk. destruct Hok as (Hlevel & Hcolon & Hentries).
    unfold LogsOk. cbn [logsTab with_logsTab logLevel logComponent logEntries].
    now rewrite pick_options.
  - apply filterLogs_LogsOk. exact Hok.
  - destruct Hok as (Hlevel & Hcolon & Hentries).
    unfold LogsOk, clearLogFilters.
    cbn [logsTab with_logsTab logLevel logComponent logEntries options].
    split; [exact Hlevel|]. split; [exact Hcolon|].
    apply List.Forall_forall. intros entry Hin.
    apply in_map_iff in Hin. destruct Hin as (entry0 & <- & Hin).
    rewrite List.Forall_forall in Hentries. exact (Hentries entry0 Hin).
Qed.

Lemma session_LogsOk events : forall w, LogsOk w -> LogsOk (session events w).
Proof.
  induction events as [|e events IH]; intros w Hok; [exact Hok|].
  apply IH. now apply handle_LogsOk.
Qed.

Lemma init_LogsOk date : LogsOk (init (servedPage date)).
Proof.
  unfold init. apply (LogsOk_same (refreshDashboard (switchTab "system" (servedPage date)))).
  - unfold setAutoRefresh.
    destruct (refreshTimer _), (0 <? 10); reflexivity.
  - apply refreshDashboard_LogsOk. unfold switchTab. apply loadTabData_LogsOk.
    unfold LogsOk. simpl. split; [reflexivity|]. split; repeat constructor.
Qed.

End LogsKept.

(** The filter on any log buffer: on a page whose level filter has the
    options it is served with and whose component filter offers no value
    with a colon, an entry of one of the five levels is visible after
    [filterLogs] exactly when its record passes the three filters. *)
Lemma filterEntry_visibility (w : World) (log : LogEntry) (entry : LogElement) :
  options (logLevel (logsTab w)) = levelOptions ->
  Forall (fun c => Js.includes c ":" = false) (options (logComponent (logsTab w))) ->
  In (log_level log) levelNames ->
  showsLog entry log ->
  let level := select_value (logLevel (logsTab w)) in
  let component := select_value (logComponent (logsTab w)) in
  let searchText := logSearch (logsTab w) in
  let filtered := filterEntry level component (Js.toLowerCase searchText) in
  logEntries (logsTab (filterLogs w)) = map filtered (logEntries (logsTab w)) /\
  showsLog (filtered entry) log /\
  (visible (filtered entry) <-> logMatches level component searchText log).
Proof.
  intros Hoptions Hcolon Hlevel Hshows level component searchText filtered.
  assert (Hlv : In level levelOptions).
  { destruct (select_value_In (logLevel (logsTab w))) as [E|E].
    - unfold level. rewrite E. now left.
    - now rewrite Hoptions in E. }
  assert (Hcf : Js.includes component ":" = false).
  { destruct (select_value_In (logComponent (logsTab w))) as [E|E].
    - unfold component. now rewrite E.
    - rewrite List.Forall_forall in Hcolon. now apply Hcolon. }
  split; [reflexivity|]. split; [exact Hshows|].
  unfold visible, filtered. rewrite filterEntry_display.
  destruct entry as [cn ts lv cp ms ds].
  unfold showsLog, set_display, logElement in Hshows. simpl in Hshows.
  injection Hshows as -> -> -> -> ->.
  rewrite level_filter by assumption.
  cbn [entry_component].
  rewrite includes_colon by exact Hcf.
  rewrite toLowerCase_nonEmpty.
  change (textContent (mkLogElement _ _ _ _ _ ds))
    with (textContent (logElement log)).
  unfold logMatches.
  destruct (nonEmpty level) eqn:Nl;
    destruct (String.eqb_spec (log_level log) level) as [El|El];
    destruct (nonEmpty component) eqn:Nc;
    destruct (Js.includes (log_component log) component) eqn:Ic;
    destruct (nonEmpty searchText) eqn:Ns;
    destruct (Js.includes (Js.toLowerCase (textContent (logElement log)))
                          (Js.toLowerCase searchText)) eqn:Is;
    repeat match goal with
           | H : nonEmpty _ = false |- _ => apply nonEmpty_false in H
           | H : nonEmpty _ = true |- _ => apply nonEmpty_true in H
           end;
    cbn [andb negb];
    intuition (try congruence; try discriminate).
Qed.

Lemma simulatedLogs_levels log :
  In log simulatedLogs -> In (log_level log) levelNames.
Proof.
  intros Hin. unfold simulatedLogs in Hin. simpl in Hin.
  repeat (destruct Hin as [<-|Hin]; [simpl; tauto|]). destruct Hin.
Qed.

(** C8.  At any time of a page session, for every log entry on the page
    and whatever the three filter inputs hold: after [filterLogs] the
    entry is visible if and only if the level filter is empty or equal to
    the level of the entry, the component filter is empty or a substring
    of its component, and the search text is empty or occurs, letter case
    aside, in the text of the entry.  [filterLogs] runs this test on every
    entry and changes nothing of an entry but its [style.display]: before
    and after, the entry shows the same record of the log buffer. *)
Theorem log_filter_visibility `{Locale}
    (date : Z) (events : list Event) (entry : LogElement) :
  let w := session events (init (servedPage date)) in
  In entry (logEntries (logsTab w)) ->
  let level := select_value (logLevel (logsTab w)) in
  let component := select_value (logComponent (logsTab w)) in
  let searchText := logSearch (logsTab w) in
  let filtered := filterEntry level component (Js.toLowerCase searchText) in
  logEntries (logsTab (filterLogs w)) = map filtered (logEntries (logsTab w)) /\
  exists log,
    In log simulatedLogs /\
    showsLog entry log /\
    showsLog (filtered entry) log /\
    (visible (filtered entry) <-> logMatches level component searchText log).
Proof.
  intros w Hin level component searchText filtered.
  assert (Hok : LogsOk w) by apply session_LogsOk, init_LogsOk.
  destruct Hok as (Hlevel & Hcolon & Hentries).
  rewrite List.Forall_forall in Hentries.
  destruct (Hentries entry Hin) as (log & Hlog & Hshows).
  destruct (filterEntry_visibility w log entry Hlevel Hcolon
              (simulatedLogs_levels log Hlog) Hshows) as (Hmap & Hshows' & Hiff).
  split; [exact Hmap|]. exists log.
  split; [exact Hlog|]. split; [exact Hshows|]. split; [exact Hshows'|exact Hiff].
Qed.

(** The logs tab after the user asked for level ERROR, component api and
    the text TIMEOUT: the entry of the failed connection is on the page
    and visible, and its record passes the three filters. *)
Lemma log_filter_visibility_witness :
  let w := @session plainLocale
             [SwitchTab "logs"; SelectLogLevel 4; SelectLogComponent 3;
              TypeLogSearch "TIMEOUT"] (@init plainLocale (servedPage 0)) in
  let log := mkLogEntry "2025-05-14T12:02:15" "ERROR" "api"
               "Failed to connect to external service: Connection timeout" in
  (select_value (logLevel (logsTab w)),
   select_value (logComponent (logsTab w)),
   logSearch (logsTab w)) = ("ERROR", "api", "TIMEOUT") /\
  In (logElement log) (logEntries (logsTab w)) /\
  exists log',
    In log' simulatedLogs /\
    showsLog (logElement log) log' /\
    (visible (filterEntry "ERROR" "api" "timeout" (logElement log)) <->
     logMatches "ERROR" "api" "TIMEOUT" log').
Proof.
  intros w log.
  assert (Hin : In (logElement log) (logEntries (logsTab w))).
  { vm_compute. tauto. }
  destruct (@log_filter_visibility plainLocale 0
              [SwitchTab "logs"; SelectLogLevel 4; SelectLogComponent 3;
               TypeLogSearch "TIMEOUT"] (logElement log) Hin)
    as (_ & log' & Hlog' & Hshows & _ & Hiff).
  split; [reflexivity|]. split; [exact Hin|].
  exists log'. split; [exact Hlog'|]. split; [exact Hshows|exact Hiff].
Defined.

(** ** Byte sizes *)










(** *** The text of a number *)







Section ByteSizes.

Context `{MathHost} `{!LogAccurate}.




End ByteSizes.




(** * Further properties *)

(** ** Names of metrics *)

Lemma append_cons c (s t : string) : String c s +:+ t = String c (s +:+ t).
Proof. reflexivity. Qed.

Lemma substring_all (s : string) : String.substring 0 (String.length s) s = s.
Proof. induction s as [|c s IH]; simpl; [reflexivity|now rewrite IH]. Qed.

Lemma substring_append (p r : string) :
  String.substring (String.length p)
                   (String.length (p +:+ r) - String.length p) (p +:+ r) = r.
Proof.
  induction p as [|c p IH].
  - change (EmptyString +:+ r) with r. simpl String.length.
    rewrite Nat.sub_0_r. apply substring_all.
  - rewrite append_cons. exact IH.
Qed.

Lemma prefix_append (p r : string) : String.prefix p (p +:+ r) = true.
Proof.
  induction p as [|c p IH]; [now destruct r|].
  rewrite append_cons. cbn [String.prefix].
  destruct (ascii_dec c c); [exact IH|contradiction].
Qed.

Lemma includes_cons sub a s :
  Js.includes (String a s) sub = String.prefix sub (String a s) || Js.includes s sub.
Proof. reflexivity. Qed.

Lemma removeFirst_prefix pat rest : Js.removeFirst pat (pat +:+ rest) = rest.
Proof.
  destruct (pat +:+ rest) eqn:E; cbn [Js.removeFirst]; rewrite <- E;
    rewrite prefix_append; apply substring_append.
Qed.

Lemma removeFirst_absent pat s :
  Js.includes s pat = false -> Js.removeFirst pat s = s.
Proof.
  induction s as [|a s IH]; intros Hs.
  - cbn [Js.includes] in Hs. cbn [Js.removeFirst].
    apply orb_false_iff in Hs. destruct Hs as [-> _]. reflexivity.
  - rewrite includes_cons in Hs. apply orb_false_iff in Hs.
    destruct Hs as [Hp Hs]. cbn [Js.removeFirst]. rewrite Hp.
    now rewrite IH.
Qed.

Lemma includes_char c a s :
  Js.includes (String a s) (String c EmptyString) =
  Ascii.eqb a c || Js.includes s (String c EmptyString).
Proof.
  rewrite includes_cons. f_equal. cbn [String.prefix].
  destruct (ascii_dec c a) as [<-|Hne].
  - rewrite Ascii.eqb_refl. now destruct s.
  - symmetry. apply Ascii.eqb_neq. congruence.
Qed.

Lemma replaceAllChar_gone c d s :
  c <> d -> Js.includes (Js.replaceAllChar c d s) (String c EmptyString) = false.
Proof.
  intros Hcd. induction s as [|a s IH]; [reflexivity|].
  cbn [Js.replaceAllChar]. rewrite includes_char, IH, orb_false_r.
  destruct (Ascii.eqb_spec a c) as [->|Hac]; apply Ascii.eqb_neq; congruence.
Qed.

Lemma replaceAllChar_absent c d s :
  Js.includes s (String c EmptyString) = false -> Js.replaceAllChar c d s = s.
Proof.
  induction s as [|a s IH]; [reflexivity|].
  rewrite includes_char. intros Hs. apply orb_false_iff in Hs.
  destruct Hs as [Ha Hs]. cbn [Js.replaceAllChar]. now rewrite Ha, IH.
Qed.

(** X1: the display name [updateMetricTable] computes for a metric, the
    string it puts into the markup of the row, has no underscore
    character; a name that starts with [system.] loses that prefix (and
    only that occurrence), and a name without [system.] keeps all its
    characters but the underscores, which become blanks. *)
Theorem displayName_text (name rest : string) :
  Js.includes (displayName name) "_" = false /\
  displayName ("system." +:+ rest) = Js.replaceAllChar "_" " " rest /\
  (Js.includes name "system." = false ->
   displayName name = Js.replaceAllChar "_" " " name) /\
  (Js.includes name "system." = false -> Js.includes name "_" = false ->
   displayName name = name).
Proof.
  unfold displayName. split; [now apply replaceAllChar_gone|].
  split; [now rewrite removeFirst_prefix|].
  split.
  - intros Hn. now rewrite removeFirst_absent.
  - intros Hn Hu. rewrite removeFirst_absent by exact Hn.
    now apply replaceAllChar_absent.
Qed.

(** X2: the value cell of a metric row.  The branch for byte rates is
    never taken: a name with [bytes] is formatted as a byte count before
    the test for [per_sec] is reached, so a rate such as
    [network_bytes_recv_per_sec] is shown without [/s]. *)
Theorem formatMetricValue_never_byte_rate (name : string) (v : number) :
  (forall u, formatMetricValue name v <> BytesPerSec u) /\
  (Js.includes name "percent" = false -> Js.includes name "bytes" = true ->
   formatMetricValue name v = Bytes v) /\
  (formatMetricValue name v = PerSec v <->
   Js.includes name "percent" = false /\ Js.includes name "bytes" = false /\
   Js.includes name "per_sec" = true).
Proof.
  unfold formatMetricValue.
  destruct (Js.includes name "percent"), (Js.includes name "bytes"),
    (Js.includes name "per_sec"); repeat split; intros; try discriminate;
    try tauto; try reflexivity.
  all: try (destruct H as (? & ? & ?); discriminate).
Qed.

(** ** Names of performance metrics *)

Lemma length_append (s t : string) :
  String.length (s +:+ t) = (String.length s + String.length t)%nat.
Proof.
  induction s as [|c s IH]; [reflexivity|].
  rewrite append_cons. simpl. now rewrite IH.
Qed.

Lemma eqb_longer c (s suffix : string) : String.eqb (String c (s +:+ suffix)) suffix = false.
Proof.
  apply String.eqb_neq. intros E.
  apply (f_equal String.length) in E. simpl in E.
  rewrite length_append in E. lia.
Qed.

Lemma removeSuffix_append suffix s : Js.removeSuffix suffix (s +:+ suffix) = s.
Proof.
  induction s as [|c s IH].
  - change (EmptyString +:+ suffix) with suffix.
    destruct suffix; cbn [Js.removeSuffix]; now rewrite String.eqb_refl.
  - rewrite append_cons. cbn [Js.removeSuffix].
    now rewrite eqb_longer, IH.
Qed.

Lemma removeSuffix_absent suffix s :
  (forall p, s <> p +:+ suffix) -> Js.removeSuffix suffix s = s.
Proof.
  induction s as [|c s IH]; intros Hs.
  - cbn [Js.removeSuffix]. destruct (String.eqb_spec EmptyString suffix); reflexivity.
  - cbn [Js.removeSuffix].
    destruct (String.eqb_spec (String c s) suffix) as [E|_].
    + now destruct (Hs EmptyString).
    + rewrite IH; [reflexivity|].
      intros p ->. now apply (Hs (String c p)).
Qed.

Lemma lastSegment_absent c s :
  Js.includes s (String c EmptyString) = false -> Js.lastSegment c s = s.
Proof.
  destruct s as [|a s]; [reflexivity|].
  rewrite includes_char. intros Hs. apply orb_false_iff in Hs.
  destruct Hs as [Ha Hs]. cbn [Js.lastSegment]. now rewrite Hs, Ha.
Qed.

Lemma includes_char_append c p s :
  Js.includes s (String c EmptyString) = true ->
  Js.includes (p +:+ s) (String c EmptyString) = true.
Proof.
  intros Hs. induction p as [|a p IH]; [exact Hs|].
  rewrite append_cons, includes_char, IH. apply orb_true_r.
Qed.

Lemma lastSegment_append c p s :
  Js.includes s (String c EmptyString) = false ->
  Js.lastSegment c (p +:+ String c s) = s.
Proof.
  intros Hs. induction p as [|a p IH].
  - change (EmptyString +:+ String c s) with (String c s).
    cbn [Js.lastSegment]. now rewrite Hs, Ascii.eqb_refl.
  - rewrite append_cons. cbn [Js.lastSegment].
    rewrite includes_char_append; [exact IH|].
    rewrite includes_char, Ascii.eqb_refl. reflexivity.
Qed.

Lemma lastSegment_free c s :
  Js.includes (Js.lastSegment c s) (String c EmptyString) = false.
Proof.
  induction s as [|a s IH]; [reflexivity|].
  cbn [Js.lastSegment].
  destruct (Js.includes s (String c EmptyString)) eqn:Hs; [exact IH|].
  destruct (Ascii.eqb a c) eqn:Ha; [exact Hs|].
  now rewrite includes_char, Ha, Hs.
Qed.

(** X3: the names the performance table shows.  Each row carries the
    name of its metric without a trailing [_duration]: one such suffix
    is dropped, a name that does not end in it is shown as it is; the
    rows are those of the response, category by category. *)
Theorem performance_row_names (metricsData : PerformanceData) (name : string) :
  map perf_name (flattenPerformance metricsData) =
    map stripDuration
        (flat_map (fun '(_, metrics) => Js.keys metrics) metricsData) /\
  map perf_category (flattenPerformance metricsData) =
    flat_map (fun '(category, metrics) => map (fun _ => category) metrics)
             metricsData /\
  stripDuration (name +:+ "_duration") = name /\
  ((forall p, name <> p +:+ "_duration") -> stripDuration name = name).
Proof.
  split; [|split; [|split]].
  - unfold flattenPerformance.
    induction metricsData as [|[category metrics] rest IH]; [reflexivity|].
    cbn [flat_map]. rewrite !map_app, IH. f_equal.
    unfold Js.keys. rewrite !map_map. apply map_ext. now intros [n stats].
  - unfold flattenPerformance.
    induction metricsData as [|[category metrics] rest IH]; [reflexivity|].
    cbn [flat_map]. rewrite map_app, IH. f_equal.
    rewrite map_map. apply map_ext. now intros [n stats].
  - apply removeSuffix_append.
  - apply removeSuffix_absent.
Qed.

(** ** Selects *)

Lemma contains_In l x : Js.contains l x = true <-> In x l.
Proof.
  unfold Js.contains. rewrite existsb_exists. split.
  - intros (y & Hy & E). apply String.eqb_eq in E. now subst.
  - intros Hx. exists x. split; [exact Hx|apply String.eqb_refl].
Qed.

Lemma indexFrom_Some v l : forall i j,
  Js.indexFrom i v l = Some j -> (i <= j)%nat /\ l !! (j - i)%nat = Some v.
Proof.
  induction l as [|y l IH]; intros i j Hj; [discriminate|].
  cbn [Js.indexFrom] in Hj.
  destruct (String.eqb_spec y v) as [->|_].
  - injection Hj as <-. split; [lia|]. now rewrite Nat.sub_diag.
  - apply IH in Hj. destruct Hj as [Hle Hl]. split; [lia|].
    replace (j - i)%nat with (S (j - S i)) by lia. exact Hl.
Qed.

Lemma indexFrom_In v l : forall i,
  In v l -> exists j, Js.indexFrom i v l = Some j.
Proof.
  induction l as [|y l IH]; intros i Hv; [contradiction|].
  cbn [Js.indexFrom]. destruct (String.eqb_spec y v) as [->|Hne].
  - now exists i.
  - destruct Hv as [Hv|Hv]; [contradiction|]. now apply IH.
Qed.

Lemma indexFrom_head v y l (j : nat) :
  y <> v -> Js.indexFrom 0 v (y :: l) = Some j -> (1 <= j)%nat.
Proof.
  intros Hne Hj. cbn [Js.indexFrom] in Hj.
  destruct (String.eqb_spec y v) as [E|_]; [contradiction|].
  apply indexFrom_Some in Hj. lia.
Qed.

(** Setting the value of a select to one of its options selects it. *)
Lemma select_set_value_In v s :
  In v (options s) ->
  options (select_set_value v s) = options s /\
  select_value (select_set_value v s) = v.
Proof.
  intros Hv. unfold select_set_value.
  destruct (indexFrom_In v (options s) 0%nat Hv) as [j Hj]. rewrite Hj.
  split; [reflexivity|]. unfold select_value. cbn [options selectedIndex].
  apply indexFrom_Some in Hj. destruct Hj as [_ Hj].
  rewrite Nat.sub_0_r in Hj. now rewrite Hj.
Qed.

(** X4: the category filter of the performance tab after a load.  The
    first option stays, the categories of the response follow it.  A
    selected category that is still among them stays selected;
    otherwise the selection falls back to the first option. *)
Theorem category_selection_kept (metricsData : PerformanceData) (w : World) :
  let old := performanceCategory (performanceTab w) in
  let w' := updatePerformanceCategoryOptions metricsData w in
  let new := performanceCategory (performanceTab w') in
  options new = take 1 (options old) ++ Js.keys metricsData /\
  (select_value old <> EmptyString -> In (select_value old) (Js.keys metricsData) ->
   select_value new = select_value old) /\
  (select_value old = EmptyString \/ ~ In (select_value old) (Js.keys metricsData) ->
   selectedIndex new = 0%nat) /\
  performanceMetric (performanceTab w') = performanceMetric (performanceTab w) /\
  performanceRows (performanceTab w') = performanceRows (performanceTab w).
Proof.
  intros old w' new. subst new w'. unfold updatePerformanceCategoryOptions.
  cbn [performanceTab with_performanceTab performanceCategory performanceMetric
       performanceRows]. fold old.
  set (refilled := select_refill (Js.keys metricsData) old).
  assert (Hin : forall v, In v (Js.keys metricsData) -> In v (options refilled)).
  { intros v Hv. unfold refilled, select_refill. cbn [options].
    apply in_or_app. now right. }
  destruct (nonEmpty (select_value old)) eqn:Hne;
    destruct (Js.contains (Js.keys metricsData) (select_value old)) eqn:Hc;
    cbn [andb].
  - apply contains_In in Hc.
    destruct (select_set_value_In (select_value old) refilled (Hin _ Hc)) as [Ho Hv].
    split; [exact Ho|]. split; [intros _ _; exact Hv|].
    split; [|split; reflexivity].
    apply nonEmpty_true in Hne. intros [E|E]; contradiction.
  - split; [reflexivity|]. split; [|split; [reflexivity|split; reflexivity]].
    intros _ Hk. apply contains_In in Hk. congruence.
  - split; [reflexivity|]. split; [|split; [reflexivity|split; reflexivity]].
    apply nonEmpty_false in Hne. intros Hk. contradiction.
  - split; [reflexivity|]. split; [|split; [reflexivity|split; reflexivity]].
    apply nonEmpty_false in Hne. intros Hk. contradiction.
Qed.

(** X5: after a load of the performance tab the history of a metric is
    asked for exactly when a metric is offered.  The metric is the one
    that was selected before, if it is still offered, and the first one
    offered otherwise; the request names it with the selected category
    in front. *)
Theorem metric_history_requested `{Locale}
    (metricsData : PerformanceData) (w : World) (rest : list string) :
  options (performanceMetric (performanceTab w)) = EmptyString :: rest ->
  let old := select_value (performanceMetric (performanceTab w)) in
  let w1 := populatePerformanceMetricOptions metricsData
              (updatePerformanceTable metricsData w) in
  let w' := performanceLoaded (Js.Resolved metricsData) w in
  let category := select_value (performanceCategory (performanceTab w1)) in
  let metric := select_value (performanceMetric (performanceTab w1)) in
  options (performanceMetric (performanceTab w1)) = EmptyString :: offeredMetrics w1 /\
  match offeredMetrics w1 with
  | [] => requests (browser w') = requests (browser w)
  | first :: _ =>
      metric = (if Js.contains (offeredMetrics w1) old && nonEmpty old
                then old else first) /\
      requests (browser w') =
        requests (browser w) ++
        [GET ("/api/monitoring/metrics/" +:+
              (if nonEmpty category then category +:+ "." +:+ metric else metric) +:+
              "?limit=100")]
  end.
Proof.
  intros Hopts old w1 w' category metric.
  set (w0 := updatePerformanceTable metricsData w) in *.
  assert (Hm0 : performanceMetric (performanceTab w0) =
                performanceMetric (performanceTab w)) by reflexivity.
  assert (Hr0 : requests (browser w0) = requests (browser w)) by reflexivity.
  assert (Hw' : w' = updatePerformanceChart w1) by reflexivity.
  assert (Hb1 : browser w1 = browser w0) by reflexivity.
  assert (Hc1 : performanceCategory (performanceTab w1) =
                performanceCategory (performanceTab w0)) by reflexivity.
  set (metrics :=
         if nonEmpty (select_value (performanceCategory (performanceTab w0)))
         then match Js.get (select_value (performanceCategory (performanceTab w0)))
                           metricsData with
              | Some categoryMetrics => Js.keys categoryMetrics
              | None => []
              end
         else flat_map (fun '(_, categoryMetrics) => Js.keys categoryMetrics)
                       metricsData).
  set (refilled := mkSelect (EmptyString :: metrics) 0).
  assert (Hs1 : performanceMetric (performanceTab w1) =
                if nonEmpty old && Js.contains metrics old
                then select_set_value old refilled
                else if (0 <? length metrics)%nat
                     then mkSelect (EmptyString :: metrics) 1
                     else refilled).
  { subst w1. unfold populatePerformanceMetricOptions.
    cbn [performanceTab with_performanceTab performanceMetric].
    fold metrics. rewrite Hm0. fold old. unfold select_refill.
    rewrite Hopts. reflexivity. }
  assert (Ho1 : options (performanceMetric (performanceTab w1)) =
                EmptyString :: metrics).
  { rewrite Hs1. destruct (nonEmpty old && Js.contains metrics old) eqn:E.
    - apply andb_true_iff in E. destruct E as [_ E]. apply contains_In in E.
      apply (select_set_value_In old refilled). now right.
    - now destruct (0 <? length metrics)%nat. }
  assert (Hoff : offeredMetrics w1 = metrics).
  { unfold offeredMetrics. now rewrite Ho1. }
  rewrite Hoff. split; [exact Ho1|].
  rewrite Hw'. unfold updatePerformanceChart.
  change (select_value (performanceMetric (performanceTab w1))) with metric.
  change (select_value (performanceCategory (performanceTab w1))) with category.
  assert (Hreq : forall r,
            requests (browser (fetch r w1)) = requests (browser w) ++ [r]).
  { intros r. cbn [fetch with_browser browser requests]. now rewrite Hb1, Hr0. }
  assert (Hreq0 : requests (browser w1) = requests (browser w))
    by now rewrite Hb1.
  unfold metric. clearbody w1 w0 w'.
  destruct metrics as [|first more].
  - assert (Hi : selectedIndex (performanceMetric (performanceTab w1)) = 0%nat).
    { rewrite Hs1. unfold Js.contains. cbn [existsb]. now rewrite andb_false_r. }
    rewrite Hi. exact Hreq0.
  - destruct (Js.contains (first :: more) old && nonEmpty old) eqn:E.
    + apply andb_true_iff in E. destruct E as [Hc Hne].
      rewrite Hs1, Hne, Hc. cbn [andb].
      apply contains_In in Hc. apply nonEmpty_true in Hne.
      assert (Hv : select_value (select_set_value old refilled) = old).
      { apply (select_set_value_In old refilled). now right. }
      assert (Hi : (1 <= selectedIndex (select_set_value old refilled))%nat).
      { unfold select_set_value.
        destruct (indexFrom_In old (options refilled) 0%nat) as [j Hj];
          [now right|].
        rewrite Hj. cbn [selectedIndex]. cbn [refilled options] in Hj.
        eapply indexFrom_head; [|exact Hj]. congruence. }
      rewrite Hv. split; [reflexivity|].
      destruct (selectedIndex (select_set_value old refilled) <=? 0)%nat eqn:El;
        [apply Nat.leb_le in El; lia|].
      apply Hreq.
    + rewrite andb_comm in E. rewrite Hs1, E.
      cbn [length Nat.ltb Nat.leb selectedIndex].
      split; [reflexivity|]. apply Hreq.
Qed.

Lemma metric_history_requested_witness :
  let metricsData : PerformanceData :=
    [("task", [("run_duration", someStat 1); ("load", someStat 2)])] in
  let w' := @performanceLoaded plainLocale (Js.Resolved metricsData) (servedPage 0) in
  select_value (performanceMetric (performanceTab w')) = "run_duration" /\
  requests (browser w') = [GET "/api/monitoring/metrics/run_duration?limit=100"].
Proof.
  intros metricsData w'.
  destruct (@metric_history_requested plainLocale metricsData (servedPage 0) [])
    as (_ & Hsent); [reflexivity|].
  cbv zeta in Hsent. fold w' in Hsent.
  set (w1 := populatePerformanceMetricOptions _ _) in Hsent.
  assert (Hoffered : offeredMetrics w1 = ["run_duration"; "load"])
    by (vm_compute; reflexivity).
  rewrite Hoffered in Hsent. destruct Hsent as [_ Hsent].
  split; [vm_compute; reflexivity|].
  rewrite Hsent. vm_compute. reflexivity.
Defined.

(** ** Alerts: counters, buttons, lifecycle *)

Lemma countSeverity_from alerts : forall a b c d,
  fold_left countSeverity alerts
    [("critical", a); ("error", b); ("warning", c); ("info", d)] =
  [("critical", a + Z.of_nat (length (withSeverity "critical" alerts)));
   ("error", b + Z.of_nat (length (withSeverity "error" alerts)));
   ("warning", c + Z.of_nat (length (withSeverity "warning" alerts)));
   ("info", d + Z.of_nat (length (withSeverity "info" alerts)))].
Proof.
  induction alerts as [|x alerts IH]; intros a b c d.
  - cbn. now rewrite !Z.add_0_r.
  - cbn [fold_left]. unfold countSeverity at 2. unfold withSeverity.
    cbn [List.filter Js.get Js.set].
    fold (withSeverity "critical" alerts). fold (withSeverity "error" alerts).
    fold (withSeverity "warning" alerts). fold (withSeverity "info" alerts).
    rewrite (String.eqb_sym "critical"), (String.eqb_sym "error"),
      (String.eqb_sym "warning"), (String.eqb_sym "info").
    destruct (String.eqb_spec (alert_severity x) "critical") as [E|_].
    { rewrite ?E. cbn. rewrite IH. repeat (f_equal; try lia). }
    destruct (String.eqb_spec (alert_severity x) "error") as [E|_].
    { rewrite ?E. cbn. rewrite IH. repeat (f_equal; try lia). }
    destruct (String.eqb_spec (alert_severity x) "warning") as [E|_].
    { rewrite ?E. cbn. rewrite IH. repeat (f_equal; try lia). }
    destruct (String.eqb_spec (alert_severity x) "info") as [E|_].
    { rewrite ?E. cbn. rewrite IH. repeat (f_equal; try lia). }
    apply IH.
Qed.

Lemma withSeverity_cons s x alerts :
  withSeverity s (x :: alerts) =
  if String.eqb (alert_severity x) s then x :: withSeverity s alerts
  else withSeverity s alerts.
Proof. reflexivity. Qed.

Lemma severity_partition alerts :
  length alerts =
  (length (withSeverity "critical" alerts) + length (withSeverity "error" alerts) +
   length (withSeverity "warning" alerts) + length (withSeverity "info" alerts) +
   length (otherSeverity alerts))%nat.
Proof.
  induction alerts as [|x alerts IH]; [reflexivity|].
  rewrite !withSeverity_cons.
  change (otherSeverity (x :: alerts))
    with (if negb (String.eqb (alert_severity x) "critical" ||
                   (String.eqb (alert_severity x) "error" ||
                    (String.eqb (alert_severity x) "warning" ||
                     (String.eqb (alert_severity x) "info" || false))))
          then x :: otherSeverity alerts else otherSeverity alerts).
  destruct (String.eqb_spec (alert_severity x) "critical") as [E1|_],
    (String.eqb_spec (alert_severity x) "error") as [E2|_],
    (String.eqb_spec (alert_severity x) "warning") as [E3|_],
    (String.eqb_spec (alert_severity x) "info") as [E4|_];
    try congruence; cbn [negb orb length]; lia.
Qed.

Lemma filter_Permutation_bool {A} (f : A -> bool) (l l' : list A) :
  Permutation l l' -> Permutation (List.filter f l) (List.filter f l').
Proof.
  induction 1 as [|x l l' _ IH|x y l|l l' l'' _ IH1 _ IH2]; cbn [List.filter].
  - constructor.
  - destruct (f x); [now constructor|exact IH].
  - destruct (f x), (f y); try reflexivity. constructor.
  - now transitivity (List.filter f l').
Qed.

Section AlertFacts.

Context `{Locale}.

(** X6: the four status counters after a load of the alerts: each counts
    the alerts of its severity, and so the rows the list shows with that
    severity; an alert of another severity is listed but counted
    nowhere. *)
Theorem alert_counters_match_list (alerts : list Alert) (w : World) :
  let w' := alertsLoaded (Js.Resolved alerts) w in
  statusCounts (alertsTab w') =
    map (fun s => (s, Z.of_nat (length (withSeverity s alerts)))) severityNames /\
  statusCounts (alertsTab w') =
    map (fun s => (s, Z.of_nat (length (withSeverity s (renderedAlerts w')))))
        severityNames /\
  length (renderedAlerts w') = length alerts /\
  length alerts =
    (length (withSeverity "critical" alerts) + length (withSeverity "error" alerts) +
     length (withSeverity "warning" alerts) + length (withSeverity "info" alerts) +
     length (otherSeverity alerts))%nat.
Proof.
  intros w'.
  assert (Hc : statusCounts (alertsTab w') =
    map (fun s => (s, Z.of_nat (length (withSeverity s alerts)))) severityNames).
  { subst w'. unfold alertsLoaded, renderActiveAlerts.
    assert (Hs : statusCounts (alertsTab (updateAlertStatus alerts w)) =
      map (fun s => (s, Z.of_nat (length (withSeverity s alerts)))) severityNames).
    { unfold updateAlertStatus. cbn [alertsTab with_alertsTab set_statusCounts statusCounts].
      rewrite countSeverity_from. reflexivity. }
    destruct alerts; exact Hs. }
  assert (Hr : renderedAlerts w' = Js.sort compareSeverity alerts).
  { subst w'. unfold alertsLoaded. apply renderedAlerts_sorted. }
  split; [exact Hc|]. split.
  - rewrite Hc, Hr. apply map_ext. intros s. do 2 f_equal.
    apply Permutation_length. unfold withSeverity.
    apply filter_Permutation_bool. symmetry.
    apply (sort_Permutation compareSeverity alerts).
  - split; [|apply severity_partition].
    rewrite Hr. apply Permutation_length, sort_Permutation.
Qed.

(** X7: the buttons of the active-alert list.  The list is replaced by
    the no-alerts message exactly when there is no alert; otherwise
    there is one item per alert, the acknowledge button is offered
    exactly for the alerts whose status is [active], and resolve and
    silence are offered for every alert, whatever its status. *)
Theorem alert_item_buttons (alerts : list Alert) (w : World) :
  match activeAlerts (alertsTab (renderActiveAlerts alerts w)) with
  | NoAlertsMessage => alerts = []
  | AlertItems items =>
      alerts <> [] /\
      length items = length alerts /\
      Forall (fun item =>
                (In "acknowledge" (item_actions item) <->
                 alert_status (item_alert item) = "active") /\
                In "resolve" (item_actions item) /\
                In "silence" (item_actions item) /\
                item_class item =
                  "alert-item alert-" +:+ alert_severity (item_alert item))
             items
  end.
Proof.
  destruct alerts as [|a alerts]; [reflexivity|].
  unfold renderActiveAlerts.
  cbn [alertsTab with_alertsTab set_activeAlerts activeAlerts].
  split; [discriminate|]. split.
  - rewrite length_map. apply Permutation_length, sort_Permutation.
  - apply List.Forall_forall. intros item Hitem.
    apply in_map_iff in Hitem. destruct Hitem as (x & <- & _).
    unfold renderAlert. cbn [item_actions item_alert item_class].
    destruct (String.eqb_spec (alert_status x) "active") as [E|E].
    + repeat split; cbn; auto.
    + repeat split; cbn; auto.
      intros [Hf|[Hf|Hf]]; [discriminate..|contradiction].
Qed.

End AlertFacts.

(** X8: the outcome of an acknowledge, resolve or silence request.  A
    failure only adds one error toast.  A success adds one success toast
    and asks for the alerts and their history again; the list and the
    counters on the page stay as they are until those answers come in. *)
Theorem alert_lifecycle_outcome
    (name : string) (silence : bool) (r : Js.reply StatusReply) (w : World) :
  Forall (fun w' =>
            match r with
            | Js.Resolved data =>
                if String.eqb (status data) "success" then
                  requests (browser w') = requests (browser w) ++
                    [GET "/api/monitoring/alerts";
                     GET "/api/monitoring/alerts/history"] /\
                  (exists message,
                     toasts (frame w') =
                       toasts (frame w) ++ [mkToast message "success"]) /\
                  alertsTab w' = alertsTab w /\ dash w' = dash w
                else onlyErrorToast w w'
            | Js.Rejected => onlyErrorToast w w'
            end)
         [alertAcknowledged name r w; alertResolved name r w;
          alertSilenced name silence r w].
Proof.
  unfold alertAcknowledged, alertResolved, alertSilenced, onlyErrorToast.
  destruct r as [|data]; [repeat constructor; eexists; reflexivity|].
  destruct (String.eqb (status data) "success").
  - repeat constructor; try (eexists; reflexivity).
    all: cbn; now rewrite <- app_assoc.
  - repeat constructor; eexists; reflexivity.
Qed.

(** X9: an alert was created.  The two text inputs are emptied, severity
    and category keep their selection, the alerts and their history are
    asked for again, and submitting the form once more sends nothing:
    the emptied form is refused. *)
Theorem alert_created_resets_form (name : string) (data : StatusReply) (w : World) :
  status data = "success" ->
  let w' := alertCreated name (Js.Resolved data) w in
  alertName (alertsTab w') = EmptyString /\
  alertDescription (alertsTab w') = EmptyString /\
  alertSeverity (alertsTab w') = alertSeverity (alertsTab w) /\
  alertCategory (alertsTab w') = alertCategory (alertsTab w) /\
  activeAlerts (alertsTab w') = activeAlerts (alertsTab w) /\
  requests (browser w') = requests (browser w) ++
    [GET "/api/monitoring/alerts"; GET "/api/monitoring/alerts/history"] /\
  toasts (frame w') = toasts (frame w) ++
    [mkToast ("Alert " +:+ quote +:+ name +:+ quote +:+ " created") "success"] /\
  onlyErrorToast w' (createAlert w') /\
  requests (browser (createAlert w')) = requests (browser w').
Proof.
  intros Hs w'. subst w'. unfold alertCreated. rewrite Hs.
  change (String.eqb "success" "success") with true. cbv iota.
  repeat (split; [reflexivity|]).
  split; [cbn; now rewrite <- app_assoc|].
  split; [reflexivity|].
  split; [|reflexivity].
  unfold createAlert, onlyErrorToast. eexists. reflexivity.
Qed.

Lemma alert_created_resets_form_witness :
  let w := with_alertsTab (fun t =>
             mkAlertsTab (statusCounts t) (activeAlerts t) (alertHistory t)
                         "disk" "disk is full" "critical" "custom")
             (servedPage 0) in
  let w' := alertCreated "disk" (Js.Resolved (mkStatusReply "success" None)) w in
  alertName (alertsTab w') = EmptyString /\
  alertSeverity (alertsTab w') = "critical" /\
  requests (browser (createAlert w')) =
    [GET "/api/monitoring/alerts"; GET "/api/monitoring/alerts/history"].
Proof.
  intros w w'.
  destruct (alert_created_resets_form "disk" (mkStatusReply "success" None) w)
    as (Hn & _ & Hsev & _ & _ & Hreq & _ & _ & Hsame); [reflexivity|].
  split; [exact Hn|]. split; [exact Hsev|].
  fold w' in Hsame, Hreq. rewrite Hsame. exact Hreq.
Defined.

(** ** The monitoring switch *)

(** X10: a successful toggle flips the flag and the button, and the next
    click asks for the opposite: stop while monitoring is on, start
    while it is off. *)
Theorem toggle_alternates (data : StatusReply) (w : World) :
  status data = "success" ->
  let stop := monitoringActive (dash w) in
  let w1 := toggleMonitoring w in
  let w2 := monitoringToggled stop (Js.Resolved data) w1 in
  let w3 := toggleMonitoring w2 in
  let url (stop : bool) :=
    if stop then "/api/monitoring/control/stop"
    else "/api/monitoring/control/start" in
  requests (browser w1) = requests (browser w) ++ [mkRequest "POST" (url stop) []] /\
  dash w1 = dash w /\ frame w1 = frame w /\
  monitoringActive (dash w2) = negb stop /\
  toggleDanger (frame w2) = negb stop /\
  toggleText (frame w2) = (if stop then "Start Monitoring" else "Stop Monitoring") /\
  requests (browser w3) =
    requests (browser w) ++
    [mkRequest "POST" (url stop) []; mkRequest "POST" (url (negb stop)) []].
Proof.
  intros Hs stop w1 w2 w3 url.
  assert (H1 : toggleMonitoring w = fetch (mkRequest "POST" (url stop) []) w).
  { subst url stop. unfold toggleMonitoring.
    now destruct (monitoringActive (dash w)). }
  subst w3 w2 w1. rewrite H1. clearbody stop. clear H1.
  unfold monitoringToggled. rewrite Hs.
  change (String.eqb "success" "success") with true.
  destruct stop; unfold toggleMonitoring, url; cbn; rewrite <- ?app_assoc;
    repeat (split; [reflexivity|]); reflexivity.
Qed.

Lemma toggle_alternates_witness :
  let w1 := toggleMonitoring (servedPage 0) in
  let w2 := monitoringToggled false
              (Js.Resolved (mkStatusReply "success" None)) w1 in
  monitoringActive (dash w2) = true /\
  toggleText (frame w2) = "Stop Monitoring" /\
  requests (browser (toggleMonitoring w2)) =
    [mkRequest "POST" "/api/monitoring/control/start" [];
     mkRequest "POST" "/api/monitoring/control/stop" []].
Proof.
  intros w1 w2.
  destruct (toggle_alternates (mkStatusReply "success" None) (servedPage 0))
    as (_ & _ & _ & Hflag & _ & Htext & Hreq); [reflexivity|].
  split; [exact Hflag|]. split; [exact Htext|exact Hreq].
Defined.

(** X11: the status check.  A status other than [active] clears the flag
    but leaves the toggle button as it is: a button that reads "Stop
    Monitoring" keeps reading so while the next click asks the server to
    start.  The status [active] sets both, and a failed check changes
    nothing. *)
Theorem status_check_leaves_button (data : StatusReply) (w : World) :
  status data <> "active" ->
  let w' := monitoringStatusLoaded (Js.Resolved data) w in
  monitoringActive (dash w') = false /\
  frame w' = frame w /\
  requests (browser (toggleMonitoring w')) =
    requests (browser w) ++ [mkRequest "POST" "/api/monitoring/control/start" []] /\
  (forall data', status data' = "active" ->
     let w'' := monitoringStatusLoaded (Js.Resolved data') w in
     monitoringActive (dash w'') = true /\
     toggleText (frame w'') = "Stop Monitoring" /\
     toggleDanger (frame w'') = true) /\
  monitoringStatusLoaded Js.Rejected w = w.
Proof.
  intros Hs w'. subst w'. unfold monitoringStatusLoaded.
  apply String.eqb_neq in Hs. rewrite Hs.
  repeat (split; [reflexivity|]).
  split; [|reflexivity].
  intros data' ->. now cbn.
Qed.

Lemma status_check_leaves_button_witness :
  let w := monitoringToggled false (Js.Resolved (mkStatusReply "success" None))
             (servedPage 0) in
  let w' := monitoringStatusLoaded
              (Js.Resolved (mkStatusReply "inactive" None)) w in
  toggleText (frame w) = "Stop Monitoring" /\
  toggleText (frame w') = "Stop Monitoring" /\
  monitoringActive (dash w') = false /\
  requests (browser (toggleMonitoring w')) =
    [mkRequest "POST" "/api/monitoring/control/start" []].
Proof.
  intros w w'.
  destruct (status_check_leaves_button (mkStatusReply "inactive" None) w)
    as (Hflag & Hframe & Hreq & _); [discriminate|].
  fold w' in Hflag, Hframe, Hreq.
  split; [reflexivity|]. split; [now rewrite Hframe|].
  split; [exact Hflag|exact Hreq].
Defined.

(** ** Logs *)

(** X12: filtering looks at what an entry says, never at whether it is
    shown: the outcome of [filterLogs] does not depend on the filters
    that were applied before, and applying it twice is applying it
    once. *)
Theorem filterLogs_idempotent (w : World) (level component search : string) :
  filterLogs (filterLogs w) = filterLogs w /\
  map (filterEntry level component search) (logEntries (logsTab (filterLogs w))) =
  map (filterEntry level component search) (logEntries (logsTab w)) /\
  map (filterEntry level component search) (logEntries (logsTab (clearLogFilters w))) =
  map (filterEntry level component search) (logEntries (logsTab w)).
Proof.
  split; [|split].
  - unfold filterLogs, with_logsTab.
    cbn [logsTab logLevel logComponent logSearch logEntries
         dash browser frame metricTables performanceTab alertsTab].
    rewrite map_map. reflexivity.
  - unfold filterLogs, with_logsTab. cbn [logsTab logEntries].
    rewrite map_map. reflexivity.
  - unfold clearLogFilters, with_logsTab. cbn [logsTab logEntries].
    rewrite map_map. reflexivity.
Qed.

Lemma unique_In l : forall x, In x (Js.unique l) <-> In x l.
Proof.
  induction l as [|y l IH]; intros x; [reflexivity|].
  cbn [Js.unique]. split.
  - intros [->|Hx]; [now left|].
    apply filter_In in Hx. right. now apply IH.
  - intros [->|Hx]; [now left|].
    destruct (String.eqb_spec x y) as [->|Hne]; [now left|].
    right. apply filter_In. split; [now apply IH|].
    apply negb_true_iff. now apply String.eqb_neq.
Qed.

Lemma NoDup_filter_bool {A} (f : A -> bool) (l : list A) :
  List.NoDup l -> List.NoDup (List.filter f l).
Proof.
  induction 1 as [|x l Hx _ IH]; cbn [List.filter]; [constructor|].
  destruct (f x); [|exact IH].
  constructor; [|exact IH]. intros Hin. apply filter_In in Hin. tauto.
Qed.

Lemma unique_NoDup l : List.NoDup (Js.unique l).
Proof.
  induction l as [|y l IH]; cbn [Js.unique]; constructor.
  - intros Hin. apply filter_In in Hin. destruct Hin as [_ Hy].
    now rewrite String.eqb_refl in Hy.
  - now apply NoDup_filter_bool.
Qed.

Lemma showLogs_logsTab logs w :
  logsTab (showLogs logs w) =
  mkLogsTab (logLevel (logsTab w))
            (select_refill (Js.unique (map log_component logs))
                           (logComponent (logsTab w)))
            (logSearch (logsTab w))
            (map logElement logs).
Proof.
  unfold showLogs, with_logsTab. cbn [dash].
  now destruct (charts (dash w) !! "logLevels").
Qed.

(** X13: the component filter after the logs are shown: its first option
    stays, then comes every component of the buffer, once, and nothing
    else; the first option is selected. *)
Theorem component_options_distinct (logs : list LogEntry) (w : World) :
  let select := logComponent (logsTab (showLogs logs w)) in
  let components := drop 1 (options select) in
  (options (logComponent (logsTab w)) <> [] ->
   options select = take 1 (options (logComponent (logsTab w))) ++ components) /\
  (options (logComponent (logsTab w)) <> [] ->
   components = Js.unique (map log_component logs)) /\
  selectedIndex select = 0%nat /\
  List.NoDup (Js.unique (map log_component logs)) /\
  (forall c, In c (Js.unique (map log_component logs)) <->
             exists log, In log logs /\ log_component log = c).
Proof.
  intros select components. subst components select.
  rewrite showLogs_logsTab. cbn [logComponent select_refill options selectedIndex].
  split; [|split; [|split; [reflexivity|split]]].
  - intros Hne. destruct (options (logComponent (logsTab w))); [contradiction|].
    reflexivity.
  - intros Hne. destruct (options (logComponent (logsTab w))); [contradiction|].
    reflexivity.
  - apply unique_NoDup.
  - intros c. rewrite unique_In, in_map_iff. split.
    + intros (log & E & Hlog). now exists log.
    + intros (log & Hlog & E). now exists log.
Qed.

(** X14: loading the logs tab shows every entry of the buffer, whatever
    the filters say; the level filter and the search text keep their
    value.  With a level selected (INFO, as the page is served) the
    entries shown are therefore more than the filter admits, until the
    next change of a filter runs [filterLogs]. *)
Theorem loadLogs_shows_all (w : World) :
  In (select_value (logLevel (logsTab w))) levelNames ->
  let w' := loadLogs w in
  Forall visible (logEntries (logsTab w')) /\
  length (logEntries (logsTab w')) = length simulatedLogs /\
  logLevel (logsTab w') = logLevel (logsTab w) /\
  logSearch (logsTab w') = logSearch (logsTab w) /\
  ~ Forall visible (logEntries (logsTab (filterLogs w'))).
Proof.
  intros Hlevel w'. subst w'.
  pose proof (loadLogs_logsTab w) as Ht. unfold filterLogs, with_logsTab.
  cbn [logsTab logEntries]. rewrite Ht.
  cbn [logEntries logLevel logSearch logComponent].
  split; [|split; [now rewrite length_map|split; [reflexivity|split; [reflexivity|]]]].
  - apply List.Forall_forall. intros entry Hentry.
    apply in_map_iff in Hentry. now destruct Hentry as (log & <- & _).
  - intros Hall. rewrite List.Forall_forall in Hall.
    set (level := select_value (logLevel (logsTab w))) in *.
    set (component := select_value _) in Hall.
    set (search := Js.toLowerCase _) in Hall.
    assert (Hhidden : exists log, In log simulatedLogs /\
              nonEmpty level &&
              negb (classListContains (logElement log) ("log-" +:+ level)) = true).
    { clearbody level. cbn in Hlevel.
      destruct Hlevel as [<-|[<-|[<-|[<-|[<-|[]]]]]].
      - exists (mkLogEntry "2025-05-14T12:00:00" "INFO" "system" "System started").
        split; [cbn; tauto|reflexivity].
      - exists (mkLogEntry "2025-05-14T12:01:05" "DEBUG" "agent" "Processing task #1234").
        split; [cbn; tauto|reflexivity].
      - exists (mkLogEntry "2025-05-14T12:00:00" "INFO" "system" "System started").
        split; [cbn; tauto|reflexivity].
      - exists (mkLogEntry "2025-05-14T12:00:00" "INFO" "system" "System started").
        split; [cbn; tauto|reflexivity].
      - exists (mkLogEntry "2025-05-14T12:00:00" "INFO" "system" "System started").
        split; [cbn; tauto|reflexivity]. }
    destruct Hhidden as (log & Hlog & Hh).
    specialize (Hall (filterEntry level component search (logElement log))).
    unfold visible in Hall. rewrite filterEntry_display, Hh in Hall.
    cbn [negb andb] in Hall. discriminate Hall.
    apply in_map, in_map, Hlog.
Qed.

(** X15: clearing the filters shows every entry, selects the first option
    of both selects and empties the search box.  When the first option
    of both selects is the empty one, as served, the filters then agree
    with what is shown: applying them changes nothing. *)
Theorem clearLogFilters_shows_all (w : World) (levels components : list string) :
  options (logLevel (logsTab w)) = EmptyString :: levels ->
  options (logComponent (logsTab w)) = EmptyString :: components ->
  let w' := clearLogFilters w in
  Forall visible (logEntries (logsTab w')) /\
  length (logEntries (logsTab w')) = length (logEntries (logsTab w)) /\
  select_value (logLevel (logsTab w')) = EmptyString /\
  select_value (logComponent (logsTab w')) = EmptyString /\
  logSearch (logsTab w') = EmptyString /\
  filterLogs w' = w'.
Proof.
  intros Hl Hc w'. subst w'. unfold clearLogFilters, select_value, with_logsTab.
  cbn [logsTab logEntries logLevel logComponent logSearch
       options selectedIndex].
  rewrite Hl, Hc. cbn [lookup list_lookup default].
  split; [|split; [now rewrite length_map|repeat (split; [reflexivity|])]].
  - apply List.Forall_forall. intros entry Hentry.
    apply in_map_iff in Hentry. now destruct Hentry as (e & <- & _).
  - unfold filterLogs, select_value, with_logsTab.
    cbn [logsTab logEntries logLevel logComponent logSearch
         options selectedIndex dash browser frame metricTables performanceTab
         alertsTab].
    rewrite ?Hl, ?Hc. cbn [lookup list_lookup default]. rewrite map_map.
    reflexivity.
Qed.

Lemma clearLogFilters_shows_all_witness :
  let hidden :=
    set_display "none"
      (logElement (mkLogEntry "2025-05-14T12:01:05" "DEBUG" "agent"
                              "Processing task #1234")) in
  let w := with_logsTab (fun t =>
             mkLogsTab (logLevel t) (logComponent t) "started" [hidden])
             (servedPage 0) in
  ~ Forall visible (logEntries (logsTab w)) /\
  Forall visible (logEntries (logsTab (clearLogFilters w))) /\
  select_value (logLevel (logsTab (clearLogFilters w))) = EmptyString /\
  filterLogs (clearLogFilters w) = clearLogFilters w.
Proof.
  intros hidden w.
  destruct (clearLogFilters_shows_all w levelNames [])
    as (Hall & _ & Hlevel & _ & _ & Hfix); [reflexivity|reflexivity|].
  split; [|split; [exact Hall|split; [exact Hlevel|exact Hfix]]].
  intros Hv. apply Forall_inv in Hv. discriminate Hv.
Defined.

Lemma loadLogs_shows_all_witness :
  let w := servedPage 0 in
  select_value (logLevel (logsTab w)) = "INFO" /\
  Forall visible (logEntries (logsTab (loadLogs w))) /\
  ~ Forall visible (logEntries (logsTab (filterLogs (loadLogs w)))).
Proof.
  intros w.
  destruct (loadLogs_shows_all w) as (Hall & _ & _ & _ & Hnot);
    [vm_compute; tauto|].
  split; [reflexivity|]. split; [exact Hall|exact Hnot].
Defined.

(** ** Byte sizes and durations *)





(** X18: the two largest units of a duration are shown, rounded down, so
    the duration shown is never longer than the real one and short of it
    by less than one of the smaller unit.  Below a minute the seconds
    are shown as they are, always in the plural. *)
Theorem formatDuration_parts (seconds : Z) :
  (seconds < 60 -> formatDuration seconds = string_of_Z seconds +:+ " seconds") /\
  (60 <= seconds < 3600 ->
   exists minutes,
     1 <= minutes < 60 /\
     60 * minutes <= seconds < 60 * (minutes + 1) /\
     formatDuration seconds =
       string_of_Z minutes +:+ " minute" +:+ plural minutes) /\
  (3600 <= seconds < 86400 ->
   exists hours minutes,
     1 <= hours < 24 /\ 0 <= minutes < 60 /\
     3600 * hours + 60 * minutes <= seconds < 3600 * hours + 60 * (minutes + 1) /\
     formatDuration seconds =
       string_of_Z hours +:+ " hour" +:+ plural hours +:+ " " +:+
       string_of_Z minutes +:+ " minute" +:+ plural minutes) /\
  (86400 <= seconds ->
   exists days hours,
     1 <= days /\ 0 <= hours < 24 /\
     86400 * days + 3600 * hours <= seconds < 86400 * days + 3600 * (hours + 1) /\
     formatDuration seconds =
       string_of_Z days +:+ " day" +:+ plural days +:+ " " +:+
       string_of_Z hours +:+ " hour" +:+ plural hours).
Proof.
  unfold formatDuration. split; [|split; [|split]].
  - intros Hs. destruct (Z.ltb_spec seconds 60); [reflexivity|lia].
  - intros Hs. exists (seconds / 60).
    destruct (Z.ltb_spec seconds 60); [lia|].
    destruct (Z.ltb_spec seconds 3600); [|lia].
    pose proof (Z.div_mod seconds 60 ltac:(lia)).
    pose proof (Z.mod_pos_bound seconds 60 ltac:(lia)).
    repeat split; try reflexivity; lia.
  - intros Hs. exists (seconds / 3600), (seconds mod 3600 / 60).
    destruct (Z.ltb_spec seconds 60); [lia|].
    destruct (Z.ltb_spec seconds 3600); [lia|].
    destruct (Z.ltb_spec seconds 86400); [|lia].
    pose proof (Z.div_mod seconds 3600 ltac:(lia)).
    pose proof (Z.mod_pos_bound seconds 3600 ltac:(lia)).
    pose proof (Z.div_mod (seconds mod 3600) 60 ltac:(lia)).
    pose proof (Z.mod_pos_bound (seconds mod 3600) 60 ltac:(lia)).
    repeat split; try reflexivity; lia.
  - intros Hs. exists (seconds / 86400), (seconds mod 86400 / 3600).
    destruct (Z.ltb_spec seconds 60); [lia|].
    destruct (Z.ltb_spec seconds 3600); [lia|].
    destruct (Z.ltb_spec seconds 86400); [lia|].
    pose proof (Z.div_mod seconds 86400 ltac:(lia)).
    pose proof (Z.mod_pos_bound seconds 86400 ltac:(lia)).
    pose proof (Z.div_mod (seconds mod 86400) 3600 ltac:(lia)).
    pose proof (Z.mod_pos_bound (seconds mod 86400) 3600 ltac:(lia)).
    repeat split; try reflexivity; lia.
Qed.

(** ** Metric tables *)

Lemma omap_length_filter {A B} (f : A -> option B) (l : list A) :
  length (omap f l) =
  length (List.filter (fun x => match f x with Some _ => true | None => false end) l).
Proof.
  induction l as [|x l IH]; [reflexivity|].
  cbn [omap list_omap List.filter]. destruct (f x); cbn [length]; now rewrite IH.
Qed.

Lemma metricRow_Some name values row :
  metricRow (name, values) = Some row <->
  exists earlier latest,
    values = earlier ++ [latest] /\
    row = mkMetricRow (displayName name) (formatMetricValue name (snd latest)).
Proof.
  unfold metricRow. split.
  - destruct (last values) as [latest|] eqn:E; [|discriminate].
    intros [= <-]. apply last_Some in E. destruct E as [earlier ->].
    now exists earlier, latest.
  - intros (earlier & latest & -> & ->). now rewrite last_snoc.
Qed.

(** X19: a metric table lists the metrics that have a sample, each with
    its latest one, in the order of the metrics; a metric without
    samples gets no row, and the other tables stay as they are. *)
Theorem metric_table_rows (tableId : string) (metrics : MetricsData) (w : World) :
  is_Some (metricTables w !! tableId) ->
  let w' := updateMetricTable tableId metrics w in
  exists rows,
    metricTables w' !! tableId = Some rows /\
    length rows =
      length (List.filter (fun entry => negb (length (snd entry) =? 0)%nat) metrics) /\
    (forall row,
       In row rows <->
       exists name earlier latest,
         In (name, earlier ++ [latest]) metrics /\
         row = mkMetricRow (displayName name)
                           (formatMetricValue name (snd latest))) /\
    (forall other, other <> tableId ->
       metricTables w' !! other = metricTables w !! other).
Proof.
  intros Htable w'. exists (omap metricRow metrics).
  split; [now apply updateMetricTable_same|]. split; [|split].
  - rewrite omap_length_filter. f_equal. apply filter_ext.
    intros [name values]. unfold metricRow. cbn [snd].
    destruct values as [|v values _] using rev_ind; [reflexivity|].
    rewrite last_snoc, length_app, Nat.add_1_r. reflexivity.
  - intros row. rewrite <- list_elem_of_In, list_elem_of_omap. split.
    + intros ([name values] & Hin & Hrow).
      apply metricRow_Some in Hrow. destruct Hrow as (earlier & latest & -> & ->).
      exists name, earlier, latest. split; [now apply list_elem_of_In|reflexivity].
    + intros (name & earlier & latest & Hin & ->).
      exists (name, earlier ++ [latest]). split; [now apply list_elem_of_In|].
      apply metricRow_Some. now exists earlier, latest.
  - intros other Hne. apply updateMetricTable_other. congruence.
Qed.

Lemma metric_table_rows_witness :
  let metrics : MetricsData :=
    [("system.cpu_percent",
      [(1000, QArith_base.inject_Z 10); (2000, QArith_base.inject_Z 55)]);
     ("system.cpu_count", [])] in
  metricTables (updateMetricTable "cpu-metrics" metrics (servedPage 0))
    !! "cpu-metrics" =
  Some [mkMetricRow "cpu percent" (Percent (QArith_base.inject_Z 55))].
Proof.
  intros metrics.
  destruct (metric_table_rows "cpu-metrics" metrics (servedPage 0))
    as (rows & Hrows & _); [vm_compute; eauto|].
  rewrite Hrows. f_equal.
  rewrite updateMetricTable_same in Hrows by (vm_compute; eauto).
  now injection Hrows as <-.
Defined.

(** ** The chart slots *)

Lemma AddsKnownSlots_same w w' :
  chartState w' = chartState w -> AddsKnownSlots w w'.
Proof.
  intros Hst slot Hslot. left.
  now rewrite <- (f_equal fst Hst : charts (dash w') = charts (dash w)).
Qed.

Lemma AddsKnownSlots_trans w1 w2 w3 :
  AddsKnownSlots w1 w2 -> AddsKnownSlots w2 w3 -> AddsKnownSlots w1 w3.
Proof.
  intros H12 H23 slot Hslot.
  destruct (H23 slot Hslot) as [H2|Hk]; [now apply H12|now right].
Qed.

Lemma createOrUpdate_AddsKnownSlots slot fresh change w :
  In slot slotNames -> AddsKnownSlots w (createOrUpdate slot fresh change w).
Proof.
  intros Hknown slot' Hslot'.
  destruct (charts (dash w) !! slot) as [ref|] eqn:Hslot.
  - destruct (createOrUpdate_filled slot fresh change w ref Hslot) as [Hc _].
    left. now rewrite <- Hc.
  - destruct (createOrUpdate_fresh slot fresh change w Hslot) as [Hc _].
    rewrite Hc in Hslot'. destruct (decide (slot = slot')) as [<-|Hne].
    + now right.
    + left. now rewrite lookup_insert_ne in Hslot' by exact Hne.
Qed.

Section Slots.

Context `{Locale}.

Lemma render_AddsKnownSlots op w : AddsKnownSlots w (render op w).
Proof.
  destruct (render_pattern op w) as (fresh & change & Hst & _).
  eapply AddsKnownSlots_trans;
    [|apply AddsKnownSlots_same; exact Hst].
  apply createOrUpdate_AddsKnownSlots.
  destruct op; cbn; tauto.
Qed.

Lemma updateSystemCharts_AddsKnownSlots metricsData w :
  AddsKnownSlots w (updateSystemCharts metricsData w).
Proof.
  unfold updateSystemCharts.
  set (b := groupMetrics metricsData).
  set (w1 := updateCpuChart (cpuMetrics b) w).
  set (w2 := updateMemoryChart (memoryMetrics b) w1).
  set (w3 := updateDiskChart (diskMetrics b) w2).
  set (w4 := updateNetworkChart (networkMetrics b) w3).
  apply (AddsKnownSlots_trans w w4);
    [|apply AddsKnownSlots_same; now rewrite !updateMetricTable_chartState].
  apply (AddsKnownSlots_trans w w3);
    [|apply (render_AddsKnownSlots (NetworkChart (networkMetrics b)))].
  apply (AddsKnownSlots_trans w w2);
    [|apply (render_AddsKnownSlots (DiskChart (diskMetrics b)))].
  apply (AddsKnownSlots_trans w w1);
    [|apply (render_AddsKnownSlots (MemoryChart (memoryMetrics b)))].
  apply (render_AddsKnownSlots (CpuChart (cpuMetrics b))).
Qed.

Lemma loadTabData_AddsKnownSlots tabName w :
  AddsKnownSlots w (loadTabData tabName w).
Proof.
  unfold loadTabData.
  repeat match goal with |- context [if ?c then _ else _] => destruct c end;
    try (apply AddsKnownSlots_same; reflexivity).
  apply (render_AddsKnownSlots LogLevelChart).
Qed.

Lemma refreshDashboard_AddsKnownSlots w : AddsKnownSlots w (refreshDashboard w).
Proof.
  unfold refreshDashboard, checkMonitoringStatus. cbv zeta.
  match goal with
  | |- context [loadTabData ?t ?x] =>
      apply (AddsKnownSlots_trans w (loadTabData t x));
        [|apply AddsKnownSlots_same; reflexivity];
      apply (AddsKnownSlots_trans w x);
        [apply AddsKnownSlots_same; reflexivity
        |apply loadTabData_AddsKnownSlots]
  end.
Qed.

Lemma handle_AddsKnownSlots e w : AddsKnownSlots w (handle e w).
Proof.
  destruct e; simpl;
    try (apply AddsKnownSlots_same; reflexivity).
  - unfold switchTab. cbv zeta.
    match goal with
    | |- context [loadTabData ?t ?x] =>
        apply (AddsKnownSlots_trans w x);
          [apply AddsKnownSlots_same; reflexivity
          |apply loadTabData_AddsKnownSlots]
    end.
  - apply refreshDashboard_AddsKnownSlots.
  - unfold intervalFires. destruct (intervals (browser w) !! id).
    + apply refreshDashboard_AddsKnownSlots.
    + apply AddsKnownSlots_same. reflexivity.
  - apply AddsKnownSlots_same, setAutoRefresh_chartState.
  - apply AddsKnownSlots_same. unfold toggleMonitoring.
    now destruct (monitoringActive (dash w)).
  - apply AddsKnownSlots_same. unfold monitoringToggled.
    destruct stop, r as [|data]; try reflexivity;
      destruct (String.eqb (status data) "success"); reflexivity.
  - apply AddsKnownSlots_same. unfold monitoringStatusLoaded.
    destruct r as [|data]; [reflexivity|].
    destruct (String.eqb (status data) "active"); reflexivity.
  - unfold systemMetricsLoaded. destruct r as [|data].
    + apply AddsKnownSlots_same. reflexivity.
    + apply (AddsKnownSlots_trans w (updateSystemCharts data w));
        [apply updateSystemCharts_AddsKnownSlots
        |apply AddsKnownSlots_same; reflexivity].
  - apply AddsKnownSlots_same. now rewrite updatePerformanceChart_chartState.
  - apply AddsKnownSlots_same. unfold performanceLoaded.
    destruct r as [|data]; [reflexivity|].
    now rewrite updatePerformanceChart_chartState.
  - unfold metricHistoryLoaded. destruct r as [|[name values]].
    + apply AddsKnownSlots_same. reflexivity.
    + apply (render_AddsKnownSlots (PerformanceChart name values)).
  - apply AddsKnownSlots_same. unfold alertsLoaded.
    destruct r as [|alerts]; [reflexivity|].
    unfold renderActiveAlerts. now destruct alerts.
  - apply AddsKnownSlots_same. unfold alertHistoryLoaded. now destruct r.
  - apply AddsKnownSlots_same. unfold createAlert. now destruct (_ || _).
  - apply AddsKnownSlots_same. unfold alertCreated.
    destruct r as [|data]; [reflexivity|].
    now destruct (String.eqb (status data) "success").
  - apply AddsKnownSlots_same. unfold alertAcknowledged.
    destruct r as [|data]; [reflexivity|].
    now destruct (String.eqb (status data) "success").
  - apply AddsKnownSlots_same. unfold alertResolved.
    destruct r as [|data]; [reflexivity|].
    now destruct (String.eqb (status data) "success").
  - apply AddsKnownSlots_same. unfold alertSilenced.
    destruct r as [|data]; [reflexivity|].
    now destruct (String.eqb (status data) "success").
Qed.

Lemma session_AddsKnownSlots events : forall w,
  AddsKnownSlots w (session events w).
Proof.
  induction events as [|e events IH]; intros w.
  - apply AddsKnownSlots_same. reflexivity.
  - eapply AddsKnownSlots_trans; [apply handle_AddsKnownSlots|apply IH].
Qed.

Lemma init_AddsKnownSlots w : AddsKnownSlots w (init w).
Proof.
  unfold init.
  eapply AddsKnownSlots_trans;
    [|apply AddsKnownSlots_same, setAutoRefresh_chartState].
  eapply AddsKnownSlots_trans; [|apply refreshDashboard_AddsKnownSlots].
  apply (handle_AddsKnownSlots (SwitchTab "system")).
Qed.

(** X20: whatever happens on the page, no chart slot other than the six
    of the dashboard is ever filled, so at most six Chart objects are
    ever constructed during a visit. *)
Theorem at_most_six_charts (date : Z) (events : list Event) :
  let w := session events (init (servedPage date)) in
  (forall slot, is_Some (charts (dash w) !! slot) -> In slot slotNames) /\
  (length (heap (browser w)) <= 6)%nat /\
  (size (charts (dash w)) <= 6)%nat.
Proof.
  intros w.
  assert (Hknown : forall slot, is_Some (charts (dash w) !! slot) -> In slot slotNames).
  { intros slot Hslot.
    destruct (session_AddsKnownSlots events _ slot Hslot) as [H1|Hk]; [|exact Hk].
    destruct (init_AddsKnownSlots _ slot H1) as [H0|Hk]; [|exact Hk].
    cbn in H0. rewrite lookup_empty in H0. now destruct H0. }
  assert (Hok : ChartsOk w).
  { apply session_KeepsCharts, init_KeepsCharts, servedPage_ChartsOk. }
  assert (Hsize : (size (charts (dash w)) <= 6)%nat).
  { rewrite <- size_dom.
    transitivity (size (list_to_set slotNames : gset string)).
    - apply subseteq_size. intros slot Hslot.
      apply elem_of_dom in Hslot. apply elem_of_list_to_set, list_elem_of_In.
      now apply Hknown.
    - rewrite size_list_to_set; [reflexivity|].
      unfold slotNames. repeat constructor; rewrite list_elem_of_In; simpl;
        intuition discriminate. }
  split; [exact Hknown|]. split; [|exact Hsize].
  destruct Hok as (-> & _). exact Hsize.
Qed.

End Slots.

(** ** What the charts show *)

Lemma slotChart_chartState slot w w' :
  chartState w' = chartState w -> slotChart slot w' = slotChart slot w.
Proof.
  intros Hst. unfold slotChart.
  now rewrite (f_equal fst Hst : charts (dash w') = charts (dash w)),
    (f_equal snd Hst : heap (browser w') = heap (browser w)).
Qed.

Lemma slotChart_datasets slot w c :
  ChartsOk w -> slotChart slot w = Some c ->
  length (chart_datasets c) = slotDatasets slot.
Proof.
  intros (_ & _ & Hrefs) Hc. unfold slotChart in Hc.
  destruct (charts (dash w) !! slot) as [ref|] eqn:Hslot; [|discriminate].
  destruct (Hrefs slot ref Hslot) as (c' & Hl & Hn & _). congruence.
Qed.

Lemma createOrUpdate_slotChart slot fresh change w :
  ChartsOk w ->
  slotChart slot (createOrUpdate slot fresh change w) =
  Some (match slotChart slot w with Some c => change c | None => fresh end).
Proof.
  intros (_ & _ & Hrefs). unfold slotChart.
  destruct (charts (dash w) !! slot) as [ref|] eqn:Hslot.
  - destruct (createOrUpdate_filled slot fresh change w ref Hslot) as [-> ->].
    rewrite Hslot. destruct (Hrefs slot ref Hslot) as (c & Hl & _).
    now rewrite list_lookup_alter_eq, Hl.
  - destruct (createOrUpdate_fresh slot fresh change w Hslot) as [-> ->].
    rewrite lookup_insert_eq, lookup_app_r by lia.
    now rewrite Nat.sub_diag.
Qed.

Lemma createOrUpdate_slotChart_other slot fresh change w slot' :
  ChartsOk w -> slot' <> slot ->
  slotChart slot' (createOrUpdate slot fresh change w) = slotChart slot' w.
Proof.
  intros (_ & Hinj & Hrefs) Hne. unfold slotChart.
  destruct (charts (dash w) !! slot) as [ref|] eqn:Hslot.
  - destruct (createOrUpdate_filled slot fresh change w ref Hslot) as [-> ->].
    destruct (charts (dash w) !! slot') as [ref'|] eqn:Hslot'; [|reflexivity].
    apply list_lookup_alter_ne. intros ->. apply Hne. eapply Hinj; eassumption.
  - destruct (createOrUpdate_fresh slot fresh change w Hslot) as [-> ->].
    rewrite lookup_insert_ne by congruence.
    destruct (charts (dash w) !! slot') as [ref'|] eqn:Hslot'; [|reflexivity].
    destruct (Hrefs slot' ref' Hslot') as (c & Hl & _).
    rewrite Hl. now apply lookup_app_l_Some.
Qed.

Section ChartsShown.

Context `{Locale}.

Lemma render_shows op w :
  ChartsOk w ->
  exists c,
    slotChart (renderSlot op) (render op w) = Some c /\
    chart_labels c = renderLabels op /\
    map ds_data (chart_datasets c) = renderData op.
Proof.
  intros Hok.
  destruct (render_pattern op w) as (fresh & change & Hst & Hfl & Hfd & Hch).
  rewrite (slotChart_chartState _ _ _ Hst), createOrUpdate_slotChart by exact Hok.
  destruct (slotChart (renderSlot op) w) as [c|] eqn:Hc.
  - exists (change c). split; [reflexivity|].
    destruct Hok as (Hsize & Hinj & Hrefs). unfold slotChart in Hc.
    destruct (charts (dash w) !! renderSlot op) as [ref|] eqn:Hslot; [|discriminate].
    destruct (Hrefs _ ref Hslot) as (c' & Hl & Hn & Hlab).
    assert (c' = c) by congruence. subst c'.
    now destruct (Hch c Hn Hlab) as (_ & Hlabels & Hdata).
  - now exists fresh.
Qed.

Lemma render_other op w slot :
  ChartsOk w -> slot <> renderSlot op ->
  slotChart slot (render op w) = slotChart slot w.
Proof.
  intros Hok Hne.
  destruct (render_pattern op w) as (fresh & change & Hst & _).
  rewrite (slotChart_chartState _ _ _ Hst).
  now apply createOrUpdate_slotChart_other.
Qed.

Lemma render_ChartsOk op w : ChartsOk w -> ChartsOk (render op w).
Proof.
  destruct op; cbn [render].
  - apply updateCpuChart_KeepsCharts.
  - apply updateMemoryChart_KeepsCharts.
  - apply updateDiskChart_KeepsCharts.
  - apply updateNetworkChart_KeepsCharts.
  - apply renderPerformanceChart_KeepsCharts.
  - apply loadLogs_KeepsCharts.
Qed.

End ChartsShown.

Lemma get_filter {V} (f : string * V -> bool) k (o : Js.object V) :
  (forall v, f (k, v) = true) ->
  Js.get k (List.filter f o) = Js.get k o.
Proof.
  intros Hk. induction o as [|[k' v'] o IH]; [reflexivity|].
  cbn [List.filter Js.get].
  destruct (String.eqb_spec k' k) as [->|Hne].
  - rewrite Hk. cbn [Js.get]. now rewrite String.eqb_refl.
  - destruct (f (k', v')); [|exact IH].
    cbn [Js.get]. destruct (String.eqb_spec k' k); [contradiction|exact IH].
Qed.

(** X21: what the four system charts show after a response.  The CPU and
    memory charts show the series of [system.cpu_percent] and
    [system.memory_percent] of the response, the network chart the two
    total rates in kilobytes with the time labels of the received one,
    and the disk chart the series picked among the disk metrics: the
    grouping into buckets loses none of the charted metrics, and a
    metric that is missing empties its chart. *)
Theorem system_charts_show `{Locale} (metricsData : MetricsData) (w : World) :
  Js.wf metricsData ->
  ChartsOk w ->
  let w' := updateSystemCharts metricsData w in
  ChartsOk w' /\
  Forall (fun op =>
            exists c,
              slotChart (renderSlot op) w' = Some c /\
              chart_labels c = renderLabels op /\
              map ds_data (chart_datasets c) = renderData op)
         [CpuChart metricsData; MemoryChart metricsData;
          DiskChart (List.filter (inBucket Disk) metricsData);
          NetworkChart metricsData].
Proof.
  intros Hwf Hok w'.
  split; [now apply updateSystemCharts_KeepsCharts|].
  pose proof (groupMetrics_filter metricsData Cpu Hwf) as Hcpu.
  pose proof (groupMetrics_filter metricsData Memory Hwf) as Hmem.
  pose proof (groupMetrics_filter metricsData Disk Hwf) as Hdisk.
  pose proof (groupMetrics_filter metricsData Network Hwf) as Hnet.
  cbn [bucketMetrics] in Hcpu, Hmem, Hdisk, Hnet.
  subst w'. unfold updateSystemCharts.
  set (b := groupMetrics metricsData) in *.
  set (w1 := updateCpuChart (cpuMetrics b) w).
  set (w2 := updateMemoryChart (memoryMetrics b) w1).
  set (w3 := updateDiskChart (diskMetrics b) w2).
  set (w4 := updateNetworkChart (networkMetrics b) w3).
  assert (Hst : forall slot,
            slotChart slot
              (updateMetricTable "network-metrics" (networkMetrics b)
                 (updateMetricTable "disk-metrics" (diskMetrics b)
                    (updateMetricTable "memory-metrics" (memoryMetrics b)
                       (updateMetricTable "cpu-metrics" (cpuMetrics b) w4)))) =
            slotChart slot w4).
  { intros slot. apply slotChart_chartState.
    now rewrite !updateMetricTable_chartState. }
  assert (Hok1 : ChartsOk w1) by now apply (render_ChartsOk (CpuChart _)).
  assert (Hok2 : ChartsOk w2) by now apply (render_ChartsOk (MemoryChart _)).
  assert (Hok3 : ChartsOk w3) by now apply (render_ChartsOk (DiskChart _)).
  assert (Hs1 : forall slot, slot <> "cpu" -> slotChart slot w1 = slotChart slot w).
  { intros slot Hne. now apply (render_other (CpuChart (cpuMetrics b))). }
  assert (Hs2 : forall slot, slot <> "memory" -> slotChart slot w2 = slotChart slot w1).
  { intros slot Hne. now apply (render_other (MemoryChart (memoryMetrics b))). }
  assert (Hs3 : forall slot, slot <> "disk" -> slotChart slot w3 = slotChart slot w2).
  { intros slot Hne. now apply (render_other (DiskChart (diskMetrics b))). }
  assert (Hs4 : forall slot, slot <> "network" -> slotChart slot w4 = slotChart slot w3).
  { intros slot Hne. now apply (render_other (NetworkChart (networkMetrics b))). }
  repeat constructor; cbn [renderSlot]; rewrite Hst.
  - rewrite Hs4, Hs3, Hs2 by discriminate.
    destruct (render_shows (CpuChart (cpuMetrics b)) w Hok) as (c & Hc & Hl & Hd).
    exists c. split; [exact Hc|]. cbn [renderLabels renderData] in *.
    rewrite Hcpu in Hl, Hd. rewrite get_filter in Hl, Hd by reflexivity.
    split; [exact Hl|exact Hd].
  - rewrite Hs4, Hs3 by discriminate.
    destruct (render_shows (MemoryChart (memoryMetrics b)) w1 Hok1)
      as (c & Hc & Hl & Hd).
    exists c. split; [exact Hc|]. cbn [renderLabels renderData] in *.
    rewrite Hmem in Hl, Hd. rewrite get_filter in Hl, Hd by reflexivity.
    split; [exact Hl|exact Hd].
  - rewrite Hs4 by discriminate.
    destruct (render_shows (DiskChart (diskMetrics b)) w2 Hok2)
      as (c & Hc & Hl & Hd).
    exists c. split; [exact Hc|]. cbn [renderLabels renderData] in *.
    rewrite Hdisk in Hl, Hd. split; [exact Hl|exact Hd].
  - destruct (render_shows (NetworkChart (networkMetrics b)) w3 Hok3)
      as (c & Hc & Hl & Hd).
    exists c. split; [exact Hc|]. cbn [renderLabels renderData] in *.
    rewrite Hnet in Hl, Hd.
    rewrite (get_filter (inBucket Network) "system.network_total_bytes_recv_per_sec")
      in Hl, Hd by reflexivity.
    rewrite (get_filter (inBucket Network) "system.network_total_bytes_sent_per_sec")
      in Hd by reflexivity.
    split; [exact Hl|exact Hd].
Qed.

Lemma system_charts_show_witness :
  let metricsData : MetricsData :=
    [("system.cpu_percent",
      [(1000, QArith_base.inject_Z 10); (2000, QArith_base.inject_Z 55)]);
     ("system.disk_usage_percent", [(1000, QArith_base.inject_Z 70)])] in
  let w' := @updateSystemCharts plainLocale metricsData (servedPage 0) in
  exists c,
    slotChart "cpu" w' = Some c /\
    chart_labels c = ["1000"; "2000"] /\
    map ds_data (chart_datasets c) =
      [[QArith_base.inject_Z 10; QArith_base.inject_Z 55]].
Proof.
  intros metricsData w'.
  destruct (@system_charts_show plainLocale metricsData (servedPage 0))
    as (_ & Hall).
  - unfold Js.wf. vm_compute.
    repeat constructor; rewrite list_elem_of_In; simpl; intuition discriminate.
  - apply servedPage_ChartsOk.
  - apply Forall_inv in Hall. exact Hall.
Defined.

(** X22: the performance chart is titled with the short name of the
    metric: of [category.metric_duration] the suffix [_duration] and
    everything up to the last dot are dropped, in the title and in the
    label of the data set, while labels and values are those of the
    history received. *)
Theorem performance_chart_title `{Locale}
    (category metric : string) (values : series) (w : World) :
  ChartsOk w ->
  Js.includes metric "." = false ->
  let w' := renderPerformanceChart
              ((category +:+ "." +:+ metric) +:+ "_duration") values w in
  stripDuration ((category +:+ "." +:+ metric) +:+ "_duration") =
    category +:+ "." +:+ metric /\
  exists c,
    slotChart "performance" w' = Some c /\
    chart_title c = Some ("Performance Metric: " +:+ metric) /\
    map ds_label (chart_datasets c) = [metric] /\
    chart_labels c = timeLabels values /\
    map ds_data (chart_datasets c) = [map snd values].
Proof.
  intros Hok Hdot w'.
  assert (Hstrip : stripDuration ((category +:+ "." +:+ metric) +:+ "_duration") =
                   category +:+ "." +:+ metric)
    by apply removeSuffix_append.
  split; [exact Hstrip|]. subst w'.
  rewrite renderPerformanceChart_pattern. cbv zeta. rewrite Hstrip.
  change (category +:+ "." +:+ metric) with (category +:+ String "." metric).
  rewrite lastSegment_append by exact Hdot.
  rewrite createOrUpdate_slotChart by exact Hok.
  destruct (slotChart "performance" w) as [c|] eqn:Hc.
  - apply (slotChart_datasets _ _ _ Hok) in Hc.
    destruct c as [? ? ? [|d [|]] ? ? ?]; try discriminate.
    eexists. split; [reflexivity|]. now cbn.
  - eexists. split; [reflexivity|]. now cbn.
Qed.

Lemma performance_chart_title_witness :
  let w' := @renderPerformanceChart plainLocale "task.run_duration"
              [(1000, QArith_base.inject_Z 3)] (servedPage 0) in
  exists c,
    slotChart "performance" w' = Some c /\
    chart_title c = Some "Performance Metric: run" /\
    map ds_label (chart_datasets c) = ["run"].
Proof.
  intros w'.
  destruct (@performance_chart_title plainLocale "task" "run"
              [(1000, QArith_base.inject_Z 3)] (servedPage 0))
    as (_ & c & Hc & Ht & Hl & _).
  - apply servedPage_ChartsOk.
  - reflexivity.
  - exists c. split; [exact Hc|]. split; [exact Ht|exact Hl].
Defined.

(** X23: the metric tables show the last response only: whatever an
    earlier response put into a table is gone after the next one. *)
Theorem metric_tables_superseded `{Locale}
    (earlier later : MetricsData) (w : World) (b : Bucket) :
  (forall b', is_Some (metricTables w !! bucketTable b')) ->
  metricTables (updateSystemCharts later (updateSystemCharts earlier w))
    !! bucketTable b =
  metricTables (updateSystemCharts later w) !! bucketTable b /\
  (bucketMetrics b (groupMetrics later) = [] ->
   metricTables (updateSystemCharts later (updateSystemCharts earlier w))
     !! bucketTable b = Some []).
Proof.
  intros Htables.
  assert (Htables' : forall b',
            is_Some (metricTables (updateSystemCharts earlier w) !! bucketTable b')).
  { intros b'. rewrite updateSystemCharts_table by exact Htables. eauto. }
  rewrite !updateSystemCharts_table by assumption.
  split; [reflexivity|]. now intros ->.
Qed.

Lemma metric_tables_superseded_witness :
  let earlier : MetricsData :=
    [("system.cpu_percent", [(1000, QArith_base.inject_Z 10)])] in
  let later : MetricsData :=
    [("system.memory_percent", [(2000, QArith_base.inject_Z 40)])] in
  let w := @updateSystemCharts plainLocale later
             (@updateSystemCharts plainLocale earlier (servedPage 0)) in
  metricTables w !! "cpu-metrics" = Some [].
Proof.
  intros earlier later w.
  destruct (@metric_tables_superseded plainLocale earlier later (servedPage 0) Cpu)
    as (_ & Hempty).
  - intros []; vm_compute; eauto.
  - apply Hempty. reflexivity.
Defined.

(** ** Requests and control state, event by event *)

Lemma createOrUpdate_requests slot fresh change w :
  requests (browser (createOrUpdate slot fresh change w)) = requests (browser w).
Proof. unfold createOrUpdate. destruct (charts (dash w) !! slot); reflexivity. Qed.

Lemma createOrUpdate_controlState slot fresh change w :
  controlState (createOrUpdate slot fresh change w) = controlState w.
Proof. unfold createOrUpdate. destruct (charts (dash w) !! slot); reflexivity. Qed.

Lemma controlState_fields w w' :
  controlState w' = controlState w ->
  currentTab (dash w') = currentTab (dash w) /\
  monitoringActive (dash w') = monitoringActive (dash w) /\
  lastRefresh (dash w') = lastRefresh (dash w) /\
  metricTables w' = metricTables w /\
  activeAlerts (alertsTab w') = activeAlerts (alertsTab w).
Proof.
  intros E. split; [|split; [|split; [|split]]].
  - exact (f_equal (fun p => fst (fst (fst (fst p)))) E).
  - exact (f_equal (fun p => snd (fst (fst (fst p)))) E).
  - exact (f_equal (fun p => snd (fst (fst p))) E).
  - exact (f_equal (fun p => snd (fst p)) E).
  - exact (f_equal snd E).
Qed.

Lemma updateMetricTable_rest tableId metrics w :
  dash (updateMetricTable tableId metrics w) = dash w /\
  browser (updateMetricTable tableId metrics w) = browser w /\
  alertsTab (updateMetricTable tableId metrics w) = alertsTab w.
Proof.
  unfold updateMetricTable. now destruct (metricTables w !! tableId).
Qed.

Lemma loadLogs_controlState w : controlState (loadLogs w) = controlState w.
Proof.
  unfold loadLogs, simulateLogs, showLogs, initLogLevelChart.
  destruct (charts (dash w) !! "logLevels") as [ref|] eqn:E; simpl.
  - rewrite E. reflexivity.
  - rewrite lookup_insert_eq. reflexivity.
Qed.

Lemma tabRequests_GET tabName w :
  (length (tabRequests tabName w) <= 2)%nat /\
  Forall (fun r => req_method r = "GET" /\ req_body r = []) (tabRequests tabName w).
Proof.
  unfold tabRequests.
  destruct (String.eqb tabName "system"); [cbn; split; [lia|repeat constructor]|].
  destruct (String.eqb tabName "performance"); [cbn; split; [lia|repeat constructor]|].
  destruct (String.eqb tabName "alerts"); cbn; split; try lia; repeat constructor.
Qed.

Section Events.

Context `{Locale}.

Lemma loadTabData_controlState tabName w :
  controlState (loadTabData tabName w) = controlState w.
Proof.
  unfold loadTabData.
  repeat match goal with |- context [if ?c then _ else _] => destruct c end;
    try reflexivity.
  apply loadLogs_controlState.
Qed.

Lemma updateSystemCharts_charts_only metricsData w :
  currentTab (dash (updateSystemCharts metricsData w)) = currentTab (dash w) /\
  monitoringActive (dash (updateSystemCharts metricsData w)) =
    monitoringActive (dash w) /\
  lastRefresh (dash (updateSystemCharts metricsData w)) = lastRefresh (dash w) /\
  activeAlerts (alertsTab (updateSystemCharts metricsData w)) =
    activeAlerts (alertsTab w) /\
  requests (browser (updateSystemCharts metricsData w)) = requests (browser w).
Proof.
  unfold updateSystemCharts.
  set (b := groupMetrics metricsData).
  set (w1 := updateCpuChart (cpuMetrics b) w).
  set (w2 := updateMemoryChart (memoryMetrics b) w1).
  set (w3 := updateDiskChart (diskMetrics b) w2).
  set (w4 := updateNetworkChart (networkMetrics b) w3).
  repeat match goal with
         | |- context [dash (updateMetricTable ?t ?m ?x)] =>
             rewrite (proj1 (updateMetricTable_rest t m x))
         | |- context [browser (updateMetricTable ?t ?m ?x)] =>
             rewrite (proj1 (proj2 (updateMetricTable_rest t m x)))
         | |- context [alertsTab (updateMetricTable ?t ?m ?x)] =>
             rewrite (proj2 (proj2 (updateMetricTable_rest t m x)))
         end.
  assert (Hc : controlState w4 = controlState w).
  { unfold w4, w3, w2, w1.
    rewrite updateNetworkChart_pattern, updateDiskChart_pattern,
      updateMemoryChart_pattern, updateCpuChart_pattern.
    cbv zeta. now rewrite !createOrUpdate_controlState. }
  assert (Hr : requests (browser w4) = requests (browser w)).
  { unfold w4, w3, w2, w1.
    rewrite updateNetworkChart_pattern, updateDiskChart_pattern,
      updateMemoryChart_pattern, updateCpuChart_pattern.
    cbv zeta. now rewrite !createOrUpdate_requests. }
  apply controlState_fields in Hc. destruct Hc as (-> & -> & -> & _ & ->).
  now rewrite Hr.
Qed.

Lemma refreshDashboard_requests w :
  exists rs,
    requests (browser (refreshDashboard w)) = requests (browser w) ++ rs /\
    (length rs <= 3)%nat /\
    Forall (fun r => req_method r = "GET" /\ req_body r = []) rs.
Proof.
  unfold refreshDashboard, checkMonitoringStatus.
  match goal with
  | |- context [fetch ?r (loadTabData ?t ?x)] =>
      exists (tabRequests t x ++ [r]);
      change (requests (browser (fetch r (loadTabData t x))))
        with (requests (browser (loadTabData t x)) ++ [r]);
      rewrite loadTabData_requests, <- app_assoc;
      destruct (tabRequests_GET t x) as [Hlen Hget]
  end.
  split; [reflexivity|]. split.
  - rewrite length_app. cbn [length]. lia.
  - apply Forall_app. split; [exact Hget|repeat constructor].
Qed.

Lemma updatePerformanceChart_requests w :
  exists rs,
    requests (browser (updatePerformanceChart w)) = requests (browser w) ++ rs /\
    (length rs <= 1)%nat /\
    Forall (fun r => req_method r = "GET" /\ req_body r = []) rs.
Proof.
  unfold updatePerformanceChart.
  destruct (selectedIndex _ <=? 0)%nat.
  - exists []. rewrite app_nil_r. repeat split; [cbn; lia|constructor].
  - eexists [_]. repeat split; [cbn; lia|repeat constructor].
Qed.

Lemma updatePerformanceChart_controlState w :
  controlState (updatePerformanceChart w) = controlState w.
Proof.
  unfold updatePerformanceChart.
  destruct (selectedIndex _ <=? 0)%nat; reflexivity.
Qed.

Ltac sends_nothing :=
  exists []; rewrite app_nil_r;
  split; [reflexivity|split; [cbn; lia|first [split; [cbn; lia|constructor]|constructor]]].

Ltac sends_these :=
  eexists; split;
  [cbn [fetch with_browser browser requests];
   rewrite <- ?app_assoc; cbn [app]; reflexivity|];
  split; [cbn; lia|];
  first [ split; [cbn; lia|repeat (constructor; [cbn; tauto|]); constructor]
        | repeat constructor ].

Lemma handle_requests (e : Event) (w : World) :
  exists rs,
    requests (browser (handle e w)) = requests (browser w) ++ rs /\
    (length rs <= 3)%nat /\
    if mutating e
    then (length rs <= 1)%nat /\
         Forall (fun r => req_method r = "POST" \/ req_method r = "PUT") rs
    else Forall (fun r => req_method r = "GET" /\ req_body r = []) rs.
Proof.
  destruct e; cbn [handle mutating].
  - unfold switchTab. rewrite loadTabData_requests.
    match goal with
    | |- context [tabRequests ?t ?x] =>
        exists (tabRequests t x); destruct (tabRequests_GET t x) as [Hlen Hget]
    end.
    split; [reflexivity|]. split; [lia|exact Hget].
  - apply refreshDashboard_requests.
  - unfold intervalFires. destruct (intervals (browser w) !! id).
    + apply refreshDashboard_requests.
    + sends_nothing.
  - unfold setAutoRefresh.
    destruct (refreshTimer (dash w)), (0 <? seconds); sends_nothing.
  - unfold toggleMonitoring. destruct (monitoringActive (dash w)); sends_these.
  - unfold monitoringToggled.
    destruct stop, r as [|data]; try sends_nothing;
      destruct (String.eqb (status data) "success"); sends_nothing.
  - unfold monitoringStatusLoaded. destruct r as [|data]; [sends_nothing|].
    destruct (String.eqb (status data) "active"); sends_nothing.
  - unfold systemMetricsLoaded. destruct r as [|data]; [sends_nothing|].
    unfold updateSystemInfo.
    exists [GET "/api/monitoring"]. split; [|split; [cbn; lia|repeat constructor]].
    change (requests (browser (fetch ?r ?x))) with (requests (browser x) ++ [r]).
    now destruct (updateSystemCharts_charts_only data w) as (_ & _ & _ & _ & ->).
  - unfold loadPerformanceMetrics. sends_these.
  - match goal with
    | |- context [updatePerformanceChart ?x] =>
        destruct (updatePerformanceChart_requests x) as (rs & Hrs & Hlen & Hget)
    end.
    exists rs. split; [exact Hrs|]. split; [lia|exact Hget].
  - unfold loadPerformanceMetrics. sends_these.
  - unfold performanceLoaded. destruct r as [|data]; [sends_nothing|].
    match goal with
    | |- context [updatePerformanceChart ?x] =>
        destruct (updatePerformanceChart_requests x) as (rs & Hrs & Hlen & Hget)
    end.
    exists rs. split; [exact Hrs|]. split; [lia|exact Hget].
  - unfold metricHistoryLoaded. destruct r as [|[name values]]; [sends_nothing|].
    rewrite renderPerformanceChart_pattern. cbv zeta.
    rewrite createOrUpdate_requests. sends_nothing.
  - unfold alertsLoaded. destruct r as [|alerts]; [sends_nothing|].
    unfold renderActiveAlerts. destruct alerts; sends_nothing.
  - unfold alertHistoryLoaded. destruct r; sends_nothing.
  - sends_nothing.
  - unfold createAlert. destruct (_ || _); [sends_nothing|sends_these].
  - unfold alertCreated. destruct r as [|data]; [sends_nothing|].
    destruct (String.eqb (status data) "success"); [|sends_nothing].
    unfold loadAlerts. sends_these.
  - unfold acknowledgeAlert. sends_these.
  - unfold resolveAlert. sends_these.
  - unfold silenceAlert. sends_these.
  - unfold alertAcknowledged. destruct r as [|data]; [sends_nothing|].
    destruct (String.eqb (status data) "success"); [|sends_nothing].
    unfold loadAlerts. sends_these.
  - unfold alertResolved. destruct r as [|data]; [sends_nothing|].
    destruct (String.eqb (status data) "success"); [|sends_nothing].
    unfold loadAlerts. sends_these.
  - unfold alertSilenced. destruct r as [|data]; [sends_nothing|].
    destruct (String.eqb (status data) "success"); [|sends_nothing].
    unfold loadAlerts. sends_these.
  - sends_nothing.
  - sends_nothing.
  - sends_nothing.
  - sends_nothing.
  - sends_nothing.
Qed.

(** X24: requests are only added to those under way, at most three per
    event.  Only five user actions (the monitoring toggle, the alert
    form, acknowledge, resolve and silence) ask the server to change
    anything, with one POST or PUT at most; every other event, the
    timer and the arrival of an answer included, sends nothing but GET
    requests without a body.  So a visit without one of the five actions
    sends GET requests only. *)
Theorem events_requests (e : Event) (events : list Event) (w : World) :
  (exists rs,
     requests (browser (handle e w)) = requests (browser w) ++ rs /\
     (length rs <= 3)%nat /\
     if mutating e
     then (length rs <= 1)%nat /\
          Forall (fun r => req_method r = "POST" \/ req_method r = "PUT") rs
     else Forall (fun r => req_method r = "GET" /\ req_body r = []) rs) /\
  (exists rs,
     requests (browser (session events w)) = requests (browser w) ++ rs /\
     (length rs <= 3 * length events)%nat /\
     (forallb (fun e => negb (mutating e)) events = true ->
      Forall (fun r => req_method r = "GET" /\ req_body r = []) rs)).
Proof.
  split; [apply handle_requests|]. clear e.
  revert w. induction events as [|e events IH]; intros w.
  - exists []. rewrite app_nil_r. repeat split; [cbn; lia|constructor].
  - destruct (handle_requests e w) as (rs1 & Hrs1 & Hlen1 & Hkind1).
    destruct (IH (handle e w)) as (rs2 & Hrs2 & Hlen2 & Hkind2).
    exists (rs1 ++ rs2). split; [|split].
    + change (session (e :: events) w) with (session events (handle e w)).
      now rewrite Hrs2, Hrs1, <- app_assoc.
    + rewrite length_app. cbn [length]. lia.
    + cbn [forallb]. intros Hquiet. apply andb_true_iff in Hquiet.
      destruct Hquiet as [He Hevents]. apply negb_true_iff in He.
      rewrite He in Hkind1. apply Forall_app. split; [exact Hkind1|auto].
Qed.

(** The events that only send requests, move a filter or fill a form
    leave the control state alone. *)
Lemma handle_controlState e w :
  match e with
  | SwitchTab _ | RefreshNow | IntervalFires _
  | MonitoringToggled _ _ | MonitoringStatusLoaded _
  | SystemMetricsLoaded _ | AlertsLoaded _ => True
  | _ => controlState (handle e w) = controlState w
  end.
Proof.
  destruct e; cbn [handle]; trivial.
  - unfold setAutoRefresh.
    now destruct (refreshTimer (dash w)), (0 <? seconds).
  - unfold toggleMonitoring. now destruct (monitoringActive (dash w)).
  - now rewrite updatePerformanceChart_controlState.
  - unfold performanceLoaded. destruct r as [|data]; [reflexivity|].
    now rewrite updatePerformanceChart_controlState.
  - unfold metricHistoryLoaded. destruct r as [|[name values]]; [reflexivity|].
    rewrite renderPerformanceChart_pattern. cbv zeta.
    apply createOrUpdate_controlState.
  - unfold alertHistoryLoaded. now destruct r.
  - unfold createAlert. now destruct (_ || _).
  - unfold alertCreated. destruct r as [|data]; [reflexivity|].
    now destruct (String.eqb (status data) "success").
  - unfold alertAcknowledged. destruct r as [|data]; [reflexivity|].
    now destruct (String.eqb (status data) "success").
  - unfold alertResolved. destruct r as [|data]; [reflexivity|].
    now destruct (String.eqb (status data) "success").
  - unfold alertSilenced. destruct r as [|data]; [reflexivity|].
    now destruct (String.eqb (status data) "success").
Qed.

Lemma refreshDashboard_controlState w :
  currentTab (dash (refreshDashboard w)) = currentTab (dash w) /\
  monitoringActive (dash (refreshDashboard w)) = monitoringActive (dash w) /\
  metricTables (refreshDashboard w) = metricTables w /\
  activeAlerts (alertsTab (refreshDashboard w)) = activeAlerts (alertsTab w).
Proof.
  unfold refreshDashboard, checkMonitoringStatus. cbv zeta.
  match goal with
  | |- context [loadTabData ?t ?x] =>
      pose proof (loadTabData_controlState t x) as Hc;
      set (y := loadTabData t x) in *
  end.
  change (dash (fetch (GET "/api/monitoring") y)) with (dash y).
  change (metricTables (fetch (GET "/api/monitoring") y)) with (metricTables y).
  change (alertsTab (fetch (GET "/api/monitoring") y)) with (alertsTab y).
  apply controlState_fields in Hc. destruct Hc as (H1 & H2 & _ & H4 & H5).
  rewrite H1, H2, H4, H5. now cbn.
Qed.

(** X25: which events change what.  The current tab changes only when a
    tab is switched to, the monitoring flag only when the answer to a
    toggle or to the status check arrives, the time of the last refresh
    only on a refresh (by hand or by the timer), the metric tables only
    when system metrics arrive, and the list of active alerts only when
    alerts arrive: acknowledging, resolving or silencing an alert
    changes nothing on the page by itself. *)
Theorem control_state_changes (e : Event) (w : World) :
  (currentTab (dash (handle e w)) <> currentTab (dash w) ->
   exists tabName, e = SwitchTab tabName) /\
  (monitoringActive (dash (handle e w)) <> monitoringActive (dash w) ->
   (exists stop data, e = MonitoringToggled stop (Js.Resolved data)) \/
   (exists data, e = MonitoringStatusLoaded (Js.Resolved data))) /\
  (lastRefresh (dash (handle e w)) <> lastRefresh (dash w) ->
   e = RefreshNow \/ exists id, e = IntervalFires id) /\
  (metricTables (handle e w) <> metricTables w ->
   exists data, e = SystemMetricsLoaded (Js.Resolved data)) /\
  (activeAlerts (alertsTab (handle e w)) <> activeAlerts (alertsTab w) ->
   exists alerts, e = AlertsLoaded (Js.Resolved alerts)).
Proof.
  pose proof (handle_controlState e w) as Hquiet.
  destruct e;
    try (apply controlState_fields in Hquiet;
         destruct Hquiet as (H1 & H2 & H3 & H4 & H5);
         repeat split; intros Hne; now destruct Hne).
  - cbn [handle]. unfold switchTab.
    match goal with
    | |- context [loadTabData ?t ?x] =>
        pose proof (loadTabData_controlState t x) as Hc
    end.
    apply controlState_fields in Hc. destruct Hc as (_ & -> & -> & -> & ->).
    split; [eauto|]. repeat split; intros Hne; now destruct Hne.
  - cbn [handle].
    destruct (refreshDashboard_controlState w) as (-> & -> & -> & ->).
    split; [intros Hne; now destruct Hne|].
    split; [intros Hne; now destruct Hne|].
    split; [auto|]. split; intros Hne; now destruct Hne.
  - cbn [handle]. unfold intervalFires.
    destruct (intervals (browser w) !! id).
    + destruct (refreshDashboard_controlState w) as (-> & -> & -> & ->).
      split; [intros Hne; now destruct Hne|].
      split; [intros Hne; now destruct Hne|].
      split; [eauto|]. split; intros Hne; now destruct Hne.
    + repeat split; intros Hne; now destruct Hne.
  - cbn [handle]. unfold monitoringToggled.
    destruct r as [|data].
    + destruct stop; repeat split; intros Hne; now destruct Hne.
    + split; [|split; [eauto|]].
      * destruct stop, (String.eqb (status data) "success");
          intros Hne; now destruct Hne.
      * destruct stop, (String.eqb (status data) "success");
          repeat split; intros Hne; now destruct Hne.
  - cbn [handle]. unfold monitoringStatusLoaded.
    destruct r as [|data].
    + repeat split; intros Hne; now destruct Hne.
    + split; [|split; [eauto|]].
      * destruct (String.eqb (status data) "active");
          intros Hne; now destruct Hne.
      * destruct (String.eqb (status data) "active");
          repeat split; intros Hne; now destruct Hne.
  - cbn [handle]. unfold systemMetricsLoaded.
    destruct r as [|data].
    + repeat split; intros Hne; now destruct Hne.
    + unfold updateSystemInfo.
      change (dash (fetch ?r ?x)) with (dash x).
      change (alertsTab (fetch ?r ?x)) with (alertsTab x).
      destruct (updateSystemCharts_charts_only data w) as (-> & -> & -> & -> & _).
      split; [intros Hne; now destruct Hne|].
      split; [intros Hne; now destruct Hne|].
      split; [intros Hne; now destruct Hne|].
      split; [eauto|intros Hne; now destruct Hne].
  - cbn [handle]. unfold alertsLoaded.
    destruct r as [|alerts].
    + repeat split; intros Hne; now destruct Hne.
    + split; [|split; [|split; [|split; [|eauto]]]];
        unfold renderActiveAlerts; destruct alerts;
        intros Hne; now destruct Hne.
Qed.

(** X26: [init] shows the system tab, refreshes, and schedules the
    refresh.  The system metrics are asked for twice in a row, once by
    the switch to the system tab and once by the refresh, before the
    monitoring status is. *)
Theorem init_requests (w : World) :
  requests (browser (init w)) =
    requests (browser w) ++
    [GET "/api/monitoring/metrics?category=system";
     GET "/api/monitoring/metrics?category=system";
     GET "/api/monitoring"] /\
  currentTab (dash (init w)) = "system" /\
  lastRefresh (dash (init w)) = Some (now (browser w)) /\
  lastUpdated (frame (init w)) = "Last updated: " +:+ formatTime (now (browser w)) /\
  (TimerOk w ->
   exists id, refreshTimer (dash (init w)) = Some id /\
              intervals (browser (init w)) = {[id := 10000]}).
Proof.
  unfold init.
  set (w1 := switchTab "system" w).
  set (w2 := refreshDashboard w1).
  assert (H1 : w1 = loadSystemMetrics
                      (with_frame (fun f =>
                         mkFrame (tabButtons f)
                           (map (fun pane =>
                                   mkTabPane (pane_id pane)
                                     (String.eqb (pane_id pane) "tab-system"))
                                (tabPanes f))
                           (toggleText f) (toggleDanger f) (lastUpdated f) (toasts f))
                      (with_frame (fun f =>
                         mkFrame
                           (map (fun button =>
                                   mkTabButton (button_tab button)
                                     (String.eqb (button_tab button) "system"))
                                (tabButtons f))
                           (tabPanes f) (toggleText f) (toggleDanger f)
                           (lastUpdated f) (toasts f))
                      (with_dash (set_currentTab "system") w)))) by reflexivity.
  assert (H2 : requests (browser w2) =
               requests (browser w) ++
               [GET "/api/monitoring/metrics?category=system";
                GET "/api/monitoring/metrics?category=system";
                GET "/api/monitoring"] /\
               currentTab (dash w2) = "system" /\
               lastRefresh (dash w2) = Some (now (browser w)) /\
               lastUpdated (frame w2) =
                 "Last updated: " +:+ formatTime (now (browser w)) /\
               timerState w2 = timerState w).
  { unfold w2. rewrite H1. unfold refreshDashboard, checkMonitoringStatus.
    cbn. rewrite <- !app_assoc. now cbn. }
  destruct H2 as (Hr & Ht & Hl & Hu & Hs).
  assert (Hok : TimerOk w -> TimerOk w2).
  { apply TimerOk_timerState, Hs. }
  clearbody w2. clear H1 w1.
  assert (Hsame : requests (browser (setAutoRefresh 10 w2)) = requests (browser w2) /\
                  currentTab (dash (setAutoRefresh 10 w2)) = currentTab (dash w2) /\
                  lastRefresh (dash (setAutoRefresh 10 w2)) = lastRefresh (dash w2) /\
                  frame (setAutoRefresh 10 w2) = frame w2).
  { unfold setAutoRefresh. now destruct (refreshTimer (dash w2)). }
  destruct Hsame as (-> & -> & -> & ->).
  repeat (split; [assumption|]).
  intros Hw. pose proof (setAutoRefresh_schedule 10 w2 (Hok Hw)) as Hsch.
  cbv zeta in Hsch. change (0 <? 10) with true in Hsch. cbv iota in Hsch.
  eexists. exact Hsch.
Qed.

End Events.
